(** * The Gate of cham: session registry, TCP framing and admission control

    A shallow embedding of [service/gate/gate.go].  The Gate accepts raw TCP
    or WebSocket clients, gives each a session id, frames the TCP byte
    stream into messages and forwards actor writes to the right backend.

    The file is organised as the Go file is: integers and byte order,
    the world the code runs in (connections, registry, log), a small
    program monad whose actions are the atomic steps of the Go code, the
    TCP backend, the WebSocket backend, the Gate, the buffer pools, and
    then the theorems. *)

From Stdlib Require Import ZArith List Lia Bool.
From Stdlib Require Import Strings.Byte.
From stdpp Require Import base option gmap.

Import ListNotations.
Local Open Scope Z_scope.

(** ** Machine integers and byte order *)

Abbreviation byte := Byte.byte.

(** Conversions [uint16(x)] and [uint32(x)] of Go: reduction modulo the width. *)
Definition uint16 (z : Z) : Z := z mod 65536.
Definition uint32 (z : Z) : Z := z mod 4294967296.

(** [byte(v)]: the low eight bits. *)
Definition byte_of_Z (z : Z) : byte :=
  match Byte.of_N (Z.to_N (z mod 256)) with
  | Some b => b
  | None => x00
  end.

Definition Z_of_byte (b : byte) : Z := Z.of_N (Byte.to_N b).

(** [encoding/binary]'s [BigEndian.PutUint16] and [BigEndian.Uint16].
    [PutUint16] fills a two-byte buffer; [Uint16] panics on a buffer shorter
    than two bytes, which is [None] here. *)
Module BigEndian.

Definition PutUint16 (v : Z) : list byte :=
  [byte_of_Z (Z.shiftr v 8); byte_of_Z v].

Definition Uint16 (b : list byte) : option Z :=
  match b with
  | b0 :: b1 :: _ => Some (Z.lor (Z_of_byte b1) (Z.shiftl (Z_of_byte b0) 8))
  | _ => None
  end.

End BigEndian.

(** ** Errors

    The errors the Gate can meet.  Of these only [OpError] implements the
    [net.Error] interface, and it alone answers [Temporary()]. *)
Inductive error : Type :=
| EOF
| ErrUnexpectedEOF
| OpError (temporary : bool)
| ErrHandshake.

(** The type assertion [err.(net.Error)]: the answer of [Temporary()] when
    the assertion succeeds. *)
Definition as_net_Error (e : error) : option bool :=
  match e with
  | OpError temporary => Some temporary
  | _ => None
  end.

(** ** The world *)

(** What a connection delivers to its reader: a byte, or a read that fails. *)
Inductive RItem : Type :=
| RByte (b : byte)
| RFail (e : error).

(** A [net.Conn] together with the [bufio.ReadWriter] wrapped around it. *)
Record Conn : Type := mkConn {
  inbox : list RItem;      (* what the reader will see, in order *)
  peer_closed : bool;      (* past [inbox]: end of stream, or no data yet *)
  wfail : option error;    (* [Some e]: the socket refuses writes with [e] *)
  wbuf : list byte;        (* bufio.Writer: bytes not flushed yet *)
  werr : option error;     (* bufio.Writer: its sticky error *)
  wire : list byte;        (* bytes that reached the peer *)
  closed : bool            (* [conn.Close()] was called *)
}.

(** [TcpBackend]: the fields [conn] and [brw] both point at the
    connection, which lives in the world under a handle. *)
Record TcpBackend : Type := mkTcpBackend {
  t_session : Z;
  t_conn : Z               (* handle of the connection in [conns] *)
}.

(** Modelled from the spec: the WebSocket connection object of the
    repository's websocket engine, which is not part of this file.  The spec
    gives it [start()], [sendText(bytes) -> error] and [close(code, reason)];
    whether [sendText] fails is a property of the object. *)
Record Websocket : Type := mkWebsocket {
  ws_session : Z;
  ws_sent : list (list byte);
  ws_fail : option error;
  ws_started : bool;
  ws_closed : option (Z * list byte)
}.

(** A [Backend] value as the registry stores it: a pointer to a
    [TcpBackend], or a [WebsocketBackend] wrapping a pointer to a
    [Websocket]. *)
Inductive Backend : Type :=
| TcpB (t : TcpBackend)
| WsB (ws : Z).

(** [sync.RWMutex]. *)
Record RWMutex : Type := mkRWMutex {
  writer : bool;
  readers : nat
}.

Definition unlocked : RWMutex := mkRWMutex false 0.

Record Conf : Type := NewConf {
  address : list byte;
  conf_maxclient : Z;      (* 0 -> no limit *)
  path : list byte         (* empty is tcp *)
}.

(** [Gate]; its [service] is the owning actor, seen here through what
    [Notify] sends it. *)
Record Gate : Type := mkGate {
  rwmutex : RWMutex;
  Source : Z;
  session : Z;
  clinetnum : Z;
  maxclient : Z;
  sessions : gmap Z Backend
}.

(** What the Gate tells the owning actor through [service.Notify]. *)
Inductive ClientEvent : Type :=
| OnOpen
| OnMessage (data : list byte)
| OnClose (code : Z) (reason : list byte)
| OnPong (data : list byte).

(** The trace of what the code does to the outside and to its lock. *)
Inductive Event : Type :=
| EvLock
| EvUnlock
| EvRLock
| EvRUnlock
| EvNotify (source : Z) (session : Z) (e : ClientEvent)
| EvClose (b : Backend)
| EvGoServe (t : TcpBackend)
| EvStart (ws : Z).

Record World : Type := mkWorld {
  gate : Gate;
  conns : gmap Z Conn;
  wss : gmap Z Websocket;
  log : list Event
}.

(** Field updates. *)
Definition with_gate (g : Gate) (w : World) : World :=
  mkWorld g (conns w) (wss w) (log w).
Definition with_conn (c : Z) (x : Conn) (w : World) : World :=
  mkWorld (gate w) (<[c := x]> (conns w)) (wss w) (log w).
Definition with_ws (h : Z) (x : Websocket) (w : World) : World :=
  mkWorld (gate w) (conns w) (<[h := x]> (wss w)) (log w).
Definition emit (e : Event) (w : World) : World :=
  mkWorld (gate w) (conns w) (wss w) (log w ++ [e]).

Definition set_rwmutex (m : RWMutex) (g : Gate) : Gate :=
  mkGate m (Source g) (session g) (clinetnum g) (maxclient g) (sessions g).
Definition set_Source (s : Z) (g : Gate) : Gate :=
  mkGate (rwmutex g) s (session g) (clinetnum g) (maxclient g) (sessions g).
Definition set_session (s : Z) (g : Gate) : Gate :=
  mkGate (rwmutex g) (Source g) s (clinetnum g) (maxclient g) (sessions g).
Definition set_clinetnum (n : Z) (g : Gate) : Gate :=
  mkGate (rwmutex g) (Source g) (session g) n (maxclient g) (sessions g).
Definition set_maxclient (n : Z) (g : Gate) : Gate :=
  mkGate (rwmutex g) (Source g) (session g) (clinetnum g) n (sessions g).
Definition set_sessions (m : gmap Z Backend) (g : Gate) : Gate :=
  mkGate (rwmutex g) (Source g) (session g) (clinetnum g) (maxclient g) m.

(** ** Programs

    A Go function is a tree of atomic actions on the world.  An action that
    cannot proceed in the current world (a lock that is held, a read with no
    data yet) answers [None].  Keeping the actions apart lets the same
    definition be run alone ([run]) and interleaved with another call
    ([interleave]). *)
Inductive Prog (R : Type) : Type :=
| Ret (r : R)
| Act {A : Type} (f : World -> option (A * World)) (k : A -> Prog R).

Arguments Ret {R} r.
Arguments Act {R A} f k.

Fixpoint bind {R S : Type} (p : Prog R) (g : R -> Prog S) : Prog S :=
  match p with
  | Ret r => g r
  | Act f k => Act f (fun a => bind (k a) g)
  end.

Definition act {A : Type} (f : World -> option (A * World)) : Prog A :=
  Act f Ret.

#[global] Instance Prog_ret : MRet Prog := fun _ r => Ret r.
#[global] Instance Prog_bind : MBind Prog := fun _ _ g p => bind p g.

Inductive Result (R : Type) : Type :=
| Finished (r : R) (w : World)
| Blocked (w : World).

Arguments Finished {R} r w.
Arguments Blocked {R} w.

Fixpoint run {R : Type} (p : Prog R) (w : World) : Result R :=
  match p with
  | Ret r => Finished r w
  | Act f k =>
      match f w with
      | Some (a, w') => run (k a) w'
      | None => Blocked w
      end
  end.

Definition world_of {R : Type} (r : Result R) : World :=
  match r with
  | Finished _ w => w
  | Blocked w => w
  end.

(** One atomic action of a call, for interleaving two calls. *)
Definition step {R : Type} (p : Prog R) (w : World) : option (Prog R * World) :=
  match p with
  | Ret _ => None
  | Act f k =>
      match f w with
      | Some (a, w') => Some (k a, w')
      | None => None
      end
  end.

(** Two calls running concurrently under a schedule: [true] lets the first
    take its next action, [false] the second.  A call that is finished or
    cannot proceed skips its turn. *)
Fixpoint interleave {R : Type} (sched : list bool) (p q : Prog R) (w : World)
  : Prog R * Prog R * World :=
  match sched with
  | [] => (p, q, w)
  | true :: sched =>
      match step p w with
      | Some (p', w') => interleave sched p' q w'
      | None => interleave sched p q w
      end
  | false :: sched =>
      match step q w with
      | Some (q', w') => interleave sched p q' w'
      | None => interleave sched p q w
      end
  end.

(** ** Primitive actions *)

(** [sync.RWMutex]: [Lock] waits for all holders, [RLock] for a writer. *)
Definition Lock (w : World) : option (unit * World) :=
  let m := rwmutex (gate w) in
  if negb (writer m) && Nat.eqb (readers m) 0
  then Some (tt, emit EvLock (with_gate (set_rwmutex (mkRWMutex true (readers m)) (gate w)) w))
  else None.

Definition Unlock (w : World) : option (unit * World) :=
  let m := rwmutex (gate w) in
  Some (tt, emit EvUnlock (with_gate (set_rwmutex (mkRWMutex false (readers m)) (gate w)) w)).

Definition RLock (w : World) : option (unit * World) :=
  let m := rwmutex (gate w) in
  if negb (writer m)
  then Some (tt, emit EvRLock (with_gate (set_rwmutex (mkRWMutex false (S (readers m))) (gate w)) w))
  else None.

Definition RUnlock (w : World) : option (unit * World) :=
  let m := rwmutex (gate w) in
  Some (tt, emit EvRUnlock (with_gate (set_rwmutex (mkRWMutex (writer m) (Nat.pred (readers m))) (gate w)) w)).

(** The registry map and the counters of the Gate. *)
Definition sessions_get (id : Z) (w : World) : option (option Backend * World) :=
  Some (sessions (gate w) !! id, w).

Definition sessions_put (id : Z) (b : Backend) (w : World) : option (unit * World) :=
  Some (tt, with_gate (set_sessions (<[id := b]> (sessions (gate w))) (gate w)) w).

Definition sessions_delete (id : Z) (w : World) : option (unit * World) :=
  Some (tt, with_gate (set_sessions (delete id (sessions (gate w))) (gate w)) w).

Definition clinetnum_load (w : World) : option (Z * World) :=
  Some (clinetnum (gate w), w).

(** [g.clinetnum++] and [g.clinetnum--] on a [uint32]. *)
Definition clinetnum_inc (w : World) : option (unit * World) :=
  Some (tt, with_gate (set_clinetnum (uint32 (clinetnum (gate w) + 1)) (gate w)) w).

Definition clinetnum_dec (w : World) : option (unit * World) :=
  Some (tt, with_gate (set_clinetnum (uint32 (clinetnum (gate w) - 1)) (gate w)) w).

(** [atomic.AddUint32(&g.session, delta)]: adds and answers the new value. *)
Definition atomic_AddUint32_session (delta : Z) (w : World) : option (Z * World) :=
  let v := uint32 (session (gate w) + delta) in
  Some (v, with_gate (set_session v (gate w)) w).

(** [g.service.Notify(g.Source, cham.PTYPE_CLIENT, session, ...)]. *)
Definition Notify (session : Z) (e : ClientEvent) (w : World) : option (unit * World) :=
  Some (tt, emit (EvNotify (Source (gate w)) session e) w).

(** *** Buffered I/O on a connection

    [bufio.Writer] is taken without its capacity: bytes reach the socket in
    the order they were written, at the latest on [Flush].  Once the backend
    was closed its reader and writer are reset and back in their pools;
    using them then is outside this model ([None]). *)
Definition set_inbox (l : list RItem) (c : Conn) : Conn :=
  mkConn l (peer_closed c) (wfail c) (wbuf c) (werr c) (wire c) (closed c).
Definition set_wbuf (l : list byte) (c : Conn) : Conn :=
  mkConn (inbox c) (peer_closed c) (wfail c) l (werr c) (wire c) (closed c).
Definition set_werr (e : option error) (c : Conn) : Conn :=
  mkConn (inbox c) (peer_closed c) (wfail c) (wbuf c) e (wire c) (closed c).
Definition set_wire (l : list byte) (c : Conn) : Conn :=
  mkConn (inbox c) (peer_closed c) (wfail c) (wbuf c) (werr c) l (closed c).
Definition set_closed (b : bool) (c : Conn) : Conn :=
  mkConn (inbox c) (peer_closed c) (wfail c) (wbuf c) (werr c) (wire c) b.

Definition on_open_conn {A : Type} (c : Z) (f : Conn -> option (A * Conn))
  (w : World) : option (A * World) :=
  match conns w !! c with
  | Some x =>
      if closed x then None
      else match f x with
           | Some (a, x') => Some (a, with_conn c x' w)
           | None => None
           end
  | None => None
  end.

Definition bufio_Write (p : list byte) (x : Conn) : option (option error * Conn) :=
  match werr x with
  | Some e => Some (Some e, x)
  | None => Some (None, set_wbuf (wbuf x ++ p) x)
  end.

Definition bufio_Flush (x : Conn) : option (option error * Conn) :=
  match werr x with
  | Some e => Some (Some e, x)
  | None =>
      match wbuf x with
      | [] => Some (None, x)
      | _ :: _ =>
          match wfail x with
          | Some e => Some (Some e, set_werr (Some e) x)
          | None => Some (None, set_wbuf [] (set_wire (wire x ++ wbuf x) x))
          end
      end
  end.

(** Reading [n] bytes: the bytes got, the error that cut the read short,
    and what is left to read.  With no data yet and the peer still there,
    the read waits. *)
Fixpoint read_items (n : nat) (items : list RItem) (eof : bool)
  : option (list byte * option error * list RItem) :=
  match n with
  | O => Some ([], None, items)
  | S n' =>
      match items with
      | RByte b :: rest =>
          match read_items n' rest eof with
          | Some (got, err, rest') => Some (b :: got, err, rest')
          | None => None
          end
      | RFail e :: rest => Some ([], Some e, rest)
      | [] => if eof then Some ([], Some EOF, []) else None
      end
  end.

(** [io.ReadFull]: an end of stream after some bytes but before the buffer
    is full is [ErrUnexpectedEOF].  The bytes read overwrite the front of
    the buffer, the rest keeps what it held. *)
Definition short_read (got : list byte) (err : option error) : option error :=
  match err, got with
  | Some EOF, _ :: _ => Some ErrUnexpectedEOF
  | _, _ => err
  end.

Definition io_ReadFull (buf : list byte) (x : Conn) : option (list byte * option error * Conn) :=
  match read_items (length buf) (inbox x) (peer_closed x) with
  | Some (got, err, rest) =>
      Some (got ++ skipn (length got) buf, short_read got err, set_inbox rest x)
  | None => None
  end.

(** ** The TCP backend *)

(** [newTcpBackend]; the reader and writer taken from the pools are reset
    onto the connection, so the backend starts with empty buffers. *)
Definition newTcpBackend (session : Z) (conn : Z) : TcpBackend :=
  mkTcpBackend session conn.

(** [TcpBackend.Close]: both buffers go back to their pools, reset, and
    the socket is closed. *)
Definition TcpBackend_Close (t : TcpBackend) : Prog unit :=
  act (fun w =>
    match conns w !! t_conn t with
    | Some x =>
        Some (tt, emit (EvClose (TcpB t))
                    (with_conn (t_conn t) (set_closed true (set_werr None (set_wbuf [] x))) w))
    | None => Some (tt, emit (EvClose (TcpB t)) w)
    end).

Definition TcpBackend_Write (t : TcpBackend) (data : list byte) : Prog (option error) :=
  let head := BigEndian.PutUint16 (uint16 (Z.of_nat (length data))) in
  err ← act (on_open_conn (t_conn t) (bufio_Write head));
  match err with
  | None =>
      err ← act (on_open_conn (t_conn t) (bufio_Write data));
      match err with
      | None => act (on_open_conn (t_conn t) (bufio_Flush))
      | Some _ => mret err
      end
  | Some _ => mret err
  end.

(** [TcpBackend.readFull]: the buffer after the read, and the error the
    function returns. *)
Definition TcpBackend_readFull (t : TcpBackend) (buf : list byte)
  : Prog (list byte * option error) :=
  r ← act (on_open_conn (t_conn t) (io_ReadFull buf));
  let '(buf', err) := r in
  match err with
  | Some e =>
      match as_net_Error e with
      | Some false => mret (buf', Some e)
      | _ => mret (buf', None)
      end
  | None => mret (buf', None)
  end.

(** ** The WebSocket backend

    Modelled from the spec: [SendText], [Close(code, reason)], [Start] and
    [NewWebsocket] belong to the websocket engine.  [SendText] delivers the
    text or fails as the object says; [NewWebsocket] performs the upgrade
    handshake of a request and, when it succeeds, yields a new object
    carrying the session id; a failed handshake creates nothing. *)
Definition set_ws_sent (l : list (list byte)) (x : Websocket) : Websocket :=
  mkWebsocket (ws_session x) l (ws_fail x) (ws_started x) (ws_closed x).
Definition set_ws_started (b : bool) (x : Websocket) : Websocket :=
  mkWebsocket (ws_session x) (ws_sent x) (ws_fail x) b (ws_closed x).
Definition set_ws_closed (c : option (Z * list byte)) (x : Websocket) : Websocket :=
  mkWebsocket (ws_session x) (ws_sent x) (ws_fail x) (ws_started x) c.

Definition SendText (h : Z) (data : list byte) (w : World) : option (option error * World) :=
  match wss w !! h with
  | Some x =>
      match ws_fail x with
      | Some e => Some (Some e, w)
      | None => Some (None, with_ws h (set_ws_sent (ws_sent x ++ [data]) x) w)
      end
  | None => None
  end.

Definition Websocket_Close (h : Z) (code : Z) (reason : list byte) (w : World)
  : option (unit * World) :=
  match wss w !! h with
  | Some x => Some (tt, with_ws h (set_ws_closed (Some (code, reason)) x) w)
  | None => Some (tt, w)
  end.

Definition Websocket_Start (h : Z) (w : World) : option (unit * World) :=
  match wss w !! h with
  | Some x => Some (tt, emit (EvStart h) (with_ws h (set_ws_started true x) w))
  | None => None
  end.

(** An upgrade request: how its handshake ends, and where the object it
    creates will live. *)
Record Request : Type := mkRequest {
  handshake : option error;
  ws_handle : Z
}.

Definition NewWebsocket (r : Request) (session : Z) (w : World)
  : option ((option Z * option error) * World) :=
  match handshake r with
  | Some e => Some ((None, Some e), w)
  | None =>
      Some ((Some (ws_handle r), None),
            with_ws (ws_handle r) (mkWebsocket session [] None false None) w)
  end.

Definition WebsocketBackend_Close (h : Z) : Prog unit :=
  act (fun w => Some (tt, emit (EvClose (WsB h)) w));;
  act (Websocket_Close h 0 []).

Definition WebsocketBackend_Write (h : Z) (data : list byte) : Prog (option error) :=
  act (SendText h data).

Definition newWebsocket (r : Request) (session : Z) : Prog (option Backend * option error) :=
  x ← act (NewWebsocket r session);
  match x with
  | (Some h, None) => mret (Some (WsB h), None)
  | (_, err) => mret (None, err)
  end.

(** The callbacks the engine calls: each forwards to the owning actor. *)
Definition wsHandler_CheckOrigin (origin host : list byte) : bool := true.

Definition ws_Notify (h : Z) (e : ClientEvent) : Prog unit :=
  act (fun w =>
    match wss w !! h with
    | Some x => Notify (ws_session x) e w
    | None => None
    end).

Definition wsHandler_OnOpen (h : Z) : Prog unit := ws_Notify h OnOpen.
Definition wsHandler_OnMessage (h : Z) (message : list byte) : Prog unit :=
  ws_Notify h (OnMessage message).
Definition wsHandler_OnClose (h : Z) (code : Z) (reason : list byte) : Prog unit :=
  ws_Notify h (OnClose code reason).
Definition wsHandler_OnPong (h : Z) (data : list byte) : Prog unit :=
  ws_Notify h (OnPong data).

(** ** The Backend interface: dispatch on the dynamic type *)
Definition Backend_Write (b : Backend) (data : list byte) : Prog (option error) :=
  match b with
  | TcpB t => TcpBackend_Write t data
  | WsB h => WebsocketBackend_Write h data
  end.

Definition Backend_Close (b : Backend) : Prog unit :=
  match b with
  | TcpB t => TcpBackend_Close t
  | WsB h => WebsocketBackend_Close h
  end.

(** ** The Gate *)

Definition New (source : Z) : Gate :=
  mkGate unlocked source 0 0 0 ∅.

Definition Gate_nextSession : Prog Z :=
  act (atomic_AddUint32_session 1).

Definition Gate_addBackend (session : Z) (b : Backend) : Prog unit :=
  act Lock;;
  act (sessions_put session b);;
  act Unlock.

Definition Gate_kick (session : Z) : Prog unit :=
  act Lock;;
  r ← act (sessions_get session);
  match r with
  | Some _ => act (sessions_delete session);; act clinetnum_dec
  | None => mret tt
  end;;
  act Unlock;;
  match r with
  | Some b => Backend_Close b
  | None => mret tt
  end.

Definition Gate_Write (session : Z) (data : list byte) : Prog (option error) :=
  act RLock;;
  r ← act (sessions_get session);
  act RUnlock;;
  match r with
  | Some b => Backend_Write b data
  | None => mret None
  end.

(** *** The read loop of a TCP backend

    [for { ... }] has no bound; [fuel] counts the iterations the loop is
    followed for.  [head] is allocated once, before the loop, and is reused
    by every iteration. *)
Inductive LoopResult : Type :=
| Returned
| Panicked
| OutOfFuel.

Fixpoint TcpBackend_serve (fuel : nat) (t : TcpBackend) (head : list byte)
  : Prog LoopResult :=
  match fuel with
  | O => mret OutOfFuel
  | S fuel =>
      r ← TcpBackend_readFull t head;
      let '(head, err) := r in
      match err with
      | Some _ => Gate_kick (t_session t);; mret Returned
      | None =>
          match BigEndian.Uint16 head with
          | None => mret Panicked
          | Some length =>
              let data := repeat x00 (Z.to_nat length) in
              r ← TcpBackend_readFull t data;
              let '(data, err) := r in
              match err with
              | Some _ => Gate_kick (t_session t);; mret Returned
              | None =>
                  act (Notify (t_session t) (OnMessage data));;
                  TcpBackend_serve fuel t head
              end
          end
      end
  end.

Definition serve_start (fuel : nat) (t : TcpBackend) : Prog LoopResult :=
  TcpBackend_serve fuel t [x00; x00].

(** *** Listening: [Gate.open]

    In TCP mode one goroutine runs the accept loop; in WebSocket mode the
    HTTP server runs the handler once per upgrade request.  [maxclient] is
    the local copy of [conf.maxclient] both closures capture. *)
Inductive AcceptResult : Type :=
| AcceptErr (e : error)
| AcceptConn (c : Z).

Inductive LoopCtl : Type :=
| Continue
| Break.

(** [conn.Close()] on a connection no backend owns yet. *)
Definition conn_Close (c : Z) (w : World) : option (unit * World) :=
  match conns w !! c with
  | Some x => Some (tt, with_conn c (set_closed true x) w)
  | None => Some (tt, w)
  end.

(** [go backend.serve(g)]. *)
Definition go_serve (t : TcpBackend) (w : World) : option (unit * World) :=
  Some (tt, emit (EvGoServe t) w).

(** One turn of the accept loop, for what [listen.Accept()] returned. *)
Definition accept_iteration (maxclient : Z) (r : AcceptResult) : Prog LoopCtl :=
  match r with
  | AcceptErr _ => mret Continue
  | AcceptConn conn =>
      n ← act clinetnum_load;
      if negb (maxclient =? 0) && (maxclient <=? n)
      then act (conn_Close conn);; mret Break
      else
        act clinetnum_inc;;
        session ← Gate_nextSession;
        let backend := newTcpBackend session conn in
        act (sessions_put session (TcpB backend));;
        act (go_serve backend);;
        mret Continue
  end.

(** The handler installed by [http.HandleFunc(conf.path, ...)]. *)
Definition upgrade_handler (maxclient : Z) (r : Request) : Prog unit :=
  n ← act clinetnum_load;
  if negb (maxclient =? 0) && (maxclient <=? n)
  then mret tt
  else
    session ← Gate_nextSession;
    x ← newWebsocket r session;
    match x with
    | (Some (WsB h as ws), None) =>
        Gate_addBackend session ws;;
        act clinetnum_inc;;
        act (Websocket_Start h)
    | _ => mret tt
    end.

(** ** The running Gate

    The Gate with its listener, driven by what reaches it: connections and
    upgrade requests from the network, [OPEN] and [KICK] commands and write
    requests from the actor system, and the progress of the read loops. *)
Inductive Listener : Type :=
| NotListening
| Accepting (maxclient : Z)      (* the accept loop is running *)
| AcceptStopped                  (* the accept loop left; the listener is closed *)
| Upgrading (maxclient : Z).     (* the HTTP handler is installed *)

Record Sys : Type := mkSys {
  world : World;
  listener : Listener
}.

Definition Gate_open (conf : Conf) (s : Sys) : Sys :=
  let maxclient := conf_maxclient conf in
  let w := with_gate (set_maxclient maxclient (gate (world s))) (world s) in
  match path conf with
  | [] => mkSys w (Accepting maxclient)
  | _ :: _ => mkSys w (Upgrading maxclient)
  end.

Inductive Cmd : Type :=
| OPEN (conf : Conf)
| KICK (session : Z).

Inductive Input : Type :=
| InAccept (r : AcceptResult)
| InUpgrade (r : Request)
| InCmd (source : Z) (cmd : Cmd)
| InResponse (sessionid : Z) (data : list byte)
| InServe (fuel : nat) (t : TcpBackend) (head : list byte)
| InWsEvent (h : Z) (e : ClientEvent).

Definition Start (source : Z) (cmd : Cmd) (s : Sys) : Sys :=
  match cmd with
  | OPEN conf =>
      Gate_open conf
        (mkSys (with_gate (set_Source source (gate (world s))) (world s)) (listener s))
  | KICK session =>
      mkSys (world_of (run (Gate_kick session) (world s))) (listener s)
  end.

Definition ResponseStart (sessionid : Z) (data : list byte) (s : Sys) : Sys :=
  mkSys (world_of (run (Gate_Write sessionid data) (world s))) (listener s).

Definition sys_step (s : Sys) (i : Input) : Sys :=
  match i with
  | InAccept r =>
      match listener s with
      | Accepting maxclient =>
          match run (accept_iteration maxclient r) (world s) with
          | Finished Break w => mkSys w AcceptStopped
          | Finished Continue w => mkSys w (Accepting maxclient)
          | Blocked w => mkSys w (Accepting maxclient)
          end
      | _ => s
      end
  | InUpgrade r =>
      match listener s with
      | Upgrading maxclient =>
          mkSys (world_of (run (upgrade_handler maxclient r) (world s))) (listener s)
      | _ => s
      end
  | InCmd source cmd => Start source cmd s
  | InResponse sessionid data => ResponseStart sessionid data s
  | InServe fuel t head =>
      mkSys (world_of (run (TcpBackend_serve fuel t head) (world s))) (listener s)
  | InWsEvent h e =>
      mkSys (world_of (run (ws_Notify h e) (world s))) (listener s)
  end.

Definition sys_run (s : Sys) (ins : list Input) : Sys :=
  fold_left sys_step ins s.

(** A Gate just created by [Start], before any command. *)
Definition fresh_world : World := mkWorld (New 0) ∅ ∅ [].
Definition fresh : Sys := mkSys fresh_world NotListening.

(** A connection as the network hands it over. *)
Definition incoming (items : list RItem) (eof : bool) : Conn :=
  mkConn items eof None [] None [] false.

(** The frame of a payload as the wire format has it. *)
Definition frame (data : list byte) : list byte :=
  BigEndian.PutUint16 (uint16 (Z.of_nat (length data))) ++ data.

(** ** Vocabulary of the properties *)

(** A connection that is open and whose socket and writer are in order. *)
Definition healthy (x : Conn) : Prop :=
  closed x = false /\ werr x = None /\ wfail x = None.

(** The connection once [p] has been written and flushed on it. *)
Definition sent (p : list byte) (x : Conn) : Conn :=
  set_wbuf [] (set_wire (wire x ++ wbuf x ++ p) x).

(** The error [TcpBackend.readFull] returns for the error of [io.ReadFull]. *)
Definition reported (err : option error) : option error :=
  match err with
  | Some e =>
      match as_net_Error e with
      | Some false => Some e
      | _ => None
      end
  | None => None
  end.

(** The world once a reader has taken and released the registry lock. *)
Definition after_rlock (w : World) : World :=
  emit EvRUnlock (emit EvRLock w).

(** The world once [kick] has released the exclusive lock, having found
    [found] under the id. *)
Definition after_kick_lock (id : Z) (found : bool) (w : World) : World :=
  let g := gate w in
  let g' := if found
            then set_clinetnum (uint32 (clinetnum g - 1))
                   (set_sessions (delete id (sessions g)) g)
            else g in
  mkWorld g' (conns w) (wss w) (log w ++ [EvLock; EvUnlock]).

(** A Gate with one TCP session, number 1, on connection 7. *)
Definition demo_backend : TcpBackend := mkTcpBackend 1 7.
Definition demo_world : World :=
  mkWorld (mkGate unlocked 9 1 1 0 {[1 := TcpB demo_backend]})
          {[7 := incoming [] false]} ∅ [].
Definition hello : list byte := [x68; x65; x6c; x6c; x6f].

(** What an iteration does once the header is in [head]. *)
Definition serve_after_head (fuel : nat) (t : TcpBackend) (head : list byte)
  : Prog LoopResult :=
  match BigEndian.Uint16 head with
  | None => mret Panicked
  | Some length =>
      r ← TcpBackend_readFull t (repeat x00 (Z.to_nat length));
      let '(data, err) := r in
      match err with
      | Some _ => Gate_kick (t_session t);; mret Returned
      | None =>
          act (Notify (t_session t) (OnMessage data));;
          TcpBackend_serve fuel t head
      end
  end.

(** The Gate of [demo_world] whose client has disconnected. *)
Definition eof_world : World :=
  mkWorld (gate demo_world) {[7 := incoming [] true]} ∅ [].

(** A payload of 65536 bytes. *)
Definition big_payload : list byte := repeat x00 (Z.to_nat 65536).

(** The world once the frames of [d1] and [d2] have gone out, in this
    order, on the connection of [t]. *)
Definition both_sent (t : TcpBackend) (d1 d2 : list byte) (x : Conn) (w : World) : World :=
  with_conn (t_conn t) (sent (frame d1 ++ frame d2) x) w.

(** The schedule that lets the two calls alternate, action by action. *)
Definition alternating : list bool := [true; false; true; false; true; false].

(** The world after [n] calls of [nextSession], and what the call after
    them returns. *)
Fixpoint allocate (n : nat) (w : World) : World :=
  match n with
  | O => w
  | S n => world_of (run Gate_nextSession (allocate n w))
  end.

Definition nth_session (n : nat) (w : World) : option Z :=
  match run Gate_nextSession (allocate n w) with
  | Finished id _ => Some id
  | Blocked _ => None
  end.

(** The backends whose read loop was started, as the trace shows them. *)
Fixpoint serving (l : list Event) : list TcpBackend :=
  match l with
  | [] => []
  | EvGoServe t :: l => t :: serving l
  | _ :: l => serving l
  end.

(** Nothing was admitted between [w] and [w']: no id was allocated, no
    entry added to the registry, no read loop started. *)
Definition quiet (w w' : World) : Prop :=
  session (gate w') = session (gate w) /\
  (forall id b, sessions (gate w') !! id = Some b -> sessions (gate w) !! id = Some b) /\
  serving (log w') = serving (log w).

(** Every action of a program keeps a relation between the world before
    and after it. *)
Fixpoint acts_in {R : Type} (P : World -> World -> Prop) (p : Prog R) : Prop :=
  match p with
  | Ret _ => True
  | Act f k =>
      (forall w a w', f w = Some (a, w') -> P w w') /\ (forall a, acts_in P (k a))
  end.

(** Any input but a new [OPEN] command. *)
Definition not_open (i : Input) : Prop :=
  match i with
  | InCmd _ (OPEN _) => False
  | _ => True
  end.

(** The world after the accept loop has admitted connection [c]. *)
Definition admitted (c : Z) (w : World) : World :=
  let g := gate w in
  let id := uint32 (session g + 1) in
  mkWorld (mkGate (rwmutex g) (Source g) id (uint32 (clinetnum g + 1)) (maxclient g)
                  (<[id := TcpB (newTcpBackend id c)]> (sessions g)))
          (conns w) (wss w) (log w ++ [EvGoServe (newTcpBackend id c)]).

(** A TCP Gate with room for one client, and three clients knocking. *)
Definition three_conns : World :=
  mkWorld (New 0) {[7 := incoming [] false; 8 := incoming [] false; 9 := incoming [] false]} ∅ [].
Definition one_seat : Sys :=
  sys_run (mkSys three_conns NotListening) [InCmd 5 (OPEN (NewConf [] 1 []))].

(** One seat: the first client takes it, the second is turned away, then
    session 1 is kicked and a third client knocks. *)
Definition seat_taken : Sys := sys_step one_seat (InAccept (AcceptConn 7)).
Definition seat_refused : Sys := sys_step seat_taken (InAccept (AcceptConn 8)).
Definition seat_freed : Sys := sys_run seat_refused [InCmd 5 (KICK 1); InAccept (AcceptConn 9)].

(** The session ids the actor has been notified about. *)
Fixpoint notified (l : list Event) : list Z :=
  match l with
  | [] => []
  | EvNotify _ id _ :: l => id :: notified l
  | _ :: l => notified l
  end.

(** The id [k] is in use nowhere: not in the registry, not carried by a
    websocket, and no notification has named it. *)
Definition unused (k : Z) (w : World) : Prop :=
  sessions (gate w) !! k = None /\
  (forall h x, wss w !! h = Some x -> ws_session x <> k) /\
  ~ In k (notified (log w)).

(** A step that allocates no id and brings [k] into use nowhere. *)
Definition keeps_unused (k : Z) (w w' : World) : Prop :=
  session (gate w') = session (gate w) /\ (unused k w -> unused k w').

(** What reaches a Gate in WebSocket mode. *)
Definition ws_input (i : Input) : Prop :=
  match i with
  | InUpgrade _ | InCmd _ (KICK _) | InResponse _ _ | InWsEvent _ _ => True
  | _ => False
  end.

(** The world after a failed upgrade: the id is spent, nothing else moved. *)
Definition id_spent (w : World) : World :=
  with_gate (set_session (uint32 (session (gate w) + 1)) (gate w)) w.

(** A WebSocket Gate, and the requests it is sent: an upgrade whose
    handshake fails, one that succeeds, traffic on the session that
    resulted, and the kick of the id the failed upgrade had spent. *)
Definition ws_gate : Sys :=
  sys_run fresh [InCmd 5 (OPEN (NewConf [] 0 [x2f; x77; x73]))].
Definition bad_request : Request := mkRequest (Some ErrHandshake) 3.
Definition good_request : Request := mkRequest None 4.
Definition ws_traffic : list Input :=
  [InUpgrade good_request; InWsEvent 4 OnOpen; InWsEvent 4 (OnMessage hello);
   InResponse 2 hello; InCmd 5 (KICK 1); InCmd 5 (KICK 2)].

(** A step that leaves the Gate itself alone. *)
Definition same_gate (w w' : World) : Prop := gate w' = gate w.

(** A program that, started with the registry lock free, leaves it free
    wherever it stops. *)
Definition lock_free {R : Type} (p : Prog R) : Prop :=
  forall w, rwmutex (gate w) = unlocked ->
            rwmutex (gate (world_of (run p w))) = unlocked.

(** ** Streams of frames *)

(** The frames of several payloads, one after the other. *)
Definition frames (msgs : list (list byte)) : list byte :=
  concat (map frame msgs).

(** The notifications the read loop of session [id] sends for them. *)
Definition messages (source id : Z) (msgs : list (list byte)) : list Event :=
  map (fun data => EvNotify source id (OnMessage data)) msgs.

(** Write requests of the actor for session [id], one per payload. *)
Definition responses (id : Z) (msgs : list (list byte)) : list Input :=
  map (InResponse id) msgs.

(** The connection once the socket has refused a flush with [e]. *)
Definition refused (p : list byte) (e : error) (x : Conn) : Conn :=
  set_werr (Some e) (set_wbuf (wbuf x ++ p) x).

(** The world after [addBackend] has put [b] under [id]. *)
Definition registered (id : Z) (b : Backend) (w : World) : World :=
  mkWorld (set_sessions (<[id := b]> (sessions (gate w))) (gate w))
          (conns w) (wss w) (log w ++ [EvLock; EvUnlock]).

(** The world after an upgrade request that was served: the websocket made
    by the handshake is in the heap, started, and registered under the id
    just allocated. *)
Definition upgraded (r : Request) (w : World) : World :=
  let g := gate w in
  let id := uint32 (session g + 1) in
  mkWorld (mkGate (rwmutex g) (Source g) id (uint32 (clinetnum g + 1)) (maxclient g)
                  (<[id := WsB (ws_handle r)]> (sessions g)))
          (conns w)
          (<[ws_handle r := mkWebsocket id [] None true None]> (wss w))
          (log w ++ [EvLock; EvUnlock; EvStart (ws_handle r)]).

(** Connections reaching the accept loop, one per handle. *)
Definition connections (cs : list Z) : list Input :=
  map (fun c => InAccept (AcceptConn c)) cs.

(** ** Counting the clients *)

(** The Gate at rest, its count in order and at most [B]: the lock is
    free, the count is the number of registered sessions, and every
    registered id has been allocated (none is beyond the counter, which has
    not wrapped). *)
Definition counted (B : Z) (w : World) : Prop :=
  rwmutex (gate w) = unlocked /\
  0 <= session (gate w) < 4294967296 /\
  clinetnum (gate w) = Z.of_nat (size (sessions (gate w))) /\
  clinetnum (gate w) <= session (gate w) /\
  clinetnum (gate w) <= B /\
  (forall id b, sessions (gate w) !! id = Some b -> 1 <= id <= session (gate w)).

(** A program that keeps a property of the world wherever it stops. *)
Definition preserves {R : Type} (I : World -> Prop) (p : Prog R) : Prop :=
  forall w, I w -> I (world_of (run p w)).

(** The cap [N] of a listener keeps the count within [B]: it is a real cap
    of at most [B], or [B] is beyond what a [uint32] count can reach. *)
Definition cap_ok (B N : Z) : Prop :=
  (N <> 0 /\ N <= B) \/ 4294967295 <= B.

Definition listener_ok (B : Z) (s : Sys) : Prop :=
  forall N, listener s = Accepting N \/ listener s = Upgrading N -> cap_ok B N.

(** ** The buffer pools

    The model above keeps the buffered reader and writer of a backend
    inside its connection.  This module follows the [bufio] objects
    themselves: they live in a heap, a backend holds their handles, and the
    two [sync.Pool]s hold the handles of the objects that were released.
    [Get] of a [sync.Pool] may return any pooled object or none at all; the
    caller of an acquiring function says which ([None]: the pool answers
    nil; [Some i]: the object at place [i], if there is one). *)
Module BufPool.

Record Reader : Type := mkReader {
  rd : option Z;           (* the connection it reads from *)
  rbuf : list byte;        (* bytes read ahead *)
  rerr : option error
}.

Record Writer : Type := mkWriter {
  wr : option Z;           (* the connection it writes to *)
  wdata : list byte;       (* bytes not flushed yet *)
  werror : option error
}.

Record Pools : Type := mkPools {
  reader_heap : gmap Z Reader;
  writer_heap : gmap Z Writer;
  bufioReaderPool : list Z;
  bufioWriterPool : list Z;
  open_conns : gset Z;     (* the connections not closed yet *)
  next : Z                 (* the next handle [bufio.NewReader] or [NewWriter] gets *)
}.

Record Backend : Type := mkBackend {
  session : Z;
  conn : Z;
  brw_Reader : Z;
  brw_Writer : Z
}.

(** [sync.Pool.Get] and [sync.Pool.Put]. *)
Definition Get (choice : option nat) (pool : list Z) : option Z * list Z :=
  match choice with
  | None => (None, pool)
  | Some i =>
      match pool !! i with
      | Some h => (Some h, delete i pool)
      | None => (None, pool)
      end
  end.

Definition Put (h : Z) (pool : list Z) : list Z := h :: pool.

(** [bufio.Reader.Reset] and [bufio.Writer.Reset]: buffered bytes and the
    error are dropped, the object is bound to the new stream. *)
Definition Reader_Reset (r : option Z) (_ : Reader) : Reader := mkReader r [] None.
Definition Writer_Reset (w : option Z) (_ : Writer) : Writer := mkWriter w [] None.

Definition newBufioReader (choice : option nat) (r : Z) (p : Pools) : Z * Pools :=
  match Get choice (bufioReaderPool p) with
  | (Some br, pool) =>
      (br, mkPools (alter (Reader_Reset (Some r)) br (reader_heap p)) (writer_heap p)
                   pool (bufioWriterPool p) (open_conns p) (next p))
  | (None, _) =>
      (next p, mkPools (<[next p := mkReader (Some r) [] None]> (reader_heap p))
                       (writer_heap p) (bufioReaderPool p) (bufioWriterPool p)
                       (open_conns p) (next p + 1))
  end.

Definition putBufioReader (r : Z) (p : Pools) : Pools :=
  mkPools (alter (Reader_Reset None) r (reader_heap p)) (writer_heap p)
          (Put r (bufioReaderPool p)) (bufioWriterPool p) (open_conns p) (next p).

Definition newBufioWriter (choice : option nat) (w : Z) (p : Pools) : Z * Pools :=
  match Get choice (bufioWriterPool p) with
  | (Some bw, pool) =>
      (bw, mkPools (reader_heap p) (alter (Writer_Reset (Some w)) bw (writer_heap p))
                   (bufioReaderPool p) pool (open_conns p) (next p))
  | (None, _) =>
      (next p, mkPools (reader_heap p)
                       (<[next p := mkWriter (Some w) [] None]> (writer_heap p))
                       (bufioReaderPool p) (bufioWriterPool p)
                       (open_conns p) (next p + 1))
  end.

Definition putBufioWriter (w : Z) (p : Pools) : Pools :=
  mkPools (reader_heap p) (alter (Writer_Reset None) w (writer_heap p))
          (bufioReaderPool p) (Put w (bufioWriterPool p)) (open_conns p) (next p).

Definition newTcpBackend (cr cw : option nat) (session conn : Z) (p : Pools)
  : Backend * Pools :=
  let (br, p1) := newBufioReader cr conn p in
  let (bw, p2) := newBufioWriter cw conn p1 in
  (mkBackend session conn br bw, p2).

Definition Close (t : Backend) (p : Pools) : Pools :=
  let p1 := putBufioReader (brw_Reader t) p in
  let p2 := putBufioWriter (brw_Writer t) p1 in
  mkPools (reader_heap p2) (writer_heap p2) (bufioReaderPool p2) (bufioWriterPool p2)
          (open_conns p2 ∖ {[conn t]}) (next p2).

(** The handles in the pools are handles of objects. *)
Definition pooled_exist (p : Pools) : Prop :=
  (forall h, In h (bufioReaderPool p) -> is_Some (reader_heap p !! h)) /\
  (forall h, In h (bufioWriterPool p) -> is_Some (writer_heap p !! h)).

(** At start: no object yet, both pools empty, connections 7 and 8 open. *)
Definition start : Pools := mkPools ∅ ∅ [] [] {[7; 8]} 0.

End BufPool.

(** * Properties *)

(** ** Running programs *)

Lemma run_bind {R S : Type} (p : Prog R) (g : R -> Prog S) (w : World) :
  run (p ≫= g) w =
  match run p w with
  | Finished r w' => run (g r) w'
  | Blocked w' => Blocked w'
  end.
Proof.
  revert w. induction p as [r | A f k IH]; intros w; [reflexivity |].
  change (run (Act f k ≫= g) w) with
    (match f w with Some (a, w') => run (k a ≫= g) w' | None => Blocked w end).
  simpl. destruct (f w) as [[a w'] |]; [apply IH | reflexivity].
Qed.

Lemma run_act {A : Type} (f : World -> option (A * World)) (w : World) :
  run (act f) w =
  match f w with
  | Some (a, w') => Finished a w'
  | None => Blocked w
  end.
Proof. simpl. destruct (f w) as [[a w'] |]; reflexivity. Qed.

Lemma run_mret {R : Type} (r : R) (w : World) : run (mret r) w = Finished r w.
Proof. reflexivity. Qed.

Ltac run_simpl :=
  repeat first [ rewrite run_bind | rewrite run_act | rewrite run_mret ].

(** ** Bytes and byte order *)

Lemma Z_of_byte_of_Z (z : Z) : Z_of_byte (byte_of_Z z) = z mod 256.
Proof.
  unfold Z_of_byte, byte_of_Z.
  pose proof (Z.mod_pos_bound z 256 eq_refl) as Hb.
  destruct (Byte.of_N (Z.to_N (z mod 256))) as [b |] eqn:E.
  - apply Byte.to_of_N in E. rewrite E. apply Z2N.id. lia.
  - apply Byte.of_N_None_iff in E. lia.
Qed.

Lemma Uint16_PutUint16 (v : Z) :
  0 <= v < 65536 ->
  BigEndian.Uint16 (BigEndian.PutUint16 v) = Some v.
Proof.
  intros Hv. unfold BigEndian.Uint16, BigEndian.PutUint16. f_equal.
  rewrite !Z_of_byte_of_Z.
  apply Z.bits_inj'. intros n Hn.
  rewrite Z.lor_spec.
  change 256 with (2 ^ 8).
  rewrite Z.shiftl_spec by lia.
  rewrite (Z.testbit_mod_pow2 v 8 n) by lia.
  destruct (Z.ltb_spec n 8) as [Hlt | Hge].
  - rewrite (Z.testbit_neg_r _ (n - 8)) by lia.
    rewrite orb_false_r. reflexivity.
  - rewrite (Z.testbit_mod_pow2 _ 8 (n - 8)) by lia.
    rewrite Z.shiftr_spec by lia.
    replace (n - 8 + 8) with n by lia. simpl.
    destruct (Z.ltb_spec (n - 8) 8) as [Hlt' | Hge']; [reflexivity |].
    simpl. symmetry.
    destruct (Z.eq_dec v 0) as [-> | Hnz]; [apply Z.bits_0 |].
    apply Z.bits_above_log2; [lia |].
    assert (Z.log2 v < 16) by (apply Z.log2_lt_pow2; lia). lia.
Qed.

Lemma PutUint16_length (v : Z) : length (BigEndian.PutUint16 v) = 2%nat.
Proof. reflexivity. Qed.

(** ** [TcpBackend.Write] *)

Lemma with_conn_twice (c : Z) (x y : Conn) (w : World) :
  with_conn c y (with_conn c x w) = with_conn c y w.
Proof. unfold with_conn. simpl. by rewrite insert_insert_eq. Qed.

Lemma conns_with_conn (c : Z) (x : Conn) (w : World) :
  conns (with_conn c x w) !! c = Some x.
Proof. unfold with_conn. simpl. apply lookup_insert_eq. Qed.

Lemma TcpBackend_Write_healthy (t : TcpBackend) (data : list byte) (w : World) (x : Conn) :
  conns w !! t_conn t = Some x ->
  healthy x ->
  run (TcpBackend_Write t data) w
  = Finished None (with_conn (t_conn t) (sent (frame data) x) w).
Proof.
  intros Hx (Hc & He & Hf). unfold TcpBackend_Write.
  run_simpl. unfold on_open_conn at 1. rewrite Hx, Hc.
  unfold bufio_Write at 1. rewrite He.
  run_simpl. unfold on_open_conn at 1. rewrite conns_with_conn. simpl closed. rewrite Hc.
  unfold bufio_Write at 1. simpl werr. rewrite He.
  run_simpl. unfold on_open_conn at 1. rewrite conns_with_conn. simpl closed. rewrite Hc.
  unfold bufio_Flush. simpl werr. rewrite He. simpl wbuf. simpl wfail. rewrite Hf.
  destruct ((wbuf x ++ BigEndian.PutUint16 (uint16 (Z.of_nat (length data)))) ++ data)
    as [| b l] eqn:E.
  - apply (f_equal (@length byte)) in E. rewrite !length_app, PutUint16_length in E.
    simpl in E. lia.
  - rewrite <- E. rewrite !with_conn_twice. do 2 f_equal.
    unfold sent, frame, set_wbuf, set_wire. simpl.
    by rewrite <- !app_assoc.
Qed.

(** ** Reading *)

Lemma run_readFull (t : TcpBackend) (buf : list byte) (w : World) :
  run (TcpBackend_readFull t buf) w =
  match on_open_conn (t_conn t) (io_ReadFull buf) w with
  | Some ((buf', err), w') => Finished (buf', reported err) w'
  | None => Blocked w
  end.
Proof.
  unfold TcpBackend_readFull. run_simpl.
  destruct (on_open_conn (t_conn t) (io_ReadFull buf) w) as [[[buf' err] w'] |];
    [| reflexivity].
  destruct err as [e |]; [| reflexivity].
  simpl. destruct (as_net_Error e) as [[|] |]; reflexivity.
Qed.

Lemma read_items_bytes (p : list byte) (rest : list RItem) (eof : bool) :
  read_items (length p) (map RByte p ++ rest) eof = Some (p, None, rest).
Proof.
  induction p as [| b p IH]; simpl; [reflexivity |]. by rewrite IH.
Qed.

Lemma io_ReadFull_bytes (buf p : list byte) (rest : list RItem) (x : Conn) :
  length buf = length p ->
  inbox x = map RByte p ++ rest ->
  io_ReadFull buf x = Some (p, None, set_inbox rest x).
Proof.
  intros Hlen Hin. unfold io_ReadFull.
  rewrite Hlen, Hin, read_items_bytes.
  rewrite <- Hlen, skipn_all, app_nil_r. reflexivity.
Qed.

Lemma readFull_bytes (t : TcpBackend) (buf p : list byte) (rest : list RItem)
  (w : World) (x : Conn) :
  conns w !! t_conn t = Some x ->
  closed x = false ->
  length buf = length p ->
  inbox x = map RByte p ++ rest ->
  run (TcpBackend_readFull t buf) w
  = Finished (p, None) (with_conn (t_conn t) (set_inbox rest x) w).
Proof.
  intros Hx Hc Hlen Hin. rewrite run_readFull. unfold on_open_conn.
  rewrite Hx, Hc, (io_ReadFull_bytes buf p rest x Hlen Hin). reflexivity.
Qed.

Lemma serve_unfold (fuel : nat) (t : TcpBackend) (head : list byte) :
  TcpBackend_serve (S fuel) t head =
  (r ← TcpBackend_readFull t head;
   let '(head, err) := r in
   match err with
   | Some _ => Gate_kick (t_session t);; mret Returned
   | None =>
       match BigEndian.Uint16 head with
       | None => mret Panicked
       | Some length =>
           r ← TcpBackend_readFull t (repeat x00 (Z.to_nat length));
           let '(data, err) := r in
           match err with
           | Some _ => Gate_kick (t_session t);; mret Returned
           | None =>
               act (Notify (t_session t) (OnMessage data));;
               TcpBackend_serve fuel t head
           end
       end
   end).
Proof. reflexivity. Qed.

(** With nothing to read and the peer still connected the loop waits. *)
Lemma serve_waits (fuel : nat) (t : TcpBackend) (head : list byte) (w : World) (x : Conn) :
  conns w !! t_conn t = Some x ->
  closed x = false ->
  inbox x = [] ->
  peer_closed x = false ->
  head <> [] ->
  run (TcpBackend_serve (S fuel) t head) w = Blocked w.
Proof.
  intros Hx Hc Hin Hp Hh. rewrite serve_unfold.
  rewrite run_bind, run_readFull. unfold on_open_conn, io_ReadFull.
  rewrite Hx, Hc, Hin, Hp.
  destruct head as [| b head]; [done | reflexivity].
Qed.

(** One frame at the front of the input: the loop reports its payload and
    goes on with what follows, the header left in [head]. *)
Lemma serve_frame (fuel : nat) (t : TcpBackend) (head data : list byte)
  (rest : list RItem) (w : World) (x : Conn) :
  conns w !! t_conn t = Some x ->
  closed x = false ->
  inbox x = map RByte (frame data) ++ rest ->
  Z.of_nat (length data) <= 65535 ->
  length head = 2%nat ->
  run (TcpBackend_serve (S fuel) t head) w
  = run (TcpBackend_serve fuel t (BigEndian.PutUint16 (Z.of_nat (length data))))
        (emit (EvNotify (Source (gate w)) (t_session t) (OnMessage data))
              (with_conn (t_conn t) (set_inbox rest x) w)).
Proof.
  intros Hx Hc Hin Hlen Hh.
  assert (Hu : uint16 (Z.of_nat (length data)) = Z.of_nat (length data))
    by (unfold uint16; apply Z.mod_small; lia).
  unfold frame in Hin. rewrite Hu, map_app, <- app_assoc in Hin.
  rewrite serve_unfold.
  rewrite run_bind.
  rewrite (readFull_bytes t head (BigEndian.PutUint16 (Z.of_nat (length data))) _ w x Hx Hc Hh Hin).
  rewrite Uint16_PutUint16 by lia.
  rewrite run_bind.
  erewrite readFull_bytes;
    [ | apply conns_with_conn | exact Hc | | reflexivity ].
  2:{ rewrite repeat_length. apply Nat2Z.id. }
  rewrite run_bind, run_act. unfold Notify.
  rewrite with_conn_twice. reflexivity.
Qed.

(** ** The registry: [Gate.Write] and [Gate.kick] *)

Lemma Gate_Write_run (id : Z) (data : list byte) (w : World) :
  writer (rwmutex (gate w)) = false ->
  run (Gate_Write id data) w =
  match sessions (gate w) !! id with
  | Some b => run (Backend_Write b data) (after_rlock w)
  | None => Finished None (after_rlock w)
  end.
Proof.
  intros Hw. unfold Gate_Write. run_simpl.
  unfold RLock. rewrite Hw. simpl negb. cbv iota.
  run_simpl. unfold sessions_get. run_simpl. unfold RUnlock.
  destruct w as [[[wr rd] src ses cn mx ss] cs ws lg]. simpl in *. subst wr.
  unfold after_rlock, emit, with_gate, set_rwmutex. simpl.
  destruct (ss !! id); reflexivity.
Qed.

Lemma Gate_kick_run (id : Z) (w : World) :
  rwmutex (gate w) = unlocked ->
  run (Gate_kick id) w =
  match sessions (gate w) !! id with
  | Some b => run (Backend_Close b) (after_kick_lock id true w)
  | None => Finished tt (after_kick_lock id false w)
  end.
Proof.
  intros Hm. unfold Gate_kick. run_simpl.
  unfold Lock. rewrite Hm. simpl.
  destruct w as [[m src ses cn mx ss] cs ws lg]. simpl in *. subst m.
  unfold sessions_get. simpl.
  destruct (ss !! id) as [b |] eqn:E; run_simpl;
    unfold after_kick_lock, Unlock, clinetnum_dec, sessions_delete, emit, with_gate,
      set_rwmutex, set_sessions, set_clinetnum; simpl;
    rewrite <- ?app_assoc; reflexivity.
Qed.

Lemma Backend_Close_run (b : Backend) (w : World) :
  exists w',
    run (Backend_Close b) w = Finished tt w' /\
    gate w' = gate w /\
    log w' = log w ++ [EvClose b].
Proof.
  destruct b as [t | h]; simpl.
  - destruct (conns w !! t_conn t) as [x |]; eexists; (split; [reflexivity |]);
      split; reflexivity.
  - destruct (wss w !! h) as [x |] eqn:E.
    + eexists. split.
      * unfold WebsocketBackend_Close. run_simpl. unfold Websocket_Close.
        simpl. rewrite E. reflexivity.
      * split; reflexivity.
    + eexists. split.
      * unfold WebsocketBackend_Close. run_simpl. unfold Websocket_Close.
        simpl. rewrite E. reflexivity.
      * split; reflexivity.
Qed.

(** C5: [Gate.Write] on an id the registry does not hold returns nil and
    changes nothing (the registry, the connections and the websockets are
    as before; the trace only shows the read lock taken and released); on an
    id it holds, the call is the backend's [Write] on the data, run after
    the read lock was released, and its error is the result. *)
Theorem Gate_Write_missing_or_present (id : Z) (data : list byte) (w : World) :
  writer (rwmutex (gate w)) = false ->
  (sessions (gate w) !! id = None ->
   exists w',
     run (Gate_Write id data) w = Finished None w' /\
     gate w' = gate w /\ conns w' = conns w /\ wss w' = wss w /\
     log w' = log w ++ [EvRLock; EvRUnlock]) /\
  (forall b, sessions (gate w) !! id = Some b ->
   run (Gate_Write id data) w = run (Backend_Write b data) (after_rlock w) /\
   gate (after_rlock w) = gate w /\
   log (after_rlock w) = log w ++ [EvRLock; EvRUnlock]).
Proof.
  intros Hw. rewrite (Gate_Write_run id data w Hw). split.
  - intros ->. exists (after_rlock w). repeat split.
    unfold after_rlock, emit. simpl. by rewrite <- app_assoc.
  - intros b ->. repeat split.
    unfold after_rlock, emit. simpl. by rewrite <- app_assoc.
Qed.

Lemma Gate_Write_missing_or_present_witness :
  writer (rwmutex (gate demo_world)) = false /\
  sessions (gate demo_world) !! 2 = None /\
  sessions (gate demo_world) !! 1 = Some (TcpB demo_backend) /\
  (exists w',
     run (Gate_Write 2 hello) demo_world = Finished None w' /\
     gate w' = gate demo_world /\ conns w' = conns demo_world /\
     wss w' = wss demo_world /\
     log w' = log demo_world ++ [EvRLock; EvRUnlock]) /\
  run (Gate_Write 1 hello) demo_world
  = run (Backend_Write (TcpB demo_backend) hello) (after_rlock demo_world).
Proof.
  split; [reflexivity |]. split; [reflexivity |]. split; [reflexivity |].
  split.
  - apply (Gate_Write_missing_or_present 2 hello demo_world); reflexivity.
  - apply (Gate_Write_missing_or_present 1 hello demo_world); reflexivity.
Defined.

(** C6: [kick] on an id the registry does not hold returns, leaves the
    registry and the client count as they were, touches no connection and
    no websocket, closes no backend and notifies nobody: the trace only
    grows by the lock taken and released. *)
Theorem Gate_kick_missing (id : Z) (w : World) :
  rwmutex (gate w) = unlocked ->
  sessions (gate w) !! id = None ->
  exists w',
    run (Gate_kick id) w = Finished tt w' /\
    gate w' = gate w /\
    conns w' = conns w /\ wss w' = wss w /\
    log w' = log w ++ [EvLock; EvUnlock].
Proof.
  intros Hm Hid. rewrite (Gate_kick_run id w Hm), Hid.
  eexists. split; [reflexivity |]. repeat split.
Qed.

Lemma Gate_kick_missing_witness :
  rwmutex (gate demo_world) = unlocked /\
  sessions (gate demo_world) !! 999 = None /\
  exists w',
    run (Gate_kick 999) demo_world = Finished tt w' /\
    gate w' = gate demo_world /\
    conns w' = conns demo_world /\ wss w' = wss demo_world /\
    log w' = log demo_world ++ [EvLock; EvUnlock].
Proof.
  split; [reflexivity |]. split; [reflexivity |].
  apply (Gate_kick_missing 999 demo_world); reflexivity.
Defined.

(** Kicking twice: the second [kick] finds nothing. *)
Lemma Gate_kick_again (id : Z) (w : World) (b : Backend) :
  rwmutex (gate w) = unlocked ->
  sessions (gate w) !! id = Some b ->
  exists w1 w2,
    run (Gate_kick id) w = Finished tt w1 /\
    run (Gate_kick id) w1 = Finished tt w2 /\
    gate w2 = gate w1 /\
    log w2 = log w1 ++ [EvLock; EvUnlock].
Proof.
  intros Hm Hid. rewrite (Gate_kick_run id w Hm), Hid.
  destruct (Backend_Close_run b (after_kick_lock id true w)) as (w1 & Hr & Hg & Hl).
  exists w1.
  assert (Hm1 : rwmutex (gate w1) = unlocked) by (rewrite Hg; simpl; exact Hm).
  assert (Hid1 : sessions (gate w1) !! id = None)
    by (rewrite Hg; simpl; apply lookup_delete_eq).
  rewrite (Gate_kick_run id w1 Hm1), Hid1.
  eexists. split; [exact Hr |]. split; [reflexivity |]. split; reflexivity.
Qed.

(** C7: [kick] on an id the registry holds removes that entry and no
    other, takes one off the client count (a [uint32]), and calls the
    backend's [Close] once the exclusive lock has been released: in the
    trace the unlock comes before the close, and the lock is free after. *)
Theorem Gate_kick_present (id : Z) (w : World) (b : Backend) :
  rwmutex (gate w) = unlocked ->
  sessions (gate w) !! id = Some b ->
  exists w',
    run (Gate_kick id) w = Finished tt w' /\
    run (Gate_kick id) w = run (Backend_Close b) (after_kick_lock id true w) /\
    sessions (gate w') = delete id (sessions (gate w)) /\
    sessions (gate w') !! id = None /\
    (forall id', id' <> id -> sessions (gate w') !! id' = sessions (gate w) !! id') /\
    clinetnum (gate w') = uint32 (clinetnum (gate w) - 1) /\
    (0 < clinetnum (gate w) < 4294967296 ->
     clinetnum (gate w') = clinetnum (gate w) - 1) /\
    rwmutex (gate (after_kick_lock id true w)) = unlocked /\
    log (after_kick_lock id true w) = log w ++ [EvLock; EvUnlock] /\
    log w' = log w ++ [EvLock; EvUnlock; EvClose b].
Proof.
  intros Hm Hid. rewrite (Gate_kick_run id w Hm), Hid.
  destruct (Backend_Close_run b (after_kick_lock id true w)) as (w' & Hr & Hg & Hl).
  exists w'. split; [exact Hr |]. split; [reflexivity |].
  rewrite Hg, Hl. simpl. repeat split.
  - apply lookup_delete_eq.
  - intros id' Hne. by apply lookup_delete_ne.
  - intros Hc. unfold uint32. apply Z.mod_small. lia.
  - exact Hm.
  - by rewrite <- app_assoc.
Qed.

Lemma Gate_kick_present_witness :
  rwmutex (gate demo_world) = unlocked /\
  sessions (gate demo_world) !! 1 = Some (TcpB demo_backend) /\
  exists w',
    run (Gate_kick 1) demo_world = Finished tt w' /\
    sessions (gate w') !! 1 = None /\
    clinetnum (gate w') = 0 /\
    log w' = [EvLock; EvUnlock; EvClose (TcpB demo_backend)].
Proof.
  split; [reflexivity |]. split; [reflexivity |].
  destruct (Gate_kick_present 1 demo_world (TcpB demo_backend) eq_refl eq_refl)
    as (w' & Hr & _ & _ & Hn & _ & Hc & _ & _ & _ & Hl).
  exists w'. split; [exact Hr |]. split; [exact Hn |]. split; [exact Hc |]. exact Hl.
Defined.

(** ** The read loop and read errors *)

Lemma reported_Some (err : option error) (e : error) :
  reported err = Some e <-> err = Some e /\ as_net_Error e = Some false.
Proof.
  unfold reported. split.
  - destruct err as [e' |]; [| discriminate].
    destruct (as_net_Error e') as [[|] |] eqn:E; try discriminate.
    intros [= ->]. by split.
  - intros [-> ->]. reflexivity.
Qed.

Lemma reported_EOF : reported (Some EOF) = None.
Proof. reflexivity. Qed.

Lemma reported_ErrUnexpectedEOF : reported (Some ErrUnexpectedEOF) = None.
Proof. reflexivity. Qed.

Lemma reported_temporary : reported (Some (OpError true)) = None.
Proof. reflexivity. Qed.

Lemma reported_fatal : reported (Some (OpError false)) = Some (OpError false).
Proof. reflexivity. Qed.

(** The header read decides: an error that [readFull] reports ends the loop
    through [kick]; any other outcome lets the iteration go on with what is
    in the buffer. *)
Lemma serve_header (fuel : nat) (t : TcpBackend) (head head' : list byte)
  (err : option error) (w : World) (x x' : Conn) :
  conns w !! t_conn t = Some x ->
  closed x = false ->
  io_ReadFull head x = Some (head', err, x') ->
  run (TcpBackend_serve (S fuel) t head) w =
  match reported err with
  | Some _ => run (Gate_kick (t_session t);; mret Returned) (with_conn (t_conn t) x' w)
  | None => run (serve_after_head fuel t head') (with_conn (t_conn t) x' w)
  end.
Proof.
  intros Hx Hc Hr. rewrite serve_unfold, run_bind, run_readFull.
  unfold on_open_conn. rewrite Hx, Hc, Hr.
  destruct (reported err); reflexivity.
Qed.

(** The same for the body read. *)
Lemma serve_body (fuel : nat) (t : TcpBackend) (head data : list byte) (n : Z)
  (err : option error) (w : World) (x x' : Conn) :
  conns w !! t_conn t = Some x ->
  closed x = false ->
  BigEndian.Uint16 head = Some n ->
  io_ReadFull (repeat x00 (Z.to_nat n)) x = Some (data, err, x') ->
  run (serve_after_head fuel t head) w =
  match reported err with
  | Some _ => run (Gate_kick (t_session t);; mret Returned) (with_conn (t_conn t) x' w)
  | None =>
      run (TcpBackend_serve fuel t head)
          (emit (EvNotify (Source (gate w)) (t_session t) (OnMessage data))
                (with_conn (t_conn t) x' w))
  end.
Proof.
  intros Hx Hc Hn Hr. unfold serve_after_head. rewrite Hn, run_bind, run_readFull.
  unfold on_open_conn. rewrite Hx, Hc, Hr.
  destruct (reported err); [reflexivity |].
  rewrite run_bind, run_act. reflexivity.
Qed.

(** When [readFull] reports an error the loop returns, having kicked. *)
Lemma serve_kick_returns (t : TcpBackend) (w : World) :
  rwmutex (gate w) = unlocked ->
  exists w',
    run (Gate_kick (t_session t);; mret Returned) w = Finished Returned w' /\
    sessions (gate w') !! t_session t = None.
Proof.
  intros Hm. rewrite run_bind, (Gate_kick_run _ w Hm).
  destruct (sessions (gate w) !! t_session t) as [b |] eqn:E.
  - destruct (Backend_Close_run b (after_kick_lock (t_session t) true w))
      as (w' & -> & Hg & _).
    exists w'. split; [reflexivity |]. rewrite Hg. simpl. apply lookup_delete_eq.
  - eexists. split; [reflexivity |]. exact E.
Qed.

Lemma io_ReadFull_fails (buf : list byte) (e : error) (rest : list RItem) (x : Conn) :
  buf <> [] ->
  inbox x = RFail e :: rest ->
  io_ReadFull buf x = Some (buf, Some e, set_inbox rest x).
Proof.
  intros Hb Hin. unfold io_ReadFull. rewrite Hin.
  destruct buf as [| b buf]; [done |]. simpl.
  destruct e; reflexivity.
Qed.

(** A header read that fails with a network error that is not temporary:
    the loop returns, and the session is out of the registry. *)
Lemma serve_fatal_header (fuel : nat) (t : TcpBackend) (head : list byte)
  (rest : list RItem) (w : World) (x : Conn) :
  conns w !! t_conn t = Some x ->
  closed x = false ->
  rwmutex (gate w) = unlocked ->
  head <> [] ->
  inbox x = RFail (OpError false) :: rest ->
  exists w',
    run (TcpBackend_serve (S fuel) t head) w = Finished Returned w' /\
    sessions (gate w') !! t_session t = None.
Proof.
  intros Hx Hc Hm Hh Hin.
  rewrite (serve_header fuel t head head (Some (OpError false)) w x (set_inbox rest x) Hx Hc)
    by (apply io_ReadFull_fails; [exact Hh | exact Hin]).
  rewrite reported_fatal. apply serve_kick_returns. exact Hm.
Qed.

(** The same for the body read, after a header announcing [n] bytes. *)
Lemma serve_fatal_body (fuel : nat) (t : TcpBackend) (head : list byte) (n : Z)
  (rest : list RItem) (w : World) (x : Conn) :
  conns w !! t_conn t = Some x ->
  closed x = false ->
  rwmutex (gate w) = unlocked ->
  BigEndian.Uint16 head = Some n ->
  0 < n ->
  inbox x = RFail (OpError false) :: rest ->
  exists w',
    run (serve_after_head fuel t head) w = Finished Returned w' /\
    sessions (gate w') !! t_session t = None.
Proof.
  intros Hx Hc Hm Hn Hpos Hin.
  rewrite (serve_body fuel t head (repeat x00 (Z.to_nat n)) n (Some (OpError false))
             w x (set_inbox rest x) Hx Hc Hn).
  - rewrite reported_fatal. apply serve_kick_returns. exact Hm.
  - apply io_ReadFull_fails; [| exact Hin].
    destruct (Z.to_nat n) eqn:E; [lia | discriminate].
Qed.

(** A header read that fails with a temporary network error does not end
    the loop: the iteration goes on with what the buffer held. *)
Lemma serve_temporary_header (fuel : nat) (t : TcpBackend) (head : list byte)
  (rest : list RItem) (w : World) (x : Conn) :
  conns w !! t_conn t = Some x ->
  closed x = false ->
  head <> [] ->
  inbox x = RFail (OpError true) :: rest ->
  run (TcpBackend_serve (S fuel) t head) w
  = run (serve_after_head fuel t head) (with_conn (t_conn t) (set_inbox rest x) w).
Proof.
  intros Hx Hc Hh Hin.
  rewrite (serve_header fuel t head head (Some (OpError true)) w x (set_inbox rest x) Hx Hc)
    by (apply io_ReadFull_fails; [exact Hh | exact Hin]).
  reflexivity.
Qed.

(** At the end of the stream nothing is reported: the loop goes round,
    each time telling the actor of an empty message, for as long as it is
    followed. *)
Lemma serve_end_of_stream (fuel : nat) (t : TcpBackend) (w : World) (x : Conn) :
  conns w !! t_conn t = Some x ->
  closed x = false ->
  inbox x = [] ->
  peer_closed x = true ->
  exists w',
    run (TcpBackend_serve fuel t [x00; x00]) w = Finished OutOfFuel w' /\
    gate w' = gate w /\
    log w' = log w ++ repeat (EvNotify (Source (gate w)) (t_session t) (OnMessage [])) fuel.
Proof.
  revert w x. induction fuel as [| fuel IH]; intros w x Hx Hc Hin Hp.
  - exists w. simpl. rewrite app_nil_r. by repeat split.
  - erewrite serve_header; [| exact Hx | exact Hc |].
    2:{ unfold io_ReadFull. rewrite Hin, Hp. reflexivity. }
    simpl short_read. rewrite reported_EOF.
    erewrite serve_body;
      [| apply conns_with_conn | exact Hc | reflexivity |].
    2:{ unfold io_ReadFull. reflexivity. }
    simpl reported. cbv iota. rewrite with_conn_twice.
    set (x1 := set_inbox (inbox (set_inbox [] x)) (set_inbox [] x)).
    set (w1 := emit _ (with_conn (t_conn t) x1 w)).
    destruct (IH w1 x1) as (w' & Hr & Hg & Hl);
      [ apply conns_with_conn | exact Hc | reflexivity | exact Hp |].
    exists w'. split; [exact Hr |]. split; [rewrite Hg; reflexivity |].
    rewrite Hl. subst w1. unfold emit. simpl log. rewrite <- app_assoc. reflexivity.
Qed.

(** C1 (the case the code misses): the peer of session 1 has closed the
    connection, so every read ends with [EOF].  [EOF] is no [net.Error],
    [readFull] returns nil for it, and the loop never returns and never
    kicks: however long it is followed it is still running, session 1 is
    still registered and the actor has been sent one empty message per
    round. *)
Theorem serve_eof_never_returns (fuel : nat) :
  exists w',
    run (serve_start fuel demo_backend) eof_world = Finished OutOfFuel w' /\
    sessions (gate w') !! 1 = Some (TcpB demo_backend) /\
    clinetnum (gate w') = 1 /\
    log w' = repeat (EvNotify 9 1 (OnMessage [])) fuel.
Proof.
  destruct (serve_end_of_stream fuel demo_backend eof_world (incoming [] true))
    as (w' & Hr & Hg & Hl); try reflexivity.
  exists w'. split; [exact Hr |]. rewrite Hg, Hl. repeat split.
Qed.

(** ** Frames on the wire *)

Lemma wire_sent (p : list byte) (x : Conn) :
  wire (sent p x) = wire x ++ wbuf x ++ p.
Proof. reflexivity. Qed.

Lemma healthy_sent (p : list byte) (x : Conn) : healthy x -> healthy (sent p x).
Proof. intros H. exact H. Qed.

(** [Gate.Write] to a registered TCP session whose connection is in order:
    whatever the length of the payload, the result is nil and the frame is
    on the wire. *)
Lemma Gate_Write_tcp (id : Z) (data : list byte) (w : World) (t : TcpBackend) (x : Conn) :
  writer (rwmutex (gate w)) = false ->
  sessions (gate w) !! id = Some (TcpB t) ->
  conns w !! t_conn t = Some x ->
  healthy x ->
  run (Gate_Write id data) w
  = Finished None (with_conn (t_conn t) (sent (frame data) x) (after_rlock w)).
Proof.
  intros Hw Hid Hx Hh. rewrite (Gate_Write_run id data w Hw), Hid. simpl.
  apply TcpBackend_Write_healthy; [exact Hx | exact Hh].
Qed.

Lemma uint16_small (n : Z) : 0 <= n <= 65535 -> uint16 n = n.
Proof. intros H. unfold uint16. apply Z.mod_small. lia. Qed.

Lemma big_payload_length : Z.of_nat (length big_payload) = 65536.
Proof. unfold big_payload. rewrite repeat_length. apply Z2Nat.id. lia. Qed.

(** C10: [TcpBackend.Write] has no check on the length.  For a payload of
    more than 65535 bytes on a connection in order it returns nil, and what
    it puts on the wire is the two-byte header of the length modulo 65536
    followed by the whole payload; that header reads back as a number
    different from the number of bytes that follow. *)
Theorem TcpBackend_Write_oversize (t : TcpBackend) (data : list byte) (w : World) (x : Conn) :
  65535 < Z.of_nat (length data) ->
  conns w !! t_conn t = Some x ->
  healthy x ->
  exists x',
    run (TcpBackend_Write t data) w = Finished None (with_conn (t_conn t) x' w) /\
    wire x' = wire x ++ wbuf x
              ++ BigEndian.PutUint16 (Z.of_nat (length data) mod 65536) ++ data /\
    wbuf x' = [] /\
    BigEndian.Uint16 (BigEndian.PutUint16 (Z.of_nat (length data) mod 65536))
    = Some (Z.of_nat (length data) mod 65536) /\
    Z.of_nat (length data) mod 65536 <> Z.of_nat (length data).
Proof.
  intros Hlen Hx Hh. exists (sent (frame data) x).
  split; [apply TcpBackend_Write_healthy; assumption |].
  split; [reflexivity |]. split; [reflexivity |].
  pose proof (Z.mod_pos_bound (Z.of_nat (length data)) 65536 eq_refl) as Hb.
  split; [apply Uint16_PutUint16; lia | lia].
Qed.

Lemma TcpBackend_Write_oversize_witness :
  65535 < Z.of_nat (length big_payload) /\
  conns demo_world !! t_conn demo_backend = Some (incoming [] false) /\
  healthy (incoming [] false) /\
  exists x',
    run (TcpBackend_Write demo_backend big_payload) demo_world
    = Finished None (with_conn 7 x' demo_world) /\
    wire x' = BigEndian.PutUint16 (Z.of_nat (length big_payload) mod 65536) ++ big_payload.
Proof.
  assert (H1 : 65535 < Z.of_nat (length big_payload)) by (vm_compute; reflexivity).
  assert (H2 : conns demo_world !! t_conn demo_backend = Some (incoming [] false))
    by reflexivity.
  assert (H3 : healthy (incoming [] false)) by (repeat split; reflexivity).
  split; [exact H1 |]. split; [exact H2 |]. split; [exact H3 |].
  destruct (TcpBackend_Write_oversize demo_backend big_payload demo_world _ H1 H2 H3)
    as (x' & Hr & Hw & _).
  exists x'. split; [exact Hr | exact Hw].
Defined.

(** C2 (what the code does not do): nothing before the backend rejects a
    payload of 65536 bytes.  [Gate.Write] returns nil for it, and the frame
    it puts on the wire has the header 00 00 followed by all 65536 bytes,
    so the reader first decodes an empty message. *)
Lemma oversize_not_rejected :
  exists w',
    run (Gate_Write 1 big_payload) demo_world = Finished None w' /\
    wire <$> conns w' !! 7 = Some (x00 :: x00 :: big_payload) /\
    BigEndian.Uint16 [x00; x00] = Some 0 /\
    Z.of_nat (length big_payload) <> 0.
Proof.
  eexists. split.
  - apply (Gate_Write_tcp 1 big_payload demo_world demo_backend (incoming [] false));
      [reflexivity | reflexivity | reflexivity | repeat split; reflexivity].
  - split.
    + rewrite conns_with_conn. simpl fmap. unfold frame.
      rewrite big_payload_length. reflexivity.
    + split; [reflexivity |]. rewrite big_payload_length. lia.
Qed.

(** C2 (as the code has it): a payload of at most 65535 bytes written by
    [TcpBackend.Write] on a fresh connection and fed to the read loop of the
    peer comes out as one [OnMessage] carrying the same bytes, after which
    the loop waits for the next frame.  No length is rejected on the way to
    the backend: for a registered TCP session [Gate.Write] returns nil and
    puts the frame of any payload on the wire. *)
Theorem frame_roundtrip :
  (forall (data : list byte) (t1 t2 : TcpBackend) (w1 w2 : World) (x1 x2 : Conn)
          (head : list byte) (fuel : nat),
     Z.of_nat (length data) <= 65535 ->
     conns w1 !! t_conn t1 = Some x1 -> healthy x1 -> wbuf x1 = [] -> wire x1 = [] ->
     conns w2 !! t_conn t2 = Some x2 -> closed x2 = false -> peer_closed x2 = false ->
     length head = 2%nat ->
     exists x1',
       run (TcpBackend_Write t1 data) w1 = Finished None (with_conn (t_conn t1) x1' w1) /\
       wire x1' = frame data /\
       (inbox x2 = map RByte (wire x1') ->
        exists w2',
          run (TcpBackend_serve (S (S fuel)) t2 head) w2 = Blocked w2' /\
          gate w2' = gate w2 /\
          log w2' = log w2 ++ [EvNotify (Source (gate w2)) (t_session t2) (OnMessage data)]))
  /\
  (forall (data : list byte) (id : Z) (w : World) (t : TcpBackend) (x : Conn),
     writer (rwmutex (gate w)) = false ->
     sessions (gate w) !! id = Some (TcpB t) ->
     conns w !! t_conn t = Some x -> healthy x ->
     exists w',
       run (Gate_Write id data) w = Finished None w' /\
       wire <$> conns w' !! t_conn t = Some (wire x ++ wbuf x ++ frame data)).
Proof.
  split.
  - intros data t1 t2 w1 w2 x1 x2 head fuel Hlen Hx1 Hh1 Hb1 Hw1 Hx2 Hc2 Hp2 Hhead.
    exists (sent (frame data) x1).
    split; [apply TcpBackend_Write_healthy; assumption |].
    rewrite wire_sent, Hb1, Hw1. simpl app. split; [reflexivity |]. intros Hin.
    rewrite <- (app_nil_r (map RByte (frame data))) in Hin.
    rewrite (serve_frame (S fuel) t2 head data [] w2 x2 Hx2 Hc2 Hin Hlen Hhead).
    erewrite serve_waits;
      [ | apply conns_with_conn | exact Hc2 | reflexivity | exact Hp2 | discriminate ].
    eexists. split; [reflexivity |]. split; reflexivity.
  - intros data id w t x Hw Hid Hx Hh.
    eexists. split; [apply (Gate_Write_tcp id data w t x); assumption |].
    rewrite conns_with_conn. reflexivity.
Qed.

Lemma frame_roundtrip_witness :
  Z.of_nat (length hello) <= 65535 /\
  (exists x1',
     run (TcpBackend_Write demo_backend hello) demo_world
     = Finished None (with_conn 7 x1' demo_world) /\
     wire x1' = x00 :: x05 :: hello /\
     exists w2',
       run (TcpBackend_serve 2 demo_backend [x00; x00])
           (with_conn 7 (incoming (map RByte (x00 :: x05 :: hello)) false) demo_world)
       = Blocked w2' /\
       log w2' = [EvNotify 9 1 (OnMessage hello)]) /\
  (exists w',
     run (Gate_Write 1 hello) demo_world = Finished None w' /\
     wire <$> conns w' !! 7 = Some (x00 :: x05 :: hello)).
Proof.
  assert (Hh : healthy (incoming [] false)) by (repeat split; reflexivity).
  split; [vm_compute; discriminate |]. split.
  - destruct (proj1 frame_roundtrip hello demo_backend demo_backend demo_world
               (with_conn 7 (incoming (map RByte (x00 :: x05 :: hello)) false) demo_world)
               (incoming [] false)
               (incoming (map RByte (x00 :: x05 :: hello)) false)
               [x00; x00] 0%nat)
      as (x1' & Hr & Hi & Hs);
      [ vm_compute; discriminate | reflexivity | exact Hh | reflexivity | reflexivity
      | reflexivity | reflexivity | reflexivity | reflexivity | ].
    exists x1'. split; [exact Hr |]. split; [exact Hi |].
    destruct (Hs (f_equal (map RByte) (eq_sym Hi))) as (w2' & Hb & _ & Hl).
    exists w2'. split; [exact Hb | exact Hl].
  - apply (proj2 frame_roundtrip hello 1 demo_world demo_backend (incoming [] false));
      [reflexivity | reflexivity | reflexivity | exact Hh].
Defined.

(** ** Concurrent writers *)

(** A call that runs to its end alone can be scheduled first, whole. *)
Lemma interleave_left_first {R : Type} (p q : Prog R) (w w' : World) (r : R) :
  run p w = Finished r w' ->
  exists n, forall sched,
    interleave (repeat true n ++ sched) p q w = interleave sched (Ret r) q w'.
Proof.
  revert w. induction p as [r0 | A f k IH]; intros w Hr.
  - injection Hr as -> ->. exists 0%nat. reflexivity.
  - simpl in Hr. destruct (f w) as [[a w1] |] eqn:E; [| discriminate].
    destruct (IH a w1 Hr) as [n Hn]. exists (S n). intros sched.
    simpl. rewrite E. apply Hn.
Qed.

Lemma interleave_right_first {R : Type} (p q : Prog R) (w w' : World) (r : R) :
  run q w = Finished r w' ->
  exists n, forall sched,
    interleave (repeat false n ++ sched) p q w = interleave sched p (Ret r) w'.
Proof.
  revert w. induction q as [r0 | A f k IH]; intros w Hr.
  - injection Hr as -> ->. exists 0%nat. reflexivity.
  - simpl in Hr. destruct (f w) as [[a w1] |] eqn:E; [| discriminate].
    destruct (IH a w1 Hr) as [n Hn]. exists (S n). intros sched.
    simpl. rewrite E. apply Hn.
Qed.

Lemma sent_sent (p q : list byte) (x : Conn) :
  sent q (sent p x) = sent (p ++ q) x.
Proof.
  unfold sent, set_wbuf, set_wire. simpl. f_equal.
  by rewrite <- !app_assoc.
Qed.

(** C3 (what the code does not do): two [Write] calls on the backend of
    session 1, payloads 01 and 02, run concurrently and take turns.  Both
    return nil, and the wire carries the two headers first and then the two
    payloads: neither frame is whole, in either order. *)
Lemma concurrent_Writes_interleave :
  fst (fst (interleave alternating (TcpBackend_Write demo_backend [x01])
                       (TcpBackend_Write demo_backend [x02]) demo_world))
  = Ret None /\
  snd (fst (interleave alternating (TcpBackend_Write demo_backend [x01])
                       (TcpBackend_Write demo_backend [x02]) demo_world))
  = Ret None /\
  wire <$> conns (snd (interleave alternating (TcpBackend_Write demo_backend [x01])
                                  (TcpBackend_Write demo_backend [x02]) demo_world)) !! 7
  = Some [x00; x01; x00; x01; x01; x02] /\
  [x00; x01; x00; x01; x01; x02] <> frame [x01] ++ frame [x02] /\
  [x00; x01; x00; x01; x01; x02] <> frame [x02] ++ frame [x01].
Proof.
  split; [reflexivity |]. split; [reflexivity |]. split; [reflexivity |].
  split; discriminate.
Qed.

(** C3 (as the code has it): [TcpBackend.Write] takes no lock, it is the
    three actions header, payload, flush.  When a second call starts after
    the first has returned, both return nil and the two frames are on the
    wire whole and in the order of the calls; so it is under the schedule
    that runs the first call to its end and then the second.  The lock
    trace and the registry are untouched. *)
Theorem Writes_one_after_the_other (t : TcpBackend) (d1 d2 : list byte) (w : World) (x : Conn) :
  conns w !! t_conn t = Some x ->
  healthy x ->
  run (TcpBackend_Write t d1;; TcpBackend_Write t d2) w
  = Finished None (both_sent t d1 d2 x w) /\
  (exists n m,
     interleave (repeat true n ++ repeat false m)
                (TcpBackend_Write t d1) (TcpBackend_Write t d2) w
     = (Ret None, Ret None, both_sent t d1 d2 x w)) /\
  wire <$> conns (both_sent t d1 d2 x w) !! t_conn t
  = Some (wire x ++ wbuf x ++ frame d1 ++ frame d2) /\
  gate (both_sent t d1 d2 x w) = gate w /\
  log (both_sent t d1 d2 x w) = log w.
Proof.
  intros Hx Hh. set (w' := both_sent t d1 d2 x w).
  pose proof (TcpBackend_Write_healthy t d1 w x Hx Hh) as H1.
  pose proof (TcpBackend_Write_healthy t d2 _ _
                (conns_with_conn (t_conn t) (sent (frame d1) x) w)
                (healthy_sent (frame d1) x Hh)) as H2.
  rewrite with_conn_twice, sent_sent in H2. fold (both_sent t d1 d2 x w) in H2. fold w' in H2.
  split; [rewrite run_bind, H1; exact H2 |].
  split.
  - destruct (interleave_left_first _ (TcpBackend_Write t d2) _ _ _ H1) as [n Hn].
    destruct (interleave_right_first (Ret None) _ _ _ _ H2) as [m Hm].
    exists n, m. rewrite Hn. rewrite <- (app_nil_r (repeat false m)), Hm. reflexivity.
  - split; [| split; reflexivity].
    subst w'. unfold both_sent. rewrite conns_with_conn. reflexivity.
Qed.

Lemma Writes_one_after_the_other_witness :
  conns demo_world !! t_conn demo_backend = Some (incoming [] false) /\
  healthy (incoming [] false) /\
  run (TcpBackend_Write demo_backend [x01];; TcpBackend_Write demo_backend [x02]) demo_world
  = Finished None
      (with_conn 7 (sent (frame [x01] ++ frame [x02]) (incoming [] false)) demo_world).
Proof.
  assert (Hh : healthy (incoming [] false)) by (repeat split; reflexivity).
  split; [reflexivity |]. split; [exact Hh |].
  apply (Writes_one_after_the_other demo_backend [x01] [x02] demo_world
           (incoming [] false) eq_refl Hh).
Defined.

(** ** Session ids *)

Lemma uint32_succ (a : Z) : uint32 (uint32 a + 1) = uint32 (a + 1).
Proof. unfold uint32. by rewrite Zplus_mod_idemp_l. Qed.

Lemma allocate_session (n : nat) (w : World) :
  session (gate w) = 0 ->
  session (gate (allocate n w)) = uint32 (Z.of_nat n).
Proof.
  intros H0. induction n as [| n IH].
  - simpl. rewrite H0. reflexivity.
  - change (allocate (S n) w) with (world_of (run Gate_nextSession (allocate n w))).
    unfold Gate_nextSession. rewrite run_act. unfold atomic_AddUint32_session.
    simpl. rewrite IH, uint32_succ. f_equal. lia.
Qed.

Lemma nth_session_eq (n : nat) (w : World) :
  session (gate w) = 0 ->
  nth_session n w = Some (uint32 (Z.of_nat n + 1)).
Proof.
  intros H0. unfold nth_session, Gate_nextSession. rewrite run_act.
  unfold atomic_AddUint32_session. rewrite (allocate_session n w H0), uint32_succ.
  reflexivity.
Qed.

Lemma nextSession_total (w : World) :
  exists id w', run Gate_nextSession w = Finished id w'.
Proof. eexists _, _. reflexivity. Qed.

(** C9 (what the code does not do): the counter is a [uint32].  On a fresh
    Gate the call number 4294967295 returns 4294967295, the next call
    returns 0, which is smaller, and the call after that returns 1, which
    the first call had returned. *)
Lemma nextSession_wraps :
  nth_session 0 fresh_world = Some 1 /\
  nth_session (Z.to_nat 4294967294) fresh_world = Some 4294967295 /\
  nth_session (Z.to_nat 4294967295) fresh_world = Some 0 /\
  nth_session (Z.to_nat 4294967296) fresh_world = Some 1.
Proof.
  rewrite !nth_session_eq by reflexivity.
  rewrite !Z2Nat.id by lia.
  repeat split.
Qed.

(** C9 (as the code has it): on a Gate made by [New] the first call of
    [nextSession] returns 1 and, as long as fewer than 4294967295 ids have
    been handed out, each call returns the previous id plus one; so the
    first 4294967295 ids grow strictly and no two of them are equal.  The
    counter then wraps to 0. *)
Theorem nextSession_fresh (w : World) :
  session (gate w) = 0 ->
  nth_session 0 w = Some 1 /\
  (forall n : nat, Z.of_nat n < 4294967295 ->
     nth_session n w = Some (Z.of_nat n + 1)) /\
  (forall (i j : nat) (a b : Z),
     (i < j)%nat -> Z.of_nat j < 4294967295 ->
     nth_session i w = Some a -> nth_session j w = Some b -> a < b) /\
  (forall (i j : nat),
     Z.of_nat i < 4294967295 -> Z.of_nat j < 4294967295 -> i <> j ->
     nth_session i w <> nth_session j w) /\
  nth_session (Z.to_nat 4294967295) w = Some 0.
Proof.
  intros H0.
  assert (Hn : forall n : nat, Z.of_nat n < 4294967295 ->
                 nth_session n w = Some (Z.of_nat n + 1)).
  { intros n Hb. rewrite (nth_session_eq n w H0). f_equal.
    unfold uint32. apply Z.mod_small. lia. }
  split; [apply (Hn 0%nat); lia |]. split; [exact Hn |]. split; [| split].
  - intros i j a b Hij Hj Ha Hb.
    rewrite Hn in Ha by lia. rewrite Hn in Hb by lia.
    injection Ha as <-. injection Hb as <-. lia.
  - intros i j Hi Hj Hne. rewrite (Hn i Hi), (Hn j Hj). intros [= E]. lia.
  - rewrite (nth_session_eq _ w H0), Z2Nat.id by lia. reflexivity.
Qed.

Lemma nextSession_fresh_witness :
  session (gate fresh_world) = 0 /\
  nth_session 0 fresh_world = Some 1 /\
  nth_session 1 fresh_world = Some 2 /\
  nth_session 0 fresh_world <> nth_session 1 fresh_world.
Proof.
  split; [reflexivity |].
  destruct (nextSession_fresh fresh_world eq_refl) as (H1 & Hn & _ & Hd & _).
  split; [exact H1 |]. split.
  - apply (Hn 1%nat). vm_compute. reflexivity.
  - apply (Hd 0%nat 1%nat); [vm_compute; reflexivity | vm_compute; reflexivity | discriminate].
Defined.

(** ** Admission *)

Lemma acts_in_bind {R S : Type} (P : World -> World -> Prop) (p : Prog R) (g : R -> Prog S) :
  acts_in P p -> (forall r, acts_in P (g r)) -> acts_in P (p ≫= g).
Proof.
  intros Hp Hg. induction p as [r | A f k IH]; [apply Hg |].
  destruct Hp as [Hf Hk]. split; [exact Hf |]. intros a. apply IH, Hk.
Qed.

Lemma acts_in_act {A : Type} (P : World -> World -> Prop) (f : World -> option (A * World)) :
  (forall w a w', f w = Some (a, w') -> P w w') -> acts_in P (act f).
Proof. intros H. split; [exact H | intros a; exact I]. Qed.

Lemma acts_in_run {R : Type} (P : World -> World -> Prop) (p : Prog R) (w : World) :
  (forall w, P w w) ->
  (forall w1 w2 w3, P w1 w2 -> P w2 w3 -> P w1 w3) ->
  acts_in P p ->
  P w (world_of (run p w)).
Proof.
  intros Hrefl Htrans. revert w. induction p as [r | A f k IH]; intros w Hp.
  - apply Hrefl.
  - destruct Hp as [Hf Hk]. simpl. destruct (f w) as [[a w1] |] eqn:E.
    + apply (Htrans _ w1); [apply (Hf _ _ _ E) | apply IH, Hk].
    + apply Hrefl.
Qed.

Lemma quiet_refl (w : World) : quiet w w.
Proof. by repeat split. Qed.

Lemma quiet_trans (w1 w2 w3 : World) : quiet w1 w2 -> quiet w2 w3 -> quiet w1 w3.
Proof.
  intros (H1 & H2 & H3) (H4 & H5 & H6). split; [congruence |].
  split; [auto | congruence].
Qed.

Lemma serving_app (l1 l2 : list Event) : serving (l1 ++ l2) = serving l1 ++ serving l2.
Proof.
  induction l1 as [| e l1 IH]; [reflexivity |].
  destruct e; simpl; rewrite IH; reflexivity.
Qed.

(** A world that differs in connections and websockets only, or in a
    trace entry that starts no read loop, is quiet. *)
Lemma quiet_same_gate (w w' : World) :
  gate w' = gate w -> serving (log w') = serving (log w) -> quiet w w'.
Proof. intros Hg Hl. unfold quiet. rewrite Hg. by repeat split. Qed.

Lemma quiet_on_open_conn {A : Type} (c : Z) (f : Conn -> option (A * Conn)) :
  acts_in quiet (act (on_open_conn c f)).
Proof.
  apply acts_in_act. intros w a w' H. unfold on_open_conn in H.
  destruct (conns w !! c) as [x |]; [| discriminate].
  destruct (closed x); [discriminate |].
  destruct (f x) as [[a' x'] |]; [| discriminate].
  injection H as <- <-. by apply quiet_same_gate.
Qed.

Lemma quiet_lock_actions :
  acts_in quiet (act Lock) /\ acts_in quiet (act Unlock) /\
  acts_in quiet (act RLock) /\ acts_in quiet (act RUnlock).
Proof.
  assert (Hq : forall w m e, serving [e] = [] ->
                 quiet w (emit e (with_gate (set_rwmutex m (gate w)) w))).
  { intros w m e He. split; [reflexivity |]. split; [auto |].
    simpl. rewrite serving_app, He, app_nil_r. reflexivity. }
  split; [| split; [| split]]; apply acts_in_act; intros w a w' H.
  - unfold Lock in H.
    destruct (negb _ && _); [| discriminate]. injection H as <- <-. by apply Hq.
  - injection H as <- <-. by apply Hq.
  - unfold RLock in H.
    destruct (negb _); [| discriminate]. injection H as <- <-. by apply Hq.
  - injection H as <- <-. by apply Hq.
Qed.

Lemma quiet_Backend_Close (b : Backend) : acts_in quiet (Backend_Close b).
Proof.
  destruct b as [t | h].
  - apply acts_in_act. intros w a w' H.
    destruct (conns w !! t_conn t); injection H as <- <-;
      (apply quiet_same_gate; [reflexivity | simpl; rewrite serving_app, app_nil_r; reflexivity]).
  - apply acts_in_bind.
    + apply acts_in_act. intros w a w' H. injection H as <- <-.
      apply quiet_same_gate; [reflexivity | simpl; rewrite serving_app, app_nil_r; reflexivity].
    + intros _. apply acts_in_act. intros w a w' H. unfold Websocket_Close in H.
      destruct (wss w !! h); injection H as <- <-; by apply quiet_same_gate.
Qed.

Lemma quiet_Backend_Write (b : Backend) (data : list byte) :
  acts_in quiet (Backend_Write b data).
Proof.
  destruct b as [t | h].
  - unfold Backend_Write, TcpBackend_Write.
    apply acts_in_bind; [apply quiet_on_open_conn |]. intros [e |]; [exact I |].
    apply acts_in_bind; [apply quiet_on_open_conn |]. intros [e |]; [exact I |].
    apply quiet_on_open_conn.
  - apply acts_in_act. intros w a w' H. unfold SendText in H.
    destruct (wss w !! h) as [x |]; [| discriminate].
    destruct (ws_fail x); injection H as <- <-; by apply quiet_same_gate.
Qed.

Lemma quiet_Gate_kick (id : Z) : acts_in quiet (Gate_kick id).
Proof.
  destruct quiet_lock_actions as (HL & HU & _ & _).
  unfold Gate_kick.
  apply acts_in_bind; [exact HL |]. intros _.
  apply acts_in_bind.
  { apply acts_in_act. intros w a w' H. injection H as <- <-. apply quiet_refl. }
  intros r. apply acts_in_bind.
  { destruct r as [b |]; [| exact I].
    apply acts_in_bind.
    - apply acts_in_act. intros w a w' H. injection H as <- <-.
      split; [reflexivity |]. split; [| reflexivity].
      intros id' b'. simpl. rewrite lookup_delete. case_decide; [discriminate | auto].
    - intros _. apply acts_in_act. intros w a w' H. injection H as <- <-.
      by repeat split. }
  intros _. apply acts_in_bind; [exact HU |]. intros _.
  destruct r as [b |]; [apply quiet_Backend_Close | exact I].
Qed.

Lemma quiet_Gate_Write (id : Z) (data : list byte) : acts_in quiet (Gate_Write id data).
Proof.
  destruct quiet_lock_actions as (_ & _ & HL & HU).
  unfold Gate_Write.
  apply acts_in_bind; [exact HL |]. intros _.
  apply acts_in_bind.
  { apply acts_in_act. intros w a w' H. injection H as <- <-. apply quiet_refl. }
  intros r. apply acts_in_bind; [exact HU |]. intros _.
  destruct r as [b |]; [apply quiet_Backend_Write | exact I].
Qed.

Lemma quiet_Notify (id : Z) (e : ClientEvent) : acts_in quiet (act (Notify id e)).
Proof.
  apply acts_in_act. intros w a w' H. injection H as <- <-.
  apply quiet_same_gate; [reflexivity | simpl; rewrite serving_app, app_nil_r; reflexivity].
Qed.

Lemma quiet_readFull (t : TcpBackend) (buf : list byte) :
  acts_in quiet (TcpBackend_readFull t buf).
Proof.
  unfold TcpBackend_readFull.
  apply acts_in_bind; [apply quiet_on_open_conn |].
  intros [buf' [e |]]; [| exact I].
  destruct (as_net_Error e) as [[|] |]; exact I.
Qed.

Lemma quiet_serve (fuel : nat) (t : TcpBackend) (head : list byte) :
  acts_in quiet (TcpBackend_serve fuel t head).
Proof.
  revert head. induction fuel as [| fuel IH]; intros head; [exact I |].
  rewrite serve_unfold.
  apply acts_in_bind; [apply quiet_readFull |].
  intros [head' [e |]].
  { apply acts_in_bind; [apply quiet_Gate_kick | intros _; exact I]. }
  destruct (BigEndian.Uint16 head') as [n |]; [| exact I].
  apply acts_in_bind; [apply quiet_readFull |].
  intros [data [e |]].
  { apply acts_in_bind; [apply quiet_Gate_kick | intros _; exact I]. }
  apply acts_in_bind; [apply quiet_Notify | intros _; apply IH].
Qed.

Lemma quiet_ws_Notify (h : Z) (e : ClientEvent) : acts_in quiet (ws_Notify h e).
Proof.
  apply acts_in_act. intros w a w' H.
  destruct (wss w !! h) as [x |]; [| discriminate].
  injection H as <- <-.
  apply quiet_same_gate; [reflexivity | simpl; rewrite serving_app, app_nil_r; reflexivity].
Qed.

Lemma accept_iteration_refuses (N c : Z) (w : World) :
  N <> 0 -> N <= clinetnum (gate w) ->
  run (accept_iteration N (AcceptConn c)) w
  = Finished Break
      (match conns w !! c with
       | Some x => with_conn c (set_closed true x) w
       | None => w
       end).
Proof.
  intros HN Hle. unfold accept_iteration, clinetnum_load. run_simpl.
  replace (negb (N =? 0) && (N <=? clinetnum (gate w))) with true
    by (symmetry; apply andb_true_iff; split;
        [apply negb_true_iff, Z.eqb_neq; exact HN | apply Z.leb_le; exact Hle]).
  run_simpl. unfold conn_Close. destruct (conns w !! c); reflexivity.
Qed.

Lemma accept_iteration_admits (N c : Z) (w : World) :
  N = 0 \/ clinetnum (gate w) < N ->
  run (accept_iteration N (AcceptConn c)) w = Finished Continue (admitted c w).
Proof.
  intros HN. unfold accept_iteration, clinetnum_load. run_simpl.
  replace (negb (N =? 0) && (N <=? clinetnum (gate w))) with false.
  2:{ symmetry. apply andb_false_iff. destruct HN as [-> | Hlt];
        [left; reflexivity | right; apply Z.leb_gt; exact Hlt]. }
  unfold Gate_nextSession. run_simpl. reflexivity.
Qed.

Lemma accept_iteration_error (N : Z) (e : error) (w : World) :
  run (accept_iteration N (AcceptErr e)) w = Finished Continue w.
Proof. reflexivity. Qed.

(** Once the accept loop has left, no input other than a new [OPEN]
    admits anything. *)
Lemma stopped_step (s : Sys) (i : Input) :
  listener s = AcceptStopped ->
  not_open i ->
  listener (sys_step s i) = AcceptStopped /\ quiet (world s) (world (sys_step s i)).
Proof.
  intros Hl Hi. destruct i as [r | r | src [conf | id] | id data | fuel t head | h e];
    unfold sys_step, Start, ResponseStart; rewrite ?Hl; cbn [world listener].
  - split; [first [exact Hl | reflexivity] | apply quiet_refl].
  - split; [first [exact Hl | reflexivity] | apply quiet_refl].
  - destruct Hi.
  - split; [first [exact Hl | reflexivity] |].
    apply acts_in_run; [apply quiet_refl | apply quiet_trans | apply quiet_Gate_kick].
  - split; [first [exact Hl | reflexivity] |].
    apply acts_in_run; [apply quiet_refl | apply quiet_trans | apply quiet_Gate_Write].
  - split; [first [exact Hl | reflexivity] |].
    apply acts_in_run; [apply quiet_refl | apply quiet_trans | apply quiet_serve].
  - split; [first [exact Hl | reflexivity] |].
    apply acts_in_run; [apply quiet_refl | apply quiet_trans | apply quiet_ws_Notify].
Qed.

Lemma stopped_run (ins : list Input) (s : Sys) :
  listener s = AcceptStopped ->
  Forall not_open ins ->
  listener (sys_run s ins) = AcceptStopped /\ quiet (world s) (world (sys_run s ins)).
Proof.
  revert s. induction ins as [| i ins IH]; intros s Hl Hins.
  - split; [exact Hl | apply quiet_refl].
  - inversion Hins as [| ? ? Hi Hrest]; subst.
    destruct (stopped_step s i Hl Hi) as [Hl1 Hq1].
    destruct (IH (sys_step s i) Hl1 Hrest) as [Hl2 Hq2].
    split; [exact Hl2 | exact (quiet_trans _ _ _ Hq1 Hq2)].
Qed.

(** C4: in TCP mode with a cap [N] other than 0, a connection accepted
    while the client count is [N] or more is closed at once and the accept
    loop leaves: the registry, the count and the trace are as before.  From
    then on, whatever happens (kicks that lower the count, writes, read
    loops ending, further connection attempts), short of a new [OPEN], the
    loop stays stopped and nothing is admitted: no id is allocated, no
    entry added to the registry, no read loop started.  With a cap of 0
    every accepted connection is admitted and the loop goes on. *)
Theorem accept_loop_admission :
  (forall (s : Sys) (N c : Z),
     listener s = Accepting N -> N <> 0 -> N <= clinetnum (gate (world s)) ->
     listener (sys_step s (InAccept (AcceptConn c))) = AcceptStopped /\
     gate (world (sys_step s (InAccept (AcceptConn c)))) = gate (world s) /\
     log (world (sys_step s (InAccept (AcceptConn c)))) = log (world s) /\
     closed <$> conns (world (sys_step s (InAccept (AcceptConn c)))) !! c
     = (fun _ => true) <$> conns (world s) !! c) /\
  (forall (s : Sys) (ins : list Input),
     listener s = AcceptStopped -> Forall not_open ins ->
     listener (sys_run s ins) = AcceptStopped /\
     session (gate (world (sys_run s ins))) = session (gate (world s)) /\
     (forall id b, sessions (gate (world (sys_run s ins))) !! id = Some b ->
                   sessions (gate (world s)) !! id = Some b) /\
     serving (log (world (sys_run s ins))) = serving (log (world s))) /\
  (forall (s : Sys) (c : Z),
     listener s = Accepting 0 ->
     sys_step s (InAccept (AcceptConn c)) = mkSys (admitted c (world s)) (Accepting 0) /\
     sessions (gate (admitted c (world s))) !! uint32 (session (gate (world s)) + 1)
     = Some (TcpB (newTcpBackend (uint32 (session (gate (world s)) + 1)) c)) /\
     serving (log (admitted c (world s)))
     = serving (log (world s)) ++ [newTcpBackend (uint32 (session (gate (world s)) + 1)) c]).
Proof.
  split; [| split].
  - intros s N c Hl HN Hle. unfold sys_step. rewrite Hl.
    rewrite (accept_iteration_refuses N c (world s) HN Hle). cbn [world listener].
    destruct (conns (world s) !! c) as [x |] eqn:E; simpl.
    + repeat split. by rewrite lookup_insert_eq.
    + repeat split. by rewrite E.
  - intros s ins Hl Hins.
    destruct (stopped_run ins s Hl Hins) as (H1 & H2 & H3 & H4). by repeat split.
  - intros s c Hl. unfold sys_step. rewrite Hl.
    rewrite (accept_iteration_admits 0 c (world s)) by (left; reflexivity).
    split; [reflexivity |]. split.
    + simpl. apply lookup_insert_eq.
    + simpl. rewrite serving_app. reflexivity.
Qed.

(** With one seat: the first client is admitted, the second is refused and
    the loop leaves; session 1 is kicked, so the count is 0 again, and the
    third client is still not admitted. *)
Lemma accept_loop_admission_witness :
  listener seat_taken = Accepting 1 /\ clinetnum (gate (world seat_taken)) = 1 /\
  listener seat_refused = AcceptStopped /\
  closed <$> conns (world seat_refused) !! 8 = Some true /\
  gate (world seat_refused) = gate (world seat_taken) /\
  clinetnum (gate (world seat_freed)) = 0 /\
  listener seat_freed = AcceptStopped /\
  session (gate (world seat_freed)) = 1 /\
  serving (log (world seat_freed)) = [newTcpBackend 1 7] /\
  sys_step (mkSys three_conns (Accepting 0)) (InAccept (AcceptConn 7))
  = mkSys (admitted 7 three_conns) (Accepting 0).
Proof.
  assert (Hl1 : listener seat_taken = Accepting 1) by reflexivity.
  assert (Hc1 : 1 <= clinetnum (gate (world seat_taken))) by (vm_compute; discriminate).
  destruct (proj1 accept_loop_admission seat_taken 1 8 Hl1 ltac:(discriminate) Hc1)
    as (Hl2 & Hg2 & _ & Hcl).
  assert (Hno : Forall not_open [InCmd 5 (KICK 1); InAccept (AcceptConn 9)])
    by (repeat constructor).
  destruct (proj1 (proj2 accept_loop_admission) seat_refused _ Hl2 Hno) as (Hl3 & Hs3 & _ & Hg3).
  split; [exact Hl1 |]. split; [reflexivity |]. split; [exact Hl2 |].
  split; [exact Hcl |]. split; [exact Hg2 |]. split; [reflexivity |].
  split; [exact Hl3 |]. split; [exact Hs3 |]. split; [exact Hg3 |].
  apply (proj2 (proj2 accept_loop_admission) (mkSys three_conns (Accepting 0)) 7 eq_refl).
Defined.

(** ** Upgrade requests *)

Lemma upgrade_refused (N : Z) (r : Request) (w : World) :
  N <> 0 -> N <= clinetnum (gate w) ->
  run (upgrade_handler N r) w = Finished tt w.
Proof.
  intros HN Hle. unfold upgrade_handler, clinetnum_load. run_simpl.
  replace (negb (N =? 0) && (N <=? clinetnum (gate w))) with true
    by (symmetry; apply andb_true_iff; split;
        [apply negb_true_iff, Z.eqb_neq; exact HN | apply Z.leb_le; exact Hle]).
  reflexivity.
Qed.

Lemma upgrade_failed (N : Z) (r : Request) (e : error) (w : World) :
  N = 0 \/ clinetnum (gate w) < N ->
  handshake r = Some e ->
  run (upgrade_handler N r) w = Finished tt (id_spent w).
Proof.
  intros HN He. unfold upgrade_handler, clinetnum_load. run_simpl.
  replace (negb (N =? 0) && (N <=? clinetnum (gate w))) with false.
  2:{ symmetry. apply andb_false_iff. destruct HN as [-> | Hlt];
        [left; reflexivity | right; apply Z.leb_gt; exact Hlt]. }
  unfold Gate_nextSession, newWebsocket. run_simpl.
  unfold atomic_AddUint32_session, NewWebsocket. rewrite He. reflexivity.
Qed.

(** After a handshake that succeeded the handler registers the backend,
    counts it and starts it. *)
Lemma upgrade_succeeded (N : Z) (r : Request) (w : World) :
  N = 0 \/ clinetnum (gate w) < N ->
  handshake r = None ->
  run (upgrade_handler N r) w =
  run (Gate_addBackend (uint32 (session (gate w) + 1)) (WsB (ws_handle r));;
       act clinetnum_inc;;
       act (Websocket_Start (ws_handle r)))
      (with_ws (ws_handle r)
         (mkWebsocket (uint32 (session (gate w) + 1)) [] None false None)
         (id_spent w)).
Proof.
  intros HN He.
  match goal with |- _ = ?r => set (rhs := r) end.
  unfold upgrade_handler, clinetnum_load. run_simpl.
  replace (negb (N =? 0) && (N <=? clinetnum (gate w))) with false.
  2:{ symmetry. apply andb_false_iff. destruct HN as [-> | Hlt];
        [left; reflexivity | right; apply Z.leb_gt; exact Hlt]. }
  unfold Gate_nextSession, newWebsocket. run_simpl.
  unfold atomic_AddUint32_session, NewWebsocket. rewrite He. reflexivity.
Qed.

Lemma keeps_unused_refl (k : Z) (w : World) : keeps_unused k w w.
Proof. by split. Qed.

Lemma keeps_unused_trans (k : Z) (w1 w2 w3 : World) :
  keeps_unused k w1 w2 -> keeps_unused k w2 w3 -> keeps_unused k w1 w3.
Proof. intros [H1 H2] [H3 H4]. split; [congruence | auto]. Qed.

Lemma notified_app (l1 l2 : list Event) :
  notified (l1 ++ l2) = notified l1 ++ notified l2.
Proof.
  induction l1 as [| e l1 IH]; [reflexivity |].
  destruct e; simpl; rewrite IH; reflexivity.
Qed.

(** Steps that leave the registry and the websockets alone and notify
    nobody keep [k] unused. *)
Lemma keeps_unused_frame (k : Z) (w w' : World) :
  session (gate w') = session (gate w) ->
  sessions (gate w') = sessions (gate w) ->
  wss w' = wss w ->
  notified (log w') = notified (log w) ->
  keeps_unused k w w'.
Proof.
  intros Hs Hm Hw Hl. split; [exact Hs |].
  unfold unused. rewrite Hm, Hw, Hl. auto.
Qed.

Lemma keeps_unused_emit (k : Z) (e : Event) (w : World) :
  notified [e] = [] -> keeps_unused k w (emit e w).
Proof.
  intros He. apply keeps_unused_frame; try reflexivity.
  simpl. rewrite notified_app, He, app_nil_r. reflexivity.
Qed.

(** Updating a websocket in place, its session id kept. *)
Lemma keeps_unused_with_ws (k h : Z) (x x' : Websocket) (w : World) :
  wss w !! h = Some x -> ws_session x' = ws_session x ->
  keeps_unused k w (with_ws h x' w).
Proof.
  intros Hx Hs. split; [reflexivity |].
  intros (H1 & H2 & H3). split; [exact H1 |]. split; [| exact H3].
  intros h' y. simpl. rewrite lookup_insert. case_decide as Hh.
  - intros [= <-]. rewrite Hs. subst h'. exact (H2 h x Hx).
  - apply H2.
Qed.

Lemma unused_lock_actions (k : Z) :
  acts_in (keeps_unused k) (act Lock) /\ acts_in (keeps_unused k) (act Unlock) /\
  acts_in (keeps_unused k) (act RLock) /\ acts_in (keeps_unused k) (act RUnlock).
Proof.
  assert (Hq : forall w m e, notified [e] = [] ->
                 keeps_unused k w (emit e (with_gate (set_rwmutex m (gate w)) w))).
  { intros w m e He. apply keeps_unused_frame; try reflexivity.
    simpl. rewrite notified_app, He, app_nil_r. reflexivity. }
  split; [| split; [| split]]; apply acts_in_act; intros w a w' H.
  - unfold Lock in H.
    destruct (negb _ && _); [| discriminate]. injection H as <- <-. by apply Hq.
  - injection H as <- <-. by apply Hq.
  - unfold RLock in H.
    destruct (negb _); [| discriminate]. injection H as <- <-. by apply Hq.
  - injection H as <- <-. by apply Hq.
Qed.

Lemma unused_on_open_conn {A : Type} (k c : Z) (f : Conn -> option (A * Conn)) :
  acts_in (keeps_unused k) (act (on_open_conn c f)).
Proof.
  apply acts_in_act. intros w a w' H. unfold on_open_conn in H.
  destruct (conns w !! c) as [x |]; [| discriminate].
  destruct (closed x); [discriminate |].
  destruct (f x) as [[a' x'] |]; [| discriminate].
  injection H as <- <-. by apply keeps_unused_frame.
Qed.

Lemma unused_Backend_Close (k : Z) (b : Backend) :
  acts_in (keeps_unused k) (Backend_Close b).
Proof.
  destruct b as [t | h].
  - apply acts_in_act. intros w a w' H.
    destruct (conns w !! t_conn t); injection H as <- <-;
      (apply keeps_unused_frame; try reflexivity;
       simpl; rewrite notified_app, app_nil_r; reflexivity).
  - apply acts_in_bind.
    + apply acts_in_act. intros w a w' H. injection H as <- <-.
      by apply keeps_unused_emit.
    + intros _. apply acts_in_act. intros w a w' H. unfold Websocket_Close in H.
      destruct (wss w !! h) as [x |] eqn:E; injection H as <- <-.
      * by apply (keeps_unused_with_ws k h x).
      * apply keeps_unused_refl.
Qed.

Lemma unused_Backend_Write (k : Z) (b : Backend) (data : list byte) :
  acts_in (keeps_unused k) (Backend_Write b data).
Proof.
  destruct b as [t | h].
  - unfold Backend_Write, TcpBackend_Write.
    apply acts_in_bind; [apply unused_on_open_conn |]. intros [e |]; [exact I |].
    apply acts_in_bind; [apply unused_on_open_conn |]. intros [e |]; [exact I |].
    apply unused_on_open_conn.
  - apply acts_in_act. intros w a w' H. unfold SendText in H.
    destruct (wss w !! h) as [x |] eqn:E; [| discriminate].
    destruct (ws_fail x); injection H as <- <-.
    + apply keeps_unused_refl.
    + by apply (keeps_unused_with_ws k h x).
Qed.

Lemma unused_Gate_kick (k id : Z) : acts_in (keeps_unused k) (Gate_kick id).
Proof.
  destruct (unused_lock_actions k) as (HL & HU & _ & _).
  unfold Gate_kick.
  apply acts_in_bind; [exact HL |]. intros _.
  apply acts_in_bind.
  { apply acts_in_act. intros w a w' H. injection H as <- <-. apply keeps_unused_refl. }
  intros r. apply acts_in_bind.
  { destruct r as [b |]; [| exact I].
    apply acts_in_bind.
    - apply acts_in_act. intros w a w' H. injection H as <- <-.
      split; [reflexivity |]. intros (H1 & H2 & H3).
      split; [| by split]. simpl. rewrite lookup_delete. by case_decide.
    - intros _. apply acts_in_act. intros w a w' H. injection H as <- <-.
      by apply keeps_unused_frame. }
  intros _. apply acts_in_bind; [exact HU |]. intros _.
  destruct r as [b |]; [apply unused_Backend_Close | exact I].
Qed.

Lemma unused_Gate_Write (k id : Z) (data : list byte) :
  acts_in (keeps_unused k) (Gate_Write id data).
Proof.
  destruct (unused_lock_actions k) as (_ & _ & HL & HU).
  unfold Gate_Write.
  apply acts_in_bind; [exact HL |]. intros _.
  apply acts_in_bind.
  { apply acts_in_act. intros w a w' H. injection H as <- <-. apply keeps_unused_refl. }
  intros r. apply acts_in_bind; [exact HU |]. intros _.
  destruct r as [b |]; [apply unused_Backend_Write | exact I].
Qed.

(** A websocket callback notifies under the id its websocket carries. *)
Lemma unused_ws_Notify (k h : Z) (e : ClientEvent) :
  acts_in (keeps_unused k) (ws_Notify h e).
Proof.
  apply acts_in_act. intros w a w' H.
  destruct (wss w !! h) as [x |] eqn:E; [| discriminate].
  injection H as <- <-. split; [reflexivity |].
  intros (H1 & H2 & H3). split; [exact H1 |]. split; [exact H2 |].
  simpl. rewrite notified_app. simpl. rewrite in_app_iff. simpl.
  intros [Hin | [Hk | []]]; [exact (H3 Hin) | exact (H2 h x E Hk)].
Qed.

(** Registering a backend under another id than [k]. *)
Lemma unused_register (k id h : Z) :
  id <> k ->
  acts_in (keeps_unused k)
    (Gate_addBackend id (WsB h);; act clinetnum_inc;; act (Websocket_Start h)).
Proof.
  intros Hne. destruct (unused_lock_actions k) as (HL & HU & _ & _).
  apply acts_in_bind.
  { unfold Gate_addBackend.
    apply acts_in_bind; [exact HL |]. intros _.
    apply acts_in_bind; [| intros _; exact HU].
    apply acts_in_act. intros w a w' H. injection H as <- <-.
    split; [reflexivity |]. intros (H1 & H2 & H3).
    split; [| by split]. simpl. by rewrite lookup_insert_ne. }
  intros _. apply acts_in_bind.
  { apply acts_in_act. intros w a w' H. injection H as <- <-.
    by apply keeps_unused_frame. }
  intros _. apply acts_in_act. intros w a w' H. unfold Websocket_Start in H.
  destruct (wss w !! h) as [x |] eqn:E; [| discriminate]. injection H as <- <-.
  apply (keeps_unused_trans k _ (with_ws h (set_ws_started true x) w)).
  - by apply (keeps_unused_with_ws k h x).
  - by apply keeps_unused_emit.
Qed.

(** One upgrade request, with the counter short of wrapping: it allocates
    at most one id, a greater one, and keeps [k] unused. *)
Lemma upgrade_keeps_unused (k N : Z) (r : Request) (w : World) :
  0 <= k <= session (gate w) ->
  session (gate w) + 1 < 4294967296 ->
  unused k w ->
  let w' := world_of (run (upgrade_handler N r) w) in
  session (gate w) <= session (gate w') <= session (gate w) + 1 /\ unused k w'.
Proof.
  intros Hk Hb Hu.
  assert (Hid : uint32 (session (gate w) + 1) = session (gate w) + 1)
    by (unfold uint32; apply Z.mod_small; lia).
  assert (Hne : uint32 (session (gate w) + 1) <> k) by (rewrite Hid; lia).
  assert (Hsp : unused k (id_spent w)) by exact Hu.
  assert (Hroom : N = 0 \/ clinetnum (gate w) < N ->
            session (gate w)
            <= session (gate (world_of (run (upgrade_handler N r) w)))
            <= session (gate w) + 1 /\
            unused k (world_of (run (upgrade_handler N r) w))).
  { intros Hroom. destruct (handshake r) as [e |] eqn:He.
    - rewrite (upgrade_failed N r e w Hroom He). simpl. rewrite Hid.
      split; [lia | exact Hsp].
    - rewrite (upgrade_succeeded N r w Hroom He).
      set (w0 := with_ws (ws_handle r) _ (id_spent w)).
      destruct (acts_in_run (keeps_unused k) _ w0
                  (keeps_unused_refl k) (keeps_unused_trans k)
                  (unused_register k _ (ws_handle r) Hne)) as [Hs Hun].
      split.
      { rewrite Hs.
        change (session (gate w0)) with (uint32 (session (gate w) + 1)).
        rewrite Hid. lia. }
      apply Hun. destruct Hsp as (H1 & H2 & H3).
      split; [exact H1 |]. split; [| exact H3].
      intros h' y. simpl. rewrite lookup_insert. case_decide.
      + intros [= <-]. simpl. exact Hne.
      + apply H2. }
  destruct (Z.eq_dec N 0) as [HN | HN]; [apply Hroom; by left |].
  destruct (Z.le_gt_cases N (clinetnum (gate w))) as [Hle | Hgt].
  - rewrite (upgrade_refused N r w HN Hle). simpl. split; [lia | exact Hu].
  - apply Hroom. right. lia.
Qed.

Lemma ws_step (k N : Z) (s : Sys) (i : Input) :
  listener s = Upgrading N ->
  ws_input i ->
  0 <= k <= session (gate (world s)) ->
  session (gate (world s)) + 1 < 4294967296 ->
  unused k (world s) ->
  listener (sys_step s i) = Upgrading N /\
  session (gate (world s)) <= session (gate (world (sys_step s i)))
                           <= session (gate (world s)) + 1 /\
  unused k (world (sys_step s i)).
Proof.
  intros Hl Hi Hk Hb Hu.
  assert (Hkeep : forall (R : Type) (p : Prog R),
            acts_in (keeps_unused k) p ->
            session (gate (world s)) <= session (gate (world_of (run p (world s))))
                                     <= session (gate (world s)) + 1 /\
            unused k (world_of (run p (world s)))).
  { intros R p Hp.
    destruct (acts_in_run (keeps_unused k) p (world s)
                (keeps_unused_refl k) (keeps_unused_trans k) Hp) as [Hs Hun].
    rewrite Hs. split; [lia | exact (Hun Hu)]. }
  destruct i as [r | r | src [conf | id] | id data | fuel t head | h e];
    try destruct Hi;
    unfold sys_step, Start, ResponseStart; rewrite ?Hl; cbn [world listener].
  - split; [reflexivity |].
    exact (upgrade_keeps_unused k N r (world s) Hk Hb Hu).
  - split; [first [exact Hl | reflexivity] |]. apply Hkeep, unused_Gate_kick.
  - split; [first [exact Hl | reflexivity] |]. apply Hkeep, unused_Gate_Write.
  - split; [first [exact Hl | reflexivity] |]. apply Hkeep, unused_ws_Notify.
Qed.

Lemma ws_run (k N : Z) (ins : list Input) (s : Sys) :
  listener s = Upgrading N ->
  Forall ws_input ins ->
  0 <= k <= session (gate (world s)) ->
  session (gate (world s)) + Z.of_nat (length ins) < 4294967296 ->
  unused k (world s) ->
  listener (sys_run s ins) = Upgrading N /\ unused k (world (sys_run s ins)).
Proof.
  revert s. induction ins as [| i ins IH]; intros s Hl Hins Hk Hb Hu.
  - by split.
  - inversion Hins as [| ? ? Hi Hrest]; subst.
    simpl length in Hb.
    destruct (ws_step k N s i Hl Hi Hk ltac:(lia) Hu) as (Hl1 & Hs1 & Hu1).
    apply (IH (sys_step s i) Hl1 Hrest); [lia | lia | exact Hu1].
Qed.

(** C8: in WebSocket mode, a request that arrives while the cap is not 0
    and the client count has reached it is dropped and the world is as it
    was: no id allocated, nothing registered, no event.  A request whose
    handshake fails after its id was allocated leaves the registry, the
    client count, the connections, the websockets and the trace as they
    were; only the id is spent.  And from then on, as long as the counter
    does not wrap, whatever reaches the Gate in WebSocket mode, that id is
    never in the registry, never carried by a websocket and never named in
    a notification. *)
Theorem upgrade_refused_or_discarded :
  (forall (N : Z) (r : Request) (w : World),
     N <> 0 -> N <= clinetnum (gate w) ->
     run (upgrade_handler N r) w = Finished tt w) /\
  (forall (N : Z) (r : Request) (e : error) (w : World),
     N = 0 \/ clinetnum (gate w) < N ->
     handshake r = Some e ->
     exists w',
       run (upgrade_handler N r) w = Finished tt w' /\
       session (gate w') = uint32 (session (gate w) + 1) /\
       sessions (gate w') = sessions (gate w) /\
       clinetnum (gate w') = clinetnum (gate w) /\
       conns w' = conns w /\ wss w' = wss w /\ log w' = log w) /\
  (forall (N : Z) (r : Request) (e : error) (s : Sys) (ins : list Input),
     listener s = Upgrading N ->
     N = 0 \/ clinetnum (gate (world s)) < N ->
     handshake r = Some e ->
     0 <= session (gate (world s)) ->
     session (gate (world s)) + 1 + Z.of_nat (length ins) < 4294967296 ->
     unused (session (gate (world s)) + 1) (world s) ->
     Forall ws_input ins ->
     session (gate (world (sys_step s (InUpgrade r)))) = session (gate (world s)) + 1 /\
     unused (session (gate (world s)) + 1)
            (world (sys_run (sys_step s (InUpgrade r)) ins))).
Proof.
  split; [exact upgrade_refused |]. split.
  - intros N r e w Hroom He. exists (id_spent w).
    split; [exact (upgrade_failed N r e w Hroom He) |]. by repeat split.
  - intros N r e s ins Hl Hroom He H0 Hb Hu Hins.
    assert (Hid : uint32 (session (gate (world s)) + 1) = session (gate (world s)) + 1)
      by (unfold uint32; apply Z.mod_small; lia).
    assert (Hstep : sys_step s (InUpgrade r) = mkSys (id_spent (world s)) (Upgrading N)).
    { unfold sys_step. rewrite Hl, (upgrade_failed N r e (world s) Hroom He). reflexivity. }
    rewrite Hstep. cbn [world]. split; [exact Hid |].
    apply (ws_run (session (gate (world s)) + 1) N ins (mkSys (id_spent (world s)) (Upgrading N)));
      cbn [world listener]; [reflexivity | exact Hins | | | exact Hu].
    + simpl. rewrite Hid. lia.
    + simpl. rewrite Hid. lia.
Qed.

Lemma upgrade_refused_or_discarded_witness :
  listener ws_gate = Upgrading 0 /\
  handshake bad_request = Some ErrHandshake /\
  Forall ws_input ws_traffic /\
  unused 1 (world ws_gate) /\
  session (gate (world (sys_step ws_gate (InUpgrade bad_request)))) = 1 /\
  unused 1 (world (sys_run (sys_step ws_gate (InUpgrade bad_request)) ws_traffic)) /\
  run (upgrade_handler 1 good_request) demo_world = Finished tt demo_world.
Proof.
  assert (Hu : unused 1 (world ws_gate)).
  { split; [reflexivity |]. split; [| intros []].
    intros h x Hx. discriminate Hx. }
  assert (Hins : Forall ws_input ws_traffic) by (repeat constructor).
  split; [reflexivity |]. split; [reflexivity |]. split; [exact Hins |].
  split; [exact Hu |].
  split; [| split].
  - apply (proj2 (proj2 upgrade_refused_or_discarded) 0 bad_request ErrHandshake
             ws_gate ws_traffic eq_refl (or_introl eq_refl) eq_refl);
      [vm_compute; discriminate | vm_compute; reflexivity | exact Hu | exact Hins].
  - apply (proj2 (proj2 upgrade_refused_or_discarded) 0 bad_request ErrHandshake
             ws_gate ws_traffic eq_refl (or_introl eq_refl) eq_refl);
      [vm_compute; discriminate | vm_compute; reflexivity | exact Hu | exact Hins].
  - apply (proj1 upgrade_refused_or_discarded 1 good_request demo_world);
      [discriminate | vm_compute; discriminate].
Defined.

(** ** The registry lock between operations

    Every operation of the Gate gives back the lock it takes, also when it
    stops half way waiting for input: in every state the running Gate can
    reach from its creation the lock is free. *)

Lemma lock_free_bind {R S : Type} (p : Prog R) (g : R -> Prog S) :
  lock_free p -> (forall r, lock_free (g r)) -> lock_free (p ≫= g).
Proof.
  intros Hp Hg w Hw. rewrite run_bind. specialize (Hp w Hw).
  destruct (run p w) as [r w' | w']; [apply Hg |]; exact Hp.
Qed.

Lemma lock_free_same_gate {R : Type} (p : Prog R) :
  acts_in same_gate p -> lock_free p.
Proof.
  intros Hp w Hw.
  assert (Hg : same_gate w (world_of (run p w))).
  { apply acts_in_run; [reflexivity | | exact Hp].
    unfold same_gate. intros w1 w2 w3 H1 H2. congruence. }
  unfold same_gate in Hg. by rewrite Hg.
Qed.

Lemma lock_free_mret {R : Type} (r : R) : lock_free (mret r : Prog R).
Proof. intros w Hw. exact Hw. Qed.

Lemma same_gate_on_open_conn {A : Type} (c : Z) (f : Conn -> option (A * Conn)) :
  acts_in same_gate (act (on_open_conn c f)).
Proof.
  apply acts_in_act. intros w a w' H. unfold on_open_conn in H.
  destruct (conns w !! c) as [x |]; [| discriminate].
  destruct (closed x); [discriminate |].
  destruct (f x) as [[a' x'] |]; [| discriminate].
  injection H as <- <-. reflexivity.
Qed.

Lemma same_gate_Backend_Write (b : Backend) (data : list byte) :
  acts_in same_gate (Backend_Write b data).
Proof.
  destruct b as [t | h].
  - unfold Backend_Write, TcpBackend_Write.
    apply acts_in_bind; [apply same_gate_on_open_conn |]. intros [e |]; [exact I |].
    apply acts_in_bind; [apply same_gate_on_open_conn |]. intros [e |]; [exact I |].
    apply same_gate_on_open_conn.
  - apply acts_in_act. intros w a w' H. unfold SendText in H.
    destruct (wss w !! h) as [x |]; [| discriminate].
    destruct (ws_fail x); injection H as <- <-; reflexivity.
Qed.

Lemma same_gate_readFull (t : TcpBackend) (buf : list byte) :
  acts_in same_gate (TcpBackend_readFull t buf).
Proof.
  unfold TcpBackend_readFull.
  apply acts_in_bind; [apply same_gate_on_open_conn |].
  intros [buf' [e |]]; [| exact I].
  destruct (as_net_Error e) as [[|] |]; exact I.
Qed.

Lemma lock_free_Gate_kick (id : Z) : lock_free (Gate_kick id).
Proof.
  intros w Hw. rewrite (Gate_kick_run id w Hw).
  destruct (sessions (gate w) !! id) as [b |]; [| exact Hw].
  destruct (Backend_Close_run b (after_kick_lock id true w)) as (w' & -> & Hg & _).
  simpl. rewrite Hg. exact Hw.
Qed.

Lemma lock_free_Gate_Write (id : Z) (data : list byte) : lock_free (Gate_Write id data).
Proof.
  intros w Hw.
  assert (Hwr : writer (rwmutex (gate w)) = false) by (by rewrite Hw).
  rewrite (Gate_Write_run id data w Hwr).
  destruct (sessions (gate w) !! id) as [b |]; [| exact Hw].
  apply (lock_free_same_gate _ (same_gate_Backend_Write b data) (after_rlock w)).
  exact Hw.
Qed.

Lemma lock_free_Gate_addBackend (id : Z) (b : Backend) : lock_free (Gate_addBackend id b).
Proof.
  intros w Hw. unfold Gate_addBackend. run_simpl.
  unfold Lock. rewrite Hw. reflexivity.
Qed.

Lemma lock_free_serve (fuel : nat) (t : TcpBackend) (head : list byte) :
  lock_free (TcpBackend_serve fuel t head).
Proof.
  revert head. induction fuel as [| fuel IH]; intros head; [apply lock_free_mret |].
  rewrite serve_unfold.
  apply lock_free_bind; [apply lock_free_same_gate, same_gate_readFull |].
  intros [head' [e |]].
  { apply lock_free_bind; [apply lock_free_Gate_kick | intros _; apply lock_free_mret]. }
  destruct (BigEndian.Uint16 head') as [n |]; [| apply lock_free_mret].
  apply lock_free_bind; [apply lock_free_same_gate, same_gate_readFull |].
  intros [data [e |]].
  { apply lock_free_bind; [apply lock_free_Gate_kick | intros _; apply lock_free_mret]. }
  apply lock_free_bind; [| intros _; apply IH].
  apply lock_free_same_gate, acts_in_act. intros w a w' H. injection H as <- <-.
  reflexivity.
Qed.

Lemma lock_free_simple {A : Type} (f : World -> option (A * World)) :
  (forall w a w', f w = Some (a, w') -> rwmutex (gate w') = rwmutex (gate w)) ->
  lock_free (act f).
Proof.
  intros Hf w Hw. rewrite run_act.
  destruct (f w) as [[a w'] |] eqn:E; [| exact Hw].
  simpl. rewrite (Hf _ _ _ E). exact Hw.
Qed.

Lemma lock_free_accept_iteration (N : Z) (r : AcceptResult) :
  lock_free (accept_iteration N r).
Proof.
  destruct r as [e | c]; [apply lock_free_mret |].
  unfold accept_iteration.
  apply lock_free_bind.
  { apply lock_free_simple. intros w a w' H. by injection H as <- <-. }
  intros n. destruct (negb (N =? 0) && (N <=? n)).
  - apply lock_free_bind; [| intros _; apply lock_free_mret].
    apply lock_free_simple. intros w a w' H. unfold conn_Close in H.
    destruct (conns w !! c); by injection H as <- <-.
  - apply lock_free_bind.
    { apply lock_free_simple. intros w a w' H. by injection H as <- <-. }
    intros _. apply lock_free_bind.
    { apply lock_free_simple. intros w a w' H. by injection H as <- <-. }
    intros id. apply lock_free_bind.
    { apply lock_free_simple. intros w a w' H. by injection H as <- <-. }
    intros _. apply lock_free_bind; [| intros _; apply lock_free_mret].
    apply lock_free_simple. intros w a w' H. by injection H as <- <-.
Qed.

Lemma lock_free_upgrade_handler (N : Z) (r : Request) :
  lock_free (upgrade_handler N r).
Proof.
  unfold upgrade_handler.
  apply lock_free_bind.
  { apply lock_free_simple. intros w a w' H. by injection H as <- <-. }
  intros n. destruct (negb (N =? 0) && (N <=? n)); [apply lock_free_mret |].
  apply lock_free_bind.
  { apply lock_free_simple. intros w a w' H. by injection H as <- <-. }
  intros id. apply lock_free_bind.
  { unfold newWebsocket. apply lock_free_bind.
    - apply lock_free_simple. intros w a w' H. unfold NewWebsocket in H.
      destruct (handshake r); by injection H as <- <-.
    - intros [[h |] [e |]]; apply lock_free_mret. }
  intros [[[t | h] |] [e |]]; try apply lock_free_mret.
  apply lock_free_bind; [apply lock_free_Gate_addBackend |]. intros _.
  apply lock_free_bind.
  { apply lock_free_simple. intros w a w' H. by injection H as <- <-. }
  intros _. apply lock_free_simple. intros w a w' H. unfold Websocket_Start in H.
  destruct (wss w !! h); [| discriminate]. by injection H as <- <-.
Qed.

Lemma lock_free_ws_Notify (h : Z) (e : ClientEvent) : lock_free (ws_Notify h e).
Proof.
  apply lock_free_simple. intros w a w' H.
  destruct (wss w !! h); [| discriminate]. by injection H as <- <-.
Qed.

Lemma sys_step_lock_free (s : Sys) (i : Input) :
  rwmutex (gate (world s)) = unlocked ->
  rwmutex (gate (world (sys_step s i))) = unlocked.
Proof.
  intros Hw.
  destruct i as [r | r | src [conf | id] | id data | fuel t head | h e];
    unfold sys_step, Start, ResponseStart, Gate_open.
  - destruct (listener s) as [| N | | N]; try exact Hw.
    pose proof (lock_free_accept_iteration N r (world s) Hw) as H.
    destruct (run (accept_iteration N r) (world s)) as [[|] w' | w']; exact H.
  - destruct (listener s) as [| N | | N]; try exact Hw.
    exact (lock_free_upgrade_handler N r (world s) Hw).
  - destruct (path conf); exact Hw.
  - exact (lock_free_Gate_kick id (world s) Hw).
  - exact (lock_free_Gate_Write id data (world s) Hw).
  - exact (lock_free_serve fuel t head (world s) Hw).
  - exact (lock_free_ws_Notify h e (world s) Hw).
Qed.

Lemma sys_run_lock_free (ins : list Input) (s : Sys) :
  rwmutex (gate (world s)) = unlocked ->
  rwmutex (gate (world (sys_run s ins))) = unlocked.
Proof.
  revert s. induction ins as [| i ins IH]; intros s Hw; [exact Hw |].
  apply (IH (sys_step s i)), sys_step_lock_free, Hw.
Qed.

(** X13: the lock is given back.  From the Gate that [Start] creates, after
    any inputs handled one after the other the registry lock is free:
    [kick], [Gate.Write] and [addBackend] release it before they return,
    also when a read loop stops half way to wait for input. *)
Lemma lock_always_free (ins : list Input) :
  rwmutex (gate (world (sys_run fresh ins))) = unlocked.
Proof. apply sys_run_lock_free. reflexivity. Qed.

(** ** Streams of frames *)

Lemma read_items_short (n : nat) (q : list byte) :
  (length q < n)%nat ->
  read_items n (map RByte q) false = None.
Proof.
  revert n. induction q as [| b q IH]; intros n Hn.
  - destruct n; [lia | reflexivity].
  - destruct n; [simpl in Hn; lia |]. simpl. rewrite IH by (simpl in Hn; lia).
    reflexivity.
Qed.

Lemma readFull_short (t : TcpBackend) (buf q : list byte) (w : World) (x : Conn) :
  conns w !! t_conn t = Some x ->
  inbox x = map RByte q ->
  peer_closed x = false ->
  (length q < length buf)%nat ->
  run (TcpBackend_readFull t buf) w = Blocked w.
Proof.
  intros Hx Hin Hp Hlen. rewrite run_readFull. unfold on_open_conn. rewrite Hx.
  destruct (closed x); [reflexivity |].
  unfold io_ReadFull. rewrite Hin, Hp, (read_items_short _ q Hlen). reflexivity.
Qed.

(** The induction behind the decoding of a stream: one frame at a time. *)
Lemma serve_frames_run (msgs : list (list byte)) (fuel : nat) (t : TcpBackend)
  (head : list byte) (w : World) (x : Conn) :
  Forall (fun data => Z.of_nat (length data) <= 65535) msgs ->
  conns w !! t_conn t = Some x ->
  closed x = false ->
  peer_closed x = false ->
  inbox x = map RByte (frames msgs) ->
  length head = 2%nat ->
  exists w',
    run (TcpBackend_serve (S (length msgs + fuel)) t head) w = Blocked w' /\
    gate w' = gate w /\
    log w' = log w ++ messages (Source (gate w)) (t_session t) msgs /\
    inbox <$> conns w' !! t_conn t = Some [].
Proof.
  intros Hall. revert head w x.
  induction Hall as [| data msgs Hlen Hall IH]; intros head w x Hx Hc Hp Hin Hh.
  - exists w. split.
    + apply (serve_waits _ t head w x Hx Hc Hin Hp).
      destruct head; [discriminate | done].
    + split; [reflexivity |]. split; [simpl; by rewrite app_nil_r |].
      rewrite Hx. simpl. by rewrite Hin.
  - unfold frames in Hin. simpl in Hin. rewrite map_app in Hin.
    simpl length. simpl Nat.add.
    rewrite (serve_frame _ t head data _ w x Hx Hc Hin Hlen Hh).
    set (x1 := set_inbox (map RByte (concat (map frame msgs))) x).
    set (w1 := emit _ (with_conn (t_conn t) x1 w)).
    destruct (IH (BigEndian.PutUint16 (Z.of_nat (length data))) w1 x1)
      as (w' & Hr & Hg & Hl & Hi);
      [ apply conns_with_conn | exact Hc | exact Hp | reflexivity | reflexivity |].
    exists w'. split; [exact Hr |]. split; [rewrite Hg; reflexivity |].
    split; [| exact Hi].
    rewrite Hl. subst w1. unfold emit. simpl. by rewrite <- app_assoc.
Qed.

(** X1: the read loop cuts the byte stream into its frames.  When the
    input of a connection is the frames of a list of payloads of at most
    65535 bytes each and the peer stays connected, the loop reports the
    payloads to the actor, every one once and in the order they came, under
    the session id of the backend, empties the input and then waits. *)
Theorem serve_frames (msgs : list (list byte)) (fuel : nat) (t : TcpBackend)
  (head : list byte) (w : World) (x : Conn) :
  Forall (fun data => Z.of_nat (length data) <= 65535) msgs ->
  conns w !! t_conn t = Some x ->
  closed x = false ->
  peer_closed x = false ->
  inbox x = map RByte (frames msgs) ->
  length head = 2%nat ->
  exists w',
    run (TcpBackend_serve (S (length msgs + fuel)) t head) w = Blocked w' /\
    gate w' = gate w /\
    log w' = log w ++ messages (Source (gate w)) (t_session t) msgs /\
    inbox <$> conns w' !! t_conn t = Some [].
Proof.
  intros Hall Hx Hc Hp Hin Hh.
  destruct (serve_frames_run msgs fuel t head w x Hall Hx Hc Hp Hin Hh)
    as (w' & Hr & Hg & Hl & Hi).
  exists w'. split; [exact Hr |]. split; [exact Hg |]. split; [exact Hl | exact Hi].
Qed.

Lemma serve_frames_witness :
  Forall (fun data => Z.of_nat (length data) <= 65535) [hello; []; hello] /\
  exists w',
    run (TcpBackend_serve 4 demo_backend [x00; x00])
        (with_conn 7 (incoming (map RByte (frames [hello; []; hello])) false) demo_world)
    = Blocked w' /\
    log w' = [EvNotify 9 1 (OnMessage hello); EvNotify 9 1 (OnMessage []);
              EvNotify 9 1 (OnMessage hello)].
Proof.
  assert (H : Forall (fun data => Z.of_nat (length data) <= 65535) [hello; []; hello])
    by (repeat constructor; vm_compute; discriminate).
  split; [exact H |].
  destruct (serve_frames [hello; []; hello] 0 demo_backend [x00; x00]
              (with_conn 7 (incoming (map RByte (frames [hello; []; hello])) false) demo_world)
              (incoming (map RByte (frames [hello; []; hello])) false)
              H eq_refl eq_refl eq_refl eq_refl eq_refl)
    as (w' & Hr & _ & Hl & _).
  exists w'. split; [exact Hr | exact Hl].
Defined.

(** X2: no message before the frame is whole.  When the input holds only
    the beginning of a frame (any proper prefix, also one that stops inside
    the header) and the peer is still connected, the loop waits: it sends
    the actor nothing and leaves the Gate as it was. *)
Theorem serve_partial_frame (data p q : list byte) (fuel : nat) (t : TcpBackend)
  (w : World) (x : Conn) :
  Z.of_nat (length data) <= 65535 ->
  frame data = p ++ q ->
  q <> [] ->
  conns w !! t_conn t = Some x ->
  closed x = false ->
  peer_closed x = false ->
  inbox x = map RByte p ->
  exists w',
    run (TcpBackend_serve (S fuel) t [x00; x00]) w = Blocked w' /\
    gate w' = gate w /\
    log w' = log w.
Proof.
  intros Hlen Hpq Hq Hx Hc Hp Hin.
  assert (Hql : (0 < length q)%nat) by (destruct q; [done | simpl; lia]).
  assert (Hfl : length (frame data) = (2 + length data)%nat)
    by (unfold frame; rewrite length_app; reflexivity).
  assert (Hpl : (length p < 2 + length data)%nat).
  { rewrite <- Hfl, Hpq, length_app. lia. }
  destruct (Nat.lt_ge_cases (length p) 2) as [Hshort | Hlong].
  - exists w. split; [| by split].
    rewrite serve_unfold, run_bind.
    rewrite (readFull_short t [x00; x00] p w x Hx Hin Hp Hshort). reflexivity.
  - destruct p as [| b0 [| b1 body]]; try (simpl in Hlong; lia).
    assert (Hhd : [b0; b1] = BigEndian.PutUint16 (Z.of_nat (length data))
                  /\ data = body ++ q).
    { unfold frame in Hpq. rewrite uint16_small in Hpq by lia.
      unfold BigEndian.PutUint16 in *. simpl in Hpq.
      injection Hpq as -> -> ->. by split. }
    destruct Hhd as [Hhd Hd].
    change (map RByte (b0 :: b1 :: body))
      with (map RByte [b0; b1] ++ map RByte body) in Hin.
    rewrite serve_unfold, run_bind.
    rewrite (readFull_bytes t [x00; x00] [b0; b1] (map RByte body) w x Hx Hc eq_refl Hin).
    rewrite Hhd, Uint16_PutUint16 by lia. rewrite run_bind.
    erewrite readFull_short;
      [ | apply conns_with_conn | reflexivity | exact Hp | ].
    + eexists. split; [reflexivity |]. by split.
    + rewrite repeat_length, Nat2Z.id, Hd, length_app. lia.
Qed.

Lemma serve_partial_frame_witness :
  exists w',
    run (TcpBackend_serve 1 demo_backend [x00; x00])
        (with_conn 7 (incoming (map RByte [x00; x05; x68; x65]) false) demo_world)
    = Blocked w' /\
    gate w' = gate demo_world /\
    log w' = [].
Proof.
  apply (serve_partial_frame hello [x00; x05; x68; x65] [x6c; x6c; x6f] 0 demo_backend
           (with_conn 7 (incoming (map RByte [x00; x05; x68; x65]) false) demo_world)
           (incoming (map RByte [x00; x05; x68; x65]) false));
    [ vm_compute; discriminate | reflexivity | discriminate | reflexivity
    | reflexivity | reflexivity | reflexivity ].
Defined.

(** The header buffer at the end of the stream: the read fails with [EOF],
    which is not reported, so the body is taken to have the length the
    buffer still holds and to be all zero. *)
Lemma serve_end_of_stream_stale (fuel : nat) (t : TcpBackend) (head : list byte) (n : Z)
  (w : World) (x : Conn) :
  conns w !! t_conn t = Some x ->
  closed x = false ->
  inbox x = [] ->
  peer_closed x = true ->
  BigEndian.Uint16 head = Some n ->
  exists w',
    run (TcpBackend_serve fuel t head) w = Finished OutOfFuel w' /\
    gate w' = gate w /\
    log w' = log w ++ repeat (EvNotify (Source (gate w)) (t_session t)
                                (OnMessage (repeat x00 (Z.to_nat n)))) fuel.
Proof.
  intros Hx Hc Hin Hp Hn.
  assert (Hh : head <> []) by (intros ->; discriminate).
  revert w x Hx Hc Hin Hp. induction fuel as [| fuel IH]; intros w x Hx Hc Hin Hp.
  - exists w. simpl. rewrite app_nil_r. by repeat split.
  - erewrite (serve_header fuel t head head (Some EOF)); [| exact Hx | exact Hc |].
    2:{ unfold io_ReadFull. rewrite Hin, Hp.
        destruct head; [done | reflexivity]. }
    rewrite reported_EOF.
    erewrite (serve_body fuel t head (repeat x00 (Z.to_nat n)) n
                (if Nat.eqb (Z.to_nat n) 0 then None else Some EOF));
      [| apply conns_with_conn | exact Hc | exact Hn |].
    2:{ unfold io_ReadFull. rewrite repeat_length. simpl inbox. simpl peer_closed.
        rewrite Hp. destruct (Z.to_nat n); reflexivity. }
    assert (Hrep : reported (if Nat.eqb (Z.to_nat n) 0 then None else Some EOF) = None)
      by (destruct (Nat.eqb (Z.to_nat n) 0); reflexivity).
    rewrite Hrep, with_conn_twice.
    set (x1 := set_inbox [] (set_inbox [] x)).
    set (w1 := emit _ (with_conn (t_conn t) x1 w)).
    destruct (IH w1 x1) as (w' & Hr & Hg & Hl);
      [ apply conns_with_conn | exact Hc | reflexivity | exact Hp |].
    exists w'. split; [exact Hr |]. split; [rewrite Hg; reflexivity |].
    rewrite Hl. subst w1. unfold emit. simpl log. rewrite <- app_assoc. reflexivity.
Qed.

(** X3: a client that sends one frame and disconnects.  The loop reports
    the payload and then, the end of the stream not being reported by
    [readFull], goes round for ever: the header buffer is the one of the
    last frame, so every further round sends the actor a message of as many
    zero bytes as that frame had; the session stays registered. *)
Theorem serve_frame_then_eof (data : list byte) (fuel : nat) (t : TcpBackend)
  (head : list byte) (w : World) (x : Conn) :
  Z.of_nat (length data) <= 65535 ->
  conns w !! t_conn t = Some x ->
  closed x = false ->
  peer_closed x = true ->
  inbox x = map RByte (frame data) ->
  length head = 2%nat ->
  exists w',
    run (TcpBackend_serve (S fuel) t head) w = Finished OutOfFuel w' /\
    gate w' = gate w /\
    log w' = log w
             ++ EvNotify (Source (gate w)) (t_session t) (OnMessage data)
             :: repeat (EvNotify (Source (gate w)) (t_session t)
                          (OnMessage (repeat x00 (length data)))) fuel.
Proof.
  intros Hlen Hx Hc Hp Hin Hh.
  rewrite <- (app_nil_r (map RByte (frame data))) in Hin.
  rewrite (serve_frame fuel t head data [] w x Hx Hc Hin Hlen Hh).
  set (x1 := set_inbox [] x).
  set (w1 := emit _ (with_conn (t_conn t) x1 w)).
  destruct (serve_end_of_stream_stale fuel t
              (BigEndian.PutUint16 (Z.of_nat (length data)))
              (Z.of_nat (length data)) w1 x1)
    as (w' & Hr & Hg & Hl);
    [ apply conns_with_conn | exact Hc | reflexivity | exact Hp
    | apply Uint16_PutUint16; lia |].
  exists w'. split; [exact Hr |]. split; [rewrite Hg; reflexivity |].
  rewrite Hl, Nat2Z.id. subst w1. unfold emit. simpl log.
  rewrite <- app_assoc. reflexivity.
Qed.

Lemma serve_frame_then_eof_witness :
  Z.of_nat (length hello) <= 65535 /\
  exists w',
    run (TcpBackend_serve 3 demo_backend [x00; x00])
        (with_conn 7 (incoming (map RByte (frame hello)) true) demo_world)
    = Finished OutOfFuel w' /\
    sessions (gate w') !! 1 = Some (TcpB demo_backend) /\
    log w' = [EvNotify 9 1 (OnMessage hello);
              EvNotify 9 1 (OnMessage [x00; x00; x00; x00; x00]);
              EvNotify 9 1 (OnMessage [x00; x00; x00; x00; x00])].
Proof.
  assert (H : Z.of_nat (length hello) <= 65535) by (vm_compute; discriminate).
  split; [exact H |].
  destruct (serve_frame_then_eof hello 2 demo_backend [x00; x00]
              (with_conn 7 (incoming (map RByte (frame hello)) true) demo_world)
              (incoming (map RByte (frame hello)) true)
              H eq_refl eq_refl eq_refl eq_refl eq_refl)
    as (w' & Hr & Hg & Hl).
  exists w'. split; [exact Hr |]. split; [rewrite Hg; reflexivity | exact Hl].
Defined.

(** ** Writing to a connection that fails *)

Lemma with_conn_same (c : Z) (x : Conn) (w : World) :
  conns w !! c = Some x -> with_conn c x w = w.
Proof.
  intros Hx. destruct w as [g cs ws lg]. unfold with_conn. simpl in *.
  by rewrite (insert_id cs c x Hx).
Qed.

(** X4: [TcpBackend.Write] stops at the first step that fails and returns
    its error.  When the buffered writer already carries an error, the
    call returns it and the world is as it was.  When the socket refuses
    the flush with [e], the call returns [e], nothing reaches the wire and
    the writer keeps [e]: every later [Write] on the backend returns [e]
    again and still puts nothing on the wire. *)
Theorem TcpBackend_Write_errors (t : TcpBackend) (data : list byte) (e : error)
  (w : World) (x : Conn) :
  conns w !! t_conn t = Some x ->
  closed x = false ->
  (werr x = Some e ->
   run (TcpBackend_Write t data) w = Finished (Some e) w) /\
  (werr x = None -> wfail x = Some e ->
   run (TcpBackend_Write t data) w
   = Finished (Some e) (with_conn (t_conn t) (refused (frame data) e x) w) /\
   wire (refused (frame data) e x) = wire x /\
   forall data',
     run (TcpBackend_Write t data') (with_conn (t_conn t) (refused (frame data) e x) w)
     = Finished (Some e) (with_conn (t_conn t) (refused (frame data) e x) w)).
Proof.
  intros Hx Hc.
  assert (Hsticky : forall (w0 : World) (x0 : Conn) d,
            conns w0 !! t_conn t = Some x0 -> closed x0 = false -> werr x0 = Some e ->
            run (TcpBackend_Write t d) w0 = Finished (Some e) w0).
  { intros w0 x0 d Hx0 Hc0 He0. unfold TcpBackend_Write. run_simpl.
    unfold on_open_conn at 1. rewrite Hx0, Hc0. unfold bufio_Write. rewrite He0.
    by rewrite (with_conn_same _ _ _ Hx0). }
  split; [intros He; exact (Hsticky w x data Hx Hc He) |].
  intros He Hf. split; [| split; [reflexivity |]].
  - unfold TcpBackend_Write. run_simpl.
    unfold on_open_conn at 1. rewrite Hx, Hc. unfold bufio_Write at 1. rewrite He.
    run_simpl. unfold on_open_conn at 1. rewrite conns_with_conn. simpl closed. rewrite Hc.
    unfold bufio_Write at 1. simpl werr. rewrite He.
    run_simpl. unfold on_open_conn at 1. rewrite conns_with_conn. simpl closed. rewrite Hc.
    unfold bufio_Flush. simpl werr. rewrite He. simpl wbuf. simpl wfail. rewrite Hf.
    destruct ((wbuf x ++ BigEndian.PutUint16 (uint16 (Z.of_nat (length data)))) ++ data)
      as [| b l] eqn:E.
    + apply (f_equal (@length byte)) in E. rewrite !length_app, PutUint16_length in E.
      simpl in E. lia.
    + rewrite <- E. rewrite !with_conn_twice. do 2 f_equal.
      unfold refused, frame, set_werr, set_wbuf. simpl. by rewrite <- !app_assoc.
  - intros data'. apply (Hsticky _ (refused (frame data) e x));
      [apply conns_with_conn | exact Hc | reflexivity].
Qed.

Lemma TcpBackend_Write_errors_witness :
  run (TcpBackend_Write demo_backend hello)
      (with_conn 7 (mkConn [] false (Some (OpError false)) [] None [] false) demo_world)
  = Finished (Some (OpError false))
      (with_conn 7 (refused (frame hello) (OpError false)
                      (mkConn [] false (Some (OpError false)) [] None [] false))
         (with_conn 7 (mkConn [] false (Some (OpError false)) [] None [] false) demo_world)).
Proof.
  apply (TcpBackend_Write_errors demo_backend hello (OpError false)
           (with_conn 7 (mkConn [] false (Some (OpError false)) [] None [] false) demo_world)
           (mkConn [] false (Some (OpError false)) [] None [] false)
           eq_refl eq_refl);
    reflexivity.
Defined.

(** ** Requests of the actor, one after the other *)

Lemma frames_snoc (msgs : list (list byte)) (data : list byte) :
  frames (msgs ++ [data]) = frames msgs ++ frame data.
Proof. unfold frames. rewrite map_app, concat_app. simpl. by rewrite app_nil_r. Qed.

Lemma responses_run (id : Z) (t : TcpBackend) (msgs : list (list byte)) (s : Sys) (x : Conn) :
  rwmutex (gate (world s)) = unlocked ->
  sessions (gate (world s)) !! id = Some (TcpB t) ->
  conns (world s) !! t_conn t = Some x ->
  healthy x -> wbuf x = [] ->
  exists x',
    conns (world (sys_run s (responses id msgs))) !! t_conn t = Some x' /\
    healthy x' /\ wbuf x' = [] /\
    wire x' = wire x ++ frames msgs /\
    gate (world (sys_run s (responses id msgs))) = gate (world s) /\
    listener (sys_run s (responses id msgs)) = listener s.
Proof.
  revert s x. induction msgs as [| data msgs IH]; intros s x Hm Hid Hx Hh Hb.
  - exists x. unfold frames. simpl. rewrite app_nil_r.
    split; [exact Hx |]. split; [exact Hh |]. split; [exact Hb |]. by repeat split.
  - simpl. unfold ResponseStart.
    assert (Hwr : writer (rwmutex (gate (world s))) = false) by (by rewrite Hm).
    rewrite (Gate_Write_tcp id data (world s) t x Hwr Hid Hx Hh).
    cbn [world_of].
    set (s1 := mkSys _ (listener s)).
    destruct (IH s1 (sent (frame data) x)) as (x' & Hx' & Hh' & Hb' & Hw' & Hg' & Hl');
      [ exact Hm | exact Hid | apply conns_with_conn | exact Hh | reflexivity |].
    exists x'. split; [exact Hx' |]. split; [exact Hh' |]. split; [exact Hb' |].
    split; [| split; [exact Hg' | exact Hl']].
    rewrite Hw', wire_sent, Hb. unfold frames. simpl. by rewrite <- app_assoc.
Qed.

(** X5: what the actor writes in several requests the peer reads as so
    many messages.  Write requests for a registered TCP session on a
    connection in order, handled one after the other, put the frames of the
    payloads on the wire in the order of the requests and leave the Gate as
    it was; a read loop fed with that wire reports the same payloads in the
    same order, provided none is longer than 65535 bytes. *)
Theorem responses_roundtrip (id : Z) (t : TcpBackend) (msgs : list (list byte))
  (s : Sys) (x : Conn) :
  rwmutex (gate (world s)) = unlocked ->
  sessions (gate (world s)) !! id = Some (TcpB t) ->
  conns (world s) !! t_conn t = Some x ->
  healthy x -> wbuf x = [] -> wire x = [] ->
  wire <$> conns (world (sys_run s (responses id msgs))) !! t_conn t
  = Some (frames msgs) /\
  gate (world (sys_run s (responses id msgs))) = gate (world s) /\
  (Forall (fun data => Z.of_nat (length data) <= 65535) msgs ->
   forall (t2 : TcpBackend) (w2 : World) (x2 : Conn) (fuel : nat),
     conns w2 !! t_conn t2 = Some x2 ->
     closed x2 = false -> peer_closed x2 = false ->
     inbox x2 = map RByte (frames msgs) ->
     exists w2',
       run (serve_start (S (length msgs + fuel)) t2) w2 = Blocked w2' /\
       log w2' = log w2 ++ messages (Source (gate w2)) (t_session t2) msgs).
Proof.
  intros Hm Hid Hx Hh Hb Hw.
  destruct (responses_run id t msgs s x Hm Hid Hx Hh Hb) as (x' & Hx' & _ & _ & Hw' & Hg & _).
  split; [rewrite Hx'; simpl; by rewrite Hw', Hw |]. split; [exact Hg |].
  intros Hall t2 w2 x2 fuel Hx2 Hc2 Hp2 Hin2.
  destruct (serve_frames_run msgs fuel t2 [x00; x00] w2 x2 Hall Hx2 Hc2 Hp2 Hin2 eq_refl)
    as (w2' & Hr & _ & Hl & _).
  exists w2'. split; [exact Hr | exact Hl].
Qed.

Lemma responses_roundtrip_witness :
  wire <$> conns (world (sys_run (mkSys demo_world NotListening)
                           (responses 1 [hello; []]))) !! 7
  = Some [x00; x05; x68; x65; x6c; x6c; x6f; x00; x00].
Proof.
  apply (responses_roundtrip 1 demo_backend [hello; []] (mkSys demo_world NotListening)
           (incoming [] false) eq_refl eq_refl eq_refl);
    [repeat split; reflexivity | reflexivity | reflexivity].
Defined.

(** ** Registering and unregistering *)

Lemma Gate_addBackend_run (id : Z) (b : Backend) (w : World) :
  rwmutex (gate w) = unlocked ->
  run (Gate_addBackend id b) w = Finished tt (registered id b w).
Proof.
  intros Hm. unfold Gate_addBackend. run_simpl. unfold Lock. rewrite Hm. simpl.
  destruct w as [[m src ses cn mx ss] cs ws lg]. simpl in *. subst m.
  unfold registered, emit, with_gate, set_rwmutex, set_sessions. simpl.
  by rewrite <- app_assoc.
Qed.

(** X6: [addBackend] puts the backend under the id, whatever was there,
    and nothing else: the other entries, the client count and the id
    counter are as before and the lock is free again.  The count is the
    caller's business: a [kick] of the id right after takes the entry out
    again, closes that backend and lowers a count that [addBackend] never
    raised. *)
Theorem Gate_addBackend_then_kick (id : Z) (b : Backend) (w : World) :
  rwmutex (gate w) = unlocked ->
  exists w1 w2,
    run (Gate_addBackend id b) w = Finished tt w1 /\
    sessions (gate w1) !! id = Some b /\
    (forall id', id' <> id -> sessions (gate w1) !! id' = sessions (gate w) !! id') /\
    clinetnum (gate w1) = clinetnum (gate w) /\
    session (gate w1) = session (gate w) /\
    rwmutex (gate w1) = unlocked /\
    run (Gate_kick id) w1 = Finished tt w2 /\
    sessions (gate w2) = delete id (sessions (gate w)) /\
    clinetnum (gate w2) = uint32 (clinetnum (gate w) - 1) /\
    log w2 = log w ++ [EvLock; EvUnlock; EvLock; EvUnlock; EvClose b].
Proof.
  intros Hm. exists (registered id b w).
  assert (Hm1 : rwmutex (gate (registered id b w)) = unlocked) by exact Hm.
  assert (Hid : sessions (gate (registered id b w)) !! id = Some b)
    by (simpl; apply lookup_insert_eq).
  destruct (Backend_Close_run b (after_kick_lock id true (registered id b w)))
    as (w2 & Hr & Hg & Hl).
  exists w2. split; [exact (Gate_addBackend_run id b w Hm) |].
  split; [exact Hid |].
  split; [intros id' Hne; simpl; by apply lookup_insert_ne |].
  split; [reflexivity |]. split; [reflexivity |]. split; [exact Hm1 |].
  split; [rewrite (Gate_kick_run id _ Hm1), Hid; exact Hr |].
  rewrite Hg, Hl. simpl. split; [apply delete_insert_eq |].
  split; [reflexivity |]. by rewrite <- !app_assoc.
Qed.

Lemma Gate_addBackend_then_kick_witness :
  rwmutex (gate demo_world) = unlocked /\
  exists w1 w2,
    run (Gate_addBackend 5 (WsB 3)) demo_world = Finished tt w1 /\
    sessions (gate w1) !! 5 = Some (WsB 3) /\
    clinetnum (gate w1) = 1 /\
    run (Gate_kick 5) w1 = Finished tt w2 /\
    clinetnum (gate w2) = 0.
Proof.
  split; [reflexivity |].
  destruct (Gate_addBackend_then_kick 5 (WsB 3) demo_world eq_refl)
    as (w1 & w2 & H1 & H2 & _ & H3 & _ & _ & H4 & _ & H5 & _).
  exists w1, w2. split; [exact H1 |]. split; [exact H2 |]. split; [exact H3 |].
  split; [exact H4 | exact H5].
Defined.

(** X7: a write after the kick is absorbed.  Once a registered TCP session
    has been kicked, [Gate.Write] for its id returns nil and reaches no
    connection: the connection of the kicked backend is closed, and its
    wire is what it was before the kick. *)
Theorem Gate_Write_after_kick (id : Z) (t : TcpBackend) (data : list byte)
  (w : World) (x : Conn) :
  rwmutex (gate w) = unlocked ->
  sessions (gate w) !! id = Some (TcpB t) ->
  conns w !! t_conn t = Some x ->
  exists w1 w2,
    run (Gate_kick id) w = Finished tt w1 /\
    run (Gate_Write id data) w1 = Finished None w2 /\
    conns w2 = conns w1 /\
    gate w2 = gate w1 /\
    closed <$> conns w2 !! t_conn t = Some true /\
    wire <$> conns w2 !! t_conn t = Some (wire x) /\
    log w2 = log w ++ [EvLock; EvUnlock; EvClose (TcpB t); EvRLock; EvRUnlock].
Proof.
  intros Hm Hid Hx.
  set (x1 := set_closed true (set_werr None (set_wbuf [] x))).
  set (w1 := emit (EvClose (TcpB t)) (with_conn (t_conn t) x1 (after_kick_lock id true w))).
  exists w1, (after_rlock w1).
  assert (Hk : run (Gate_kick id) w = Finished tt w1).
  { rewrite (Gate_kick_run id w Hm), Hid. simpl. rewrite Hx. reflexivity. }
  assert (Hw1 : writer (rwmutex (gate w1)) = false) by (simpl; by rewrite Hm).
  assert (Hn : sessions (gate w1) !! id = None) by (simpl; apply lookup_delete_eq).
  split; [exact Hk |].
  split; [rewrite (Gate_Write_run id data w1 Hw1), Hn; reflexivity |].
  split; [reflexivity |]. split; [reflexivity |].
  split; [simpl; by rewrite lookup_insert_eq |].
  split; [simpl; by rewrite lookup_insert_eq |].
  simpl. by rewrite <- !app_assoc.
Qed.

Lemma Gate_Write_after_kick_witness :
  exists w1 w2,
    run (Gate_kick 1) demo_world = Finished tt w1 /\
    run (Gate_Write 1 hello) w1 = Finished None w2 /\
    wire <$> conns w2 !! 7 = Some [].
Proof.
  destruct (Gate_Write_after_kick 1 demo_backend hello demo_world (incoming [] false)
              eq_refl eq_refl eq_refl)
    as (w1 & w2 & H1 & H2 & _ & _ & _ & H3 & _).
  exists w1, w2. split; [exact H1 |]. split; [exact H2 | exact H3].
Defined.

(** ** Upgrade requests that are served *)

Lemma upgrade_served_run (N : Z) (r : Request) (w : World) :
  rwmutex (gate w) = unlocked ->
  N = 0 \/ clinetnum (gate w) < N ->
  handshake r = None ->
  run (upgrade_handler N r) w = Finished tt (upgraded r w).
Proof.
  intros Hm Hroom He.
  rewrite (upgrade_succeeded N r w Hroom He).
  rewrite run_bind, Gate_addBackend_run by exact Hm.
  run_simpl. unfold clinetnum_inc. run_simpl. unfold Websocket_Start.
  simpl wss. rewrite lookup_insert_eq.
  destruct w as [[m src ses cn mx ss] cs ws lg]. simpl in *. subst m.
  unfold upgraded, registered, emit, with_ws, with_gate, id_spent, set_sessions,
    set_clinetnum, set_session, set_ws_started. simpl.
  rewrite insert_insert_eq, <- app_assoc. reflexivity.
Qed.

(** X8: an upgrade request that finds room and whose handshake succeeds is
    served in one piece: one id is allocated, the websocket made by the
    handshake carries it and is started, the backend is registered under
    it through the lock, and the client count goes up by one; the other
    entries and the connections are untouched, and the lock is free again. *)
Theorem upgrade_served (N : Z) (r : Request) (w : World) :
  rwmutex (gate w) = unlocked ->
  N = 0 \/ clinetnum (gate w) < N ->
  handshake r = None ->
  run (upgrade_handler N r) w = Finished tt (upgraded r w) /\
  sessions (gate (upgraded r w)) !! uint32 (session (gate w) + 1)
  = Some (WsB (ws_handle r)) /\
  (forall id, id <> uint32 (session (gate w) + 1) ->
     sessions (gate (upgraded r w)) !! id = sessions (gate w) !! id) /\
  ws_session <$> wss (upgraded r w) !! ws_handle r = Some (uint32 (session (gate w) + 1)) /\
  clinetnum (gate (upgraded r w)) = uint32 (clinetnum (gate w) + 1) /\
  rwmutex (gate (upgraded r w)) = unlocked /\
  log (upgraded r w) = log w ++ [EvLock; EvUnlock; EvStart (ws_handle r)].
Proof.
  intros Hm Hroom He.
  split; [exact (upgrade_served_run N r w Hm Hroom He) |].
  split; [simpl; apply lookup_insert_eq |].
  split; [intros id Hne; simpl; by apply lookup_insert_ne |].
  split; [simpl; by rewrite lookup_insert_eq |].
  split; [reflexivity |]. split; [exact Hm | reflexivity].
Qed.

Lemma upgrade_served_witness :
  run (upgrade_handler 0 good_request) (world ws_gate)
  = Finished tt (upgraded good_request (world ws_gate)) /\
  sessions (gate (upgraded good_request (world ws_gate))) !! 1 = Some (WsB 4).
Proof.
  destruct (upgrade_served 0 good_request (world ws_gate) eq_refl (or_introl eq_refl) eq_refl)
    as (H1 & H2 & _).
  split; [exact H1 | exact H2].
Defined.

(** X9: one id for both directions.  After an upgrade that was served,
    the id under which the registry holds the backend is the id the
    callbacks of its websocket report: a message callback notifies the
    actor under that id with the bytes received, and [Gate.Write] for that
    id hands the payload to [SendText] of that websocket and returns what
    it returns. *)
Theorem upgrade_then_traffic (N : Z) (r : Request) (w : World) (message data : list byte) :
  rwmutex (gate w) = unlocked ->
  N = 0 \/ clinetnum (gate w) < N ->
  handshake r = None ->
  run (upgrade_handler N r;; wsHandler_OnMessage (ws_handle r) message) w
  = Finished tt
      (emit (EvNotify (Source (gate w)) (uint32 (session (gate w) + 1)) (OnMessage message))
            (upgraded r w)) /\
  run (upgrade_handler N r;; Gate_Write (uint32 (session (gate w) + 1)) data) w
  = run (act (SendText (ws_handle r) data)) (after_rlock (upgraded r w)) /\
  exists w',
    run (upgrade_handler N r;; Gate_Write (uint32 (session (gate w) + 1)) data) w
    = Finished None w' /\
    ws_sent <$> wss w' !! ws_handle r = Some [data].
Proof.
  intros Hm Hroom He.
  pose proof (upgrade_served_run N r w Hm Hroom He) as Hrun.
  assert (Hid : sessions (gate (upgraded r w)) !! uint32 (session (gate w) + 1)
                = Some (WsB (ws_handle r))) by (simpl; apply lookup_insert_eq).
  assert (Hwr : writer (rwmutex (gate (upgraded r w))) = false)
    by (simpl; by rewrite Hm).
  split; [| split].
  - rewrite run_bind, Hrun. unfold wsHandler_OnMessage, ws_Notify. rewrite run_act.
    simpl wss. rewrite lookup_insert_eq. reflexivity.
  - rewrite run_bind, Hrun, (Gate_Write_run _ data _ Hwr), Hid. reflexivity.
  - rewrite run_bind, Hrun, (Gate_Write_run _ data _ Hwr), Hid.
    eexists. split.
    + simpl Backend_Write. unfold WebsocketBackend_Write. rewrite run_act.
      unfold SendText. simpl wss. rewrite lookup_insert_eq. reflexivity.
    + simpl. rewrite lookup_insert_eq. reflexivity.
Qed.

Lemma upgrade_then_traffic_witness :
  exists w',
    run (upgrade_handler 0 good_request;; Gate_Write 1 hello) (world ws_gate)
    = Finished None w' /\
    ws_sent <$> wss w' !! 4 = Some [hello].
Proof.
  apply (upgrade_then_traffic 0 good_request (world ws_gate) hello hello
           eq_refl (or_introl eq_refl) eq_refl).
Defined.

(** ** Filling a TCP Gate *)

Lemma sys_run_snoc (s : Sys) (ins : list Input) (i : Input) :
  sys_run s (ins ++ [i]) = sys_step (sys_run s ins) i.
Proof. unfold sys_run. by rewrite fold_left_app. Qed.

Lemma accepts_run (N : Z) (cs : list Z) (s : Sys) (k : Z) :
  listener s = Accepting N ->
  session (gate (world s)) = k ->
  clinetnum (gate (world s)) = k ->
  0 <= k ->
  k + Z.of_nat (length cs) <= N ->
  N < 4294967296 ->
  listener (sys_run s (connections cs)) = Accepting N /\
  session (gate (world (sys_run s (connections cs)))) = k + Z.of_nat (length cs) /\
  clinetnum (gate (world (sys_run s (connections cs)))) = k + Z.of_nat (length cs) /\
  (forall (i : nat) (c : Z), cs !! i = Some c ->
     sessions (gate (world (sys_run s (connections cs)))) !! (k + Z.of_nat i + 1)
     = Some (TcpB (newTcpBackend (k + Z.of_nat i + 1) c))) /\
  (forall id, id <= k \/ k + Z.of_nat (length cs) < id ->
     sessions (gate (world (sys_run s (connections cs)))) !! id
     = sessions (gate (world s)) !! id) /\
  conns (world (sys_run s (connections cs))) = conns (world s).
Proof.
  revert s k. induction cs as [| c cs IH]; intros s k Hl Hs Hc Hk Hle HN.
  - simpl. rewrite Z.add_0_r. repeat split; try assumption.
    intros i c Hi. destruct i; discriminate Hi.
  - simpl length in *. rewrite Nat2Z.inj_succ in *.
    change (sys_run s (connections (c :: cs)))
      with (sys_run (sys_step s (InAccept (AcceptConn c))) (connections cs)).
    assert (Hstep : sys_step s (InAccept (AcceptConn c))
                    = mkSys (admitted c (world s)) (Accepting N)).
    { unfold sys_step. rewrite Hl.
      rewrite (accept_iteration_admits N c (world s)) by (right; lia). reflexivity. }
    rewrite Hstep.
    assert (Hu1 : uint32 (k + 1) = k + 1) by (unfold uint32; apply Z.mod_small; lia).
    destruct (IH (mkSys (admitted c (world s)) (Accepting N)) (k + 1))
      as (H1 & H2 & H3 & H4 & H5 & H6);
      [ reflexivity | simpl; by rewrite Hs | simpl; by rewrite Hc | lia | lia | exact HN |].
    split; [exact H1 |]. split; [rewrite H2; lia |]. split; [rewrite H3; lia |].
    split; [| split].
    + intros i c' Hi. destruct i as [| i].
      * injection Hi as <-. simpl Z.of_nat. rewrite Z.add_0_r.
        rewrite H5 by (left; lia). simpl. rewrite Hs, Hu1. apply lookup_insert_eq.
      * simpl in Hi. specialize (H4 i c' Hi).
        replace (k + Z.of_nat (S i) + 1) with (k + 1 + Z.of_nat i + 1) by lia.
        exact H4.
    + intros id Hid. rewrite H5 by lia. simpl. rewrite Hs, Hu1.
      apply lookup_insert_ne. lia.
    + rewrite H6. reflexivity.
Qed.

(** X10: a TCP Gate fills up to its cap and then shuts.  On a Gate that
    listens with a cap [N] and has allocated and admitted nothing yet, the
    first [N] connections are admitted: they get the ids 1 to [N] in the
    order of their arrival, each registered with its own connection, and
    the count is [N].  The connection after them is closed, the registry
    stays as it is and the accept loop leaves. *)
Theorem tcp_fills_to_cap (N : Z) (cs : list Z) (c : Z) (s : Sys) :
  listener s = Accepting N ->
  session (gate (world s)) = 0 ->
  clinetnum (gate (world s)) = 0 ->
  Z.of_nat (length cs) = N ->
  0 < N < 4294967296 ->
  listener (sys_run s (connections cs)) = Accepting N /\
  clinetnum (gate (world (sys_run s (connections cs)))) = N /\
  (forall (i : nat) (c' : Z), cs !! i = Some c' ->
     sessions (gate (world (sys_run s (connections cs)))) !! (Z.of_nat i + 1)
     = Some (TcpB (newTcpBackend (Z.of_nat i + 1) c'))) /\
  (forall id, id <= 0 \/ N < id ->
     sessions (gate (world (sys_run s (connections cs)))) !! id
     = sessions (gate (world s)) !! id) /\
  listener (sys_run s (connections (cs ++ [c]))) = AcceptStopped /\
  gate (world (sys_run s (connections (cs ++ [c]))))
  = gate (world (sys_run s (connections cs))) /\
  closed <$> conns (world (sys_run s (connections (cs ++ [c])))) !! c
  = (fun _ => true) <$> conns (world s) !! c.
Proof.
  intros Hl Hs Hc Hlen HN.
  destruct (accepts_run N cs s 0 Hl Hs Hc ltac:(lia) ltac:(lia) ltac:(lia))
    as (H1 & H2 & H3 & H4 & H5 & H6).
  split; [exact H1 |]. split; [rewrite H3; lia |].
  split; [intros i c' Hi; exact (H4 i c' Hi) |].
  split; [intros id Hid; apply H5; lia |].
  replace (connections (cs ++ [c])) with (connections cs ++ [InAccept (AcceptConn c)])
    by (unfold connections; by rewrite map_app).
  rewrite sys_run_snoc. set (s' := sys_run s (connections cs)) in *.
  unfold sys_step. rewrite H1.
  rewrite (accept_iteration_refuses N c (world s')) by lia.
  cbn [listener world]. split; [reflexivity |].
  rewrite <- H6.
  destruct (conns (world s') !! c) as [x |] eqn:E; simpl.
  - split; [reflexivity |]. by rewrite lookup_insert_eq.
  - split; [reflexivity |]. by rewrite E.
Qed.

Lemma tcp_fills_to_cap_witness :
  listener (sys_run one_seat (connections [7])) = Accepting 1 /\
  sessions (gate (world (sys_run one_seat (connections [7])))) !! 1
  = Some (TcpB (newTcpBackend 1 7)) /\
  listener (sys_run one_seat (connections ([7] ++ [8]))) = AcceptStopped.
Proof.
  destruct (tcp_fills_to_cap 1 [7] 8 one_seat eq_refl eq_refl eq_refl eq_refl
              ltac:(split; reflexivity))
    as (H1 & _ & H3 & _ & H5 & _).
  split; [exact H1 |]. split; [exact (H3 0%nat 7 eq_refl) | exact H5].
Defined.

(** ** Counting the clients *)

Lemma preserves_bind {R S : Type} (I : World -> Prop) (p : Prog R) (g : R -> Prog S) :
  preserves I p -> (forall r, preserves I (g r)) -> preserves I (p ≫= g).
Proof.
  intros Hp Hg w Hw. rewrite run_bind. specialize (Hp w Hw).
  destruct (run p w) as [r w' | w']; [apply Hg |]; exact Hp.
Qed.

Lemma preserves_mret {R : Type} (I : World -> Prop) (r : R) :
  preserves I (mret r : Prog R).
Proof. intros w Hw. exact Hw. Qed.

Lemma counted_gate (B : Z) (w w' : World) :
  gate w' = gate w -> counted B w -> counted B w'.
Proof. unfold counted. intros ->. auto. Qed.

Lemma preserves_same_gate {R : Type} (B : Z) (p : Prog R) :
  acts_in same_gate p -> preserves (counted B) p.
Proof.
  intros Hp w Hw.
  assert (Hg : same_gate w (world_of (run p w))).
  { apply acts_in_run; [reflexivity | | exact Hp].
    unfold same_gate. intros w1 w2 w3 H1 H2. congruence. }
  exact (counted_gate B w _ Hg Hw).
Qed.

(** [kick] keeps the count in order: it takes one off exactly when it
    takes an entry out. *)
Lemma counted_kick (B id : Z) : preserves (counted B) (Gate_kick id).
Proof.
  intros w Hw. pose proof Hw as (Hm & Hs & Hc & Hcs & HB & Hids).
  rewrite (Gate_kick_run id w Hm).
  destruct (sessions (gate w) !! id) as [b |] eqn:E.
  - destruct (Backend_Close_run b (after_kick_lock id true w)) as (w' & -> & Hg & _).
    apply (counted_gate B (after_kick_lock id true w)); [exact Hg |].
    assert (Hsz : size (delete id (sessions (gate w))) = Nat.pred (size (sessions (gate w))))
      by (apply map_size_delete_Some; eauto).
    assert (Hpos : (0 < size (sessions (gate w)))%nat).
    { destruct (size (sessions (gate w))) eqn:E0; [| lia].
      apply map_size_empty_iff in E0. rewrite E0, lookup_empty in E. discriminate. }
    assert (Hu : uint32 (clinetnum (gate w) - 1) = clinetnum (gate w) - 1)
      by (unfold uint32; apply Z.mod_small; lia).
    unfold counted. simpl. rewrite Hu, Hsz.
    split; [exact Hm |]. split; [exact Hs |]. split; [lia |].
    split; [lia |]. split; [lia |].
    intros id' b'. rewrite lookup_delete. case_decide; [discriminate | apply Hids].
  - apply (counted_gate B w); [reflexivity | exact Hw].
Qed.

Lemma counted_Write (B id : Z) (data : list byte) :
  preserves (counted B) (Gate_Write id data).
Proof.
  intros w Hw. pose proof Hw as (Hm & _).
  assert (Hwr : writer (rwmutex (gate w)) = false) by (by rewrite Hm).
  rewrite (Gate_Write_run id data w Hwr).
  destruct (sessions (gate w) !! id) as [b |].
  - apply (preserves_same_gate B _ (same_gate_Backend_Write b data) (after_rlock w)).
    apply (counted_gate B w); [reflexivity | exact Hw].
  - apply (counted_gate B w); [reflexivity | exact Hw].
Qed.

Lemma counted_serve (B : Z) (fuel : nat) (t : TcpBackend) (head : list byte) :
  preserves (counted B) (TcpBackend_serve fuel t head).
Proof.
  revert head. induction fuel as [| fuel IH]; intros head; [apply preserves_mret |].
  rewrite serve_unfold.
  apply preserves_bind; [apply preserves_same_gate, same_gate_readFull |].
  intros [head' [e |]].
  { apply preserves_bind; [apply counted_kick | intros _; apply preserves_mret]. }
  destruct (BigEndian.Uint16 head') as [n |]; [| apply preserves_mret].
  apply preserves_bind; [apply preserves_same_gate, same_gate_readFull |].
  intros [data [e |]].
  { apply preserves_bind; [apply counted_kick | intros _; apply preserves_mret]. }
  apply preserves_bind; [| intros _; apply IH].
  apply preserves_same_gate, acts_in_act. intros w a w' H. injection H as <- <-.
  reflexivity.
Qed.

Lemma counted_ws_Notify (B h : Z) (e : ClientEvent) :
  preserves (counted B) (ws_Notify h e).
Proof.
  apply preserves_same_gate, acts_in_act. intros w a w' H.
  destruct (wss w !! h); [| discriminate]. injection H as <- <-. reflexivity.
Qed.

(** Admitting one more: the id is new, so the registry grows by one, as
    the count does. *)
Lemma counted_admit (B N : Z) (b : Backend) (w : World) :
  counted B w ->
  session (gate w) + 1 < 4294967296 ->
  cap_ok B N ->
  N = 0 \/ clinetnum (gate w) < N ->
  forall g',
    rwmutex g' = unlocked ->
    session g' = uint32 (session (gate w) + 1) ->
    clinetnum g' = uint32 (clinetnum (gate w) + 1) ->
    sessions g' = <[uint32 (session (gate w) + 1) := b]> (sessions (gate w)) ->
    forall w', gate w' = g' -> counted B w'.
Proof.
  intros (Hm & Hs & Hc & Hcs & HB & Hids) Hb Hcap Hroom g' Hm' Hs' Hc' Hss' w' Hg.
  assert (Hu : uint32 (session (gate w) + 1) = session (gate w) + 1)
    by (unfold uint32; apply Z.mod_small; lia).
  assert (Hfresh : sessions (gate w) !! (session (gate w) + 1) = None).
  { destruct (sessions (gate w) !! (session (gate w) + 1)) as [b0 |] eqn:E; [| reflexivity].
    apply Hids in E. lia. }
  assert (Hcn : 0 <= clinetnum (gate w)) by lia.
  assert (Huc : uint32 (clinetnum (gate w) + 1) = clinetnum (gate w) + 1)
    by (unfold uint32; apply Z.mod_small; lia).
  unfold counted. rewrite Hg, Hm', Hs', Hc', Hss', Hu, Huc.
  rewrite (map_size_insert_None _ _ _ Hfresh).
  split; [reflexivity |]. split; [lia |]. split; [lia |]. split; [lia |].
  split.
  - destruct Hcap as [[HN HNB] | HBig]; [| lia].
    destruct Hroom as [-> | Hlt]; [done | lia].
  - intros id b'. rewrite lookup_insert. case_decide as Hid.
    + intros _. lia.
    + intros E. apply Hids in E. lia.
Qed.

(** The count in order after a step, the id counter moved by one at most. *)
Lemma counted_quiet {R : Type} (B : Z) (p : Prog R) (w : World) :
  acts_in quiet p -> preserves (counted B) p -> counted B w ->
  counted B (world_of (run p w)) /\
  session (gate w) <= session (gate (world_of (run p w))) <= session (gate w) + 1.
Proof.
  intros Hq Hp Hw. split; [exact (Hp w Hw) |].
  destruct (acts_in_run quiet p w quiet_refl quiet_trans Hq) as (Hs & _).
  rewrite Hs. lia.
Qed.

Lemma counted_accept (B N : Z) (r : AcceptResult) (w : World) :
  counted B w ->
  session (gate w) + 1 < 4294967296 ->
  cap_ok B N ->
  counted B (world_of (run (accept_iteration N r) w)) /\
  session (gate w) <= session (gate (world_of (run (accept_iteration N r) w)))
                   <= session (gate w) + 1.
Proof.
  intros Hw Hb Hcap.
  assert (Hu : uint32 (session (gate w) + 1) = session (gate w) + 1)
    by (destruct Hw as (_ & Hs & _); unfold uint32; apply Z.mod_small; lia).
  destruct r as [e | c]; [rewrite accept_iteration_error; split; [exact Hw | simpl; lia] |].
  assert (Hroom : N = 0 \/ clinetnum (gate w) < N ->
            counted B (world_of (run (accept_iteration N (AcceptConn c)) w)) /\
            session (gate w)
            <= session (gate (world_of (run (accept_iteration N (AcceptConn c)) w)))
            <= session (gate w) + 1).
  { intros Hroom. rewrite (accept_iteration_admits N c w Hroom). cbn [world_of].
    split; [| simpl; rewrite Hu; lia].
    apply (counted_admit B N (TcpB (newTcpBackend (uint32 (session (gate w) + 1)) c))
             w Hw Hb Hcap Hroom (gate (admitted c w))); try reflexivity.
    exact (proj1 Hw). }
  destruct (Z.eq_dec N 0) as [HN | HN]; [apply Hroom; by left |].
  destruct (Z.le_gt_cases N (clinetnum (gate w))) as [Hle | Hgt]; [| apply Hroom; right; lia].
  rewrite (accept_iteration_refuses N c w HN Hle). cbn [world_of].
  destruct (conns w !! c); (split; [apply (counted_gate B w); [reflexivity | exact Hw] |]);
    simpl; lia.
Qed.

Lemma counted_upgrade (B N : Z) (r : Request) (w : World) :
  counted B w ->
  session (gate w) + 1 < 4294967296 ->
  cap_ok B N ->
  counted B (world_of (run (upgrade_handler N r) w)) /\
  session (gate w) <= session (gate (world_of (run (upgrade_handler N r) w)))
                   <= session (gate w) + 1.
Proof.
  intros Hw Hb Hcap.
  assert (Hu : uint32 (session (gate w) + 1) = session (gate w) + 1)
    by (destruct Hw as (_ & Hs & _); unfold uint32; apply Z.mod_small; lia).
  assert (Hroom : N = 0 \/ clinetnum (gate w) < N ->
            counted B (world_of (run (upgrade_handler N r) w)) /\
            session (gate w)
            <= session (gate (world_of (run (upgrade_handler N r) w)))
            <= session (gate w) + 1).
  { intros Hroom. destruct (handshake r) as [e |] eqn:He.
    - rewrite (upgrade_failed N r e w Hroom He). cbn [world_of].
      split; [| simpl; rewrite Hu; lia].
      destruct Hw as (Hm & Hs & Hc & Hcs & HB & Hids).
      unfold counted. simpl. rewrite Hu.
      split; [exact Hm |]. split; [lia |]. split; [exact Hc |].
      split; [lia |]. split; [exact HB |].
      intros id b E. apply Hids in E. lia.
    - rewrite (upgrade_served_run N r w (proj1 Hw) Hroom He). cbn [world_of].
      split; [| simpl; rewrite Hu; lia].
      apply (counted_admit B N (WsB (ws_handle r)) w Hw Hb Hcap Hroom
               (gate (upgraded r w))); try reflexivity.
      exact (proj1 Hw). }
  destruct (Z.eq_dec N 0) as [HN | HN]; [apply Hroom; by left |].
  destruct (Z.le_gt_cases N (clinetnum (gate w))) as [Hle | Hgt]; [| apply Hroom; right; lia].
  rewrite (upgrade_refused N r w HN Hle). split; [exact Hw | simpl; lia].
Qed.

Lemma sys_step_accept_world (s : Sys) (r : AcceptResult) :
  world (sys_step s (InAccept r))
  = match listener s with
    | Accepting N => world_of (run (accept_iteration N r) (world s))
    | _ => world s
    end.
Proof.
  unfold sys_step. destruct (listener s) as [| N | | N]; try reflexivity.
  destruct (run (accept_iteration N r) (world s)) as [[|] w' | w']; reflexivity.
Qed.

(** A step never brings in a listener with another cap, short of [OPEN]. *)
Lemma sys_step_listener (s : Sys) (i : Input) (N : Z) :
  not_open i ->
  listener (sys_step s i) = Accepting N \/ listener (sys_step s i) = Upgrading N ->
  listener s = Accepting N \/ listener s = Upgrading N.
Proof.
  intros Hi. destruct s as [w l].
  destruct i as [r | r | src [conf | id] | id data | fuel t head | h e];
    unfold sys_step, Start, ResponseStart; cbn [listener world].
  - destruct l as [| N' | | N']; cbn [listener]; try tauto.
    destruct (run (accept_iteration N' r) w) as [[|] w' | w']; cbn [listener];
      try tauto.
    intros [H | H]; discriminate H.
  - destruct l as [| N' | | N']; cbn [listener]; tauto.
  - destruct Hi.
  - tauto.
  - tauto.
  - tauto.
  - tauto.
Qed.

Lemma counted_step (B : Z) (s : Sys) (i : Input) :
  counted B (world s) ->
  session (gate (world s)) + 1 < 4294967296 ->
  listener_ok B s ->
  not_open i \/ 4294967295 <= B ->
  counted B (world (sys_step s i)) /\
  session (gate (world s)) <= session (gate (world (sys_step s i)))
                           <= session (gate (world s)) + 1 /\
  listener_ok B (sys_step s i).
Proof.
  intros Hw Hb Hl Hi.
  assert (Hlok : listener_ok B (sys_step s i)).
  { intros N HN. destruct Hi as [Hi | HB]; [| by right].
    apply Hl. exact (sys_step_listener s i N Hi HN). }
  cut (counted B (world (sys_step s i)) /\
       session (gate (world s)) <= session (gate (world (sys_step s i)))
                                <= session (gate (world s)) + 1).
  { intros [H1 H2]. split; [exact H1 |]. split; [exact H2 | exact Hlok]. }
  clear Hlok.
  destruct i as [r | r | src [conf | id] | id data | fuel t head | h e].
  - rewrite sys_step_accept_world.
    destruct (listener s) as [| N | | N] eqn:El; try (split; [exact Hw | lia]).
    apply counted_accept; [exact Hw | exact Hb | apply Hl; by left].
  - unfold sys_step.
    destruct (listener s) as [| N | | N] eqn:El; try (split; [exact Hw | lia]).
    cbn [world]. apply counted_upgrade; [exact Hw | exact Hb | apply Hl; by right].
  - unfold sys_step, Start, Gate_open.
    destruct (path conf); cbn [world]; (split; [| simpl; lia]);
      exact Hw.
  - apply counted_quiet; [apply quiet_Gate_kick | apply counted_kick | exact Hw].
  - apply counted_quiet; [apply quiet_Gate_Write | apply counted_Write | exact Hw].
  - apply counted_quiet; [apply quiet_serve | apply counted_serve | exact Hw].
  - apply counted_quiet; [apply quiet_ws_Notify | apply counted_ws_Notify | exact Hw].
Qed.

Lemma counted_run (B : Z) (ins : list Input) (s : Sys) :
  counted B (world s) ->
  session (gate (world s)) + Z.of_nat (length ins) < 4294967296 ->
  listener_ok B s ->
  Forall not_open ins \/ 4294967295 <= B ->
  counted B (world (sys_run s ins)).
Proof.
  revert s. induction ins as [| i ins IH]; intros s Hw Hb Hl Hi; [exact Hw |].
  simpl length in Hb.
  assert (Hi1 : not_open i \/ 4294967295 <= B).
  { destruct Hi as [Hi | HB]; [left; by inversion Hi | by right]. }
  assert (Hi2 : Forall not_open ins \/ 4294967295 <= B).
  { destruct Hi as [Hi | HB]; [left; by inversion Hi | by right]. }
  destruct (counted_step B s i Hw ltac:(lia) Hl Hi1) as (Hw1 & Hs1 & Hl1).
  apply (IH (sys_step s i) Hw1); [lia | exact Hl1 | exact Hi2].
Qed.

Lemma counted_new (B : Z) (w : World) :
  0 <= B ->
  rwmutex (gate w) = unlocked -> session (gate w) = 0 -> clinetnum (gate w) = 0 ->
  sessions (gate w) = ∅ ->
  counted B w.
Proof.
  intros HB Hm Hs Hc Hss. unfold counted. rewrite Hm, Hs, Hc, Hss, map_size_empty.
  split; [reflexivity |]. split; [lia |]. split; [reflexivity |].
  split; [lia |]. split; [exact HB |].
  intros id b E. rewrite lookup_empty in E. discriminate.
Qed.

(** X11: the client count is the number of registered sessions.  From the
    Gate that [Start] creates, after any inputs handled one after the
    other (commands, connections, upgrade requests, writes, read loops,
    websocket callbacks), fewer of them than the id counter can count, the
    count equals the size of the registry and every registered id has been
    allocated. *)
Theorem count_is_registry_size (ins : list Input) :
  Z.of_nat (length ins) < 4294967296 ->
  clinetnum (gate (world (sys_run fresh ins)))
  = Z.of_nat (size (sessions (gate (world (sys_run fresh ins))))) /\
  (forall id b, sessions (gate (world (sys_run fresh ins))) !! id = Some b ->
     1 <= id <= session (gate (world (sys_run fresh ins)))).
Proof.
  intros Hlen.
  assert (H0 : counted 4294967295 (world fresh))
    by (apply counted_new; [lia | reflexivity ..]).
  destruct (counted_run 4294967295 ins fresh H0) as (_ & _ & Hc & _ & _ & Hids).
  - simpl. lia.
  - intros N [H | H]; discriminate H.
  - right. lia.
  - split; [exact Hc | exact Hids].
Qed.

Lemma count_is_registry_size_witness :
  Z.of_nat (length [InCmd 5 (OPEN (NewConf [] 1 [])); InAccept (AcceptConn 7);
                    InAccept (AcceptConn 8); InCmd 5 (KICK 1)]) < 4294967296 /\
  clinetnum (gate (world (sys_run fresh
     [InCmd 5 (OPEN (NewConf [] 1 [])); InAccept (AcceptConn 7);
      InAccept (AcceptConn 8); InCmd 5 (KICK 1)])))
  = Z.of_nat (size (sessions (gate (world (sys_run fresh
     [InCmd 5 (OPEN (NewConf [] 1 [])); InAccept (AcceptConn 7);
      InAccept (AcceptConn 8); InCmd 5 (KICK 1)]))))).
Proof.
  split; [vm_compute; reflexivity |].
  apply (count_is_registry_size
           [InCmd 5 (OPEN (NewConf [] 1 [])); InAccept (AcceptConn 7);
            InAccept (AcceptConn 8); InCmd 5 (KICK 1)]).
  vm_compute. reflexivity.
Defined.

(** X12: the cap holds.  A Gate opened once with a cap other than 0, in
    either mode, never has more registered sessions than the cap, whatever
    reaches it afterwards short of a new [OPEN], as long as the inputs are
    handled one after the other and the id counter does not wrap. *)
Theorem cap_respected (source : Z) (conf : Conf) (ins : list Input) :
  0 < conf_maxclient conf ->
  Forall not_open ins ->
  Z.of_nat (length ins) < 4294967296 ->
  Z.of_nat (size (sessions (gate (world
     (sys_run (Start source (OPEN conf) fresh) ins))))) <= conf_maxclient conf /\
  clinetnum (gate (world (sys_run (Start source (OPEN conf) fresh) ins)))
  <= conf_maxclient conf.
Proof.
  intros HN Hins Hlen.
  set (s0 := Start source (OPEN conf) fresh).
  assert (H0 : counted (conf_maxclient conf) (world s0)).
  { subst s0. unfold Start, Gate_open. destruct (path conf); cbn [world];
      (apply counted_new; [lia | reflexivity ..]). }
  assert (Hl0 : listener_ok (conf_maxclient conf) s0).
  { subst s0. unfold Start, Gate_open. intros N HL. left.
    destruct (path conf); cbn [listener] in HL;
      destruct HL as [HL | HL]; try discriminate HL; injection HL as <-; lia. }
  assert (Hs0 : session (gate (world s0)) = 0).
  { subst s0. unfold Start, Gate_open. destruct (path conf); reflexivity. }
  destruct (counted_run (conf_maxclient conf) ins s0 H0) as (_ & _ & Hc & _ & HB & _).
  - rewrite Hs0. lia.
  - exact Hl0.
  - left. exact Hins.
  - split; [rewrite <- Hc; exact HB | exact HB].
Qed.

Lemma cap_respected_witness :
  Z.of_nat (size (sessions (gate (world
     (sys_run (Start 5 (OPEN (NewConf [] 1 [])) fresh)
        [InAccept (AcceptConn 7); InAccept (AcceptConn 8)]))))) <= 1.
Proof.
  apply (cap_respected 5 (NewConf [] 1 []) [InAccept (AcceptConn 7); InAccept (AcceptConn 8)]).
  - vm_compute. reflexivity.
  - repeat constructor.
  - vm_compute. reflexivity.
Defined.

(** ** The buffer pools *)

Lemma newBufioReader_clean (choice : option nat) (r : Z) (p : BufPool.Pools) :
  (forall h, In h (BufPool.bufioReaderPool p) -> is_Some (BufPool.reader_heap p !! h)) ->
  BufPool.reader_heap (BufPool.newBufioReader choice r p).2
    !! (BufPool.newBufioReader choice r p).1
  = Some (BufPool.mkReader (Some r) [] None) /\
  BufPool.writer_heap (BufPool.newBufioReader choice r p).2 = BufPool.writer_heap p /\
  BufPool.bufioWriterPool (BufPool.newBufioReader choice r p).2 = BufPool.bufioWriterPool p.
Proof.
  intros Hpool. unfold BufPool.newBufioReader, BufPool.Get.
  destruct choice as [i |]; [destruct (BufPool.bufioReaderPool p !! i) as [h |] eqn:E |];
    simpl; try (by rewrite lookup_insert_eq).
  destruct (Hpool h) as [x Hx].
  { apply list_elem_of_In, list_elem_of_lookup. eauto. }
  rewrite lookup_alter_eq, Hx. by repeat split.
Qed.

Lemma newBufioWriter_clean (choice : option nat) (w : Z) (p : BufPool.Pools) :
  (forall h, In h (BufPool.bufioWriterPool p) -> is_Some (BufPool.writer_heap p !! h)) ->
  BufPool.writer_heap (BufPool.newBufioWriter choice w p).2
    !! (BufPool.newBufioWriter choice w p).1
  = Some (BufPool.mkWriter (Some w) [] None) /\
  BufPool.reader_heap (BufPool.newBufioWriter choice w p).2 = BufPool.reader_heap p.
Proof.
  intros Hpool. unfold BufPool.newBufioWriter, BufPool.Get.
  destruct choice as [i |]; [destruct (BufPool.bufioWriterPool p !! i) as [h |] eqn:E |];
    simpl; try (by rewrite lookup_insert_eq).
  destruct (Hpool h) as [x Hx].
  { apply list_elem_of_In, list_elem_of_lookup. eauto. }
  rewrite lookup_alter_eq, Hx. by repeat split.
Qed.

(** X14: a backend starts with clean buffers.  Whatever objects the pools
    hold, with whatever bytes and errors of earlier connections in them,
    and whichever of them [sync.Pool] hands out (or none), the reader and
    the writer of the backend [newTcpBackend] makes are bound to its own
    connection, hold no bytes and carry no error. *)
Theorem newTcpBackend_clean (cr cw : option nat) (session conn : Z) (p : BufPool.Pools) :
  BufPool.pooled_exist p ->
  BufPool.session (BufPool.newTcpBackend cr cw session conn p).1 = session /\
  BufPool.conn (BufPool.newTcpBackend cr cw session conn p).1 = conn /\
  BufPool.reader_heap (BufPool.newTcpBackend cr cw session conn p).2
    !! BufPool.brw_Reader (BufPool.newTcpBackend cr cw session conn p).1
  = Some (BufPool.mkReader (Some conn) [] None) /\
  BufPool.writer_heap (BufPool.newTcpBackend cr cw session conn p).2
    !! BufPool.brw_Writer (BufPool.newTcpBackend cr cw session conn p).1
  = Some (BufPool.mkWriter (Some conn) [] None).
Proof.
  intros [Hr Hw]. unfold BufPool.newTcpBackend.
  destruct (newBufioReader_clean cr conn p Hr) as (H1 & H2 & H3).
  destruct (BufPool.newBufioReader cr conn p) as [br p1] eqn:E1. simpl in H1, H2, H3.
  assert (Hw1 : forall h, In h (BufPool.bufioWriterPool p1) ->
                  is_Some (BufPool.writer_heap p1 !! h))
    by (rewrite H2, H3; exact Hw).
  destruct (newBufioWriter_clean cw conn p1 Hw1) as (H4 & H5).
  destruct (BufPool.newBufioWriter cw conn p1) as [bw p2] eqn:E2. simpl in H4, H5.
  simpl. rewrite H5. by repeat split.
Qed.

Lemma newTcpBackend_clean_witness :
  BufPool.pooled_exist BufPool.start /\
  BufPool.reader_heap (BufPool.newTcpBackend None (Some 0%nat) 1 7 BufPool.start).2
    !! BufPool.brw_Reader (BufPool.newTcpBackend None (Some 0%nat) 1 7 BufPool.start).1
  = Some (BufPool.mkReader (Some 7) [] None).
Proof.
  assert (H : BufPool.pooled_exist BufPool.start) by (split; intros h []).
  split; [exact H |].
  apply (newTcpBackend_clean None (Some 0%nat) 1 7 BufPool.start H).
Defined.

(** X15: [Close] gives both buffers back, detached.  After
    [TcpBackend.Close] the reader and the writer of the backend are bound
    to no stream and hold no bytes (what was written and not flushed is
    dropped), each is the newest entry of its pool, the connection is
    closed, and no other object has changed. *)
Theorem Close_releases (t : BufPool.Backend) (p : BufPool.Pools)
  (r : BufPool.Reader) (w : BufPool.Writer) :
  BufPool.reader_heap p !! BufPool.brw_Reader t = Some r ->
  BufPool.writer_heap p !! BufPool.brw_Writer t = Some w ->
  BufPool.reader_heap (BufPool.Close t p) !! BufPool.brw_Reader t
  = Some (BufPool.mkReader None [] None) /\
  BufPool.writer_heap (BufPool.Close t p) !! BufPool.brw_Writer t
  = Some (BufPool.mkWriter None [] None) /\
  BufPool.bufioReaderPool (BufPool.Close t p)
  = BufPool.brw_Reader t :: BufPool.bufioReaderPool p /\
  BufPool.bufioWriterPool (BufPool.Close t p)
  = BufPool.brw_Writer t :: BufPool.bufioWriterPool p /\
  (BufPool.conn t ∉ BufPool.open_conns (BufPool.Close t p)) /\
  (forall h, h <> BufPool.brw_Reader t ->
     BufPool.reader_heap (BufPool.Close t p) !! h = BufPool.reader_heap p !! h) /\
  (forall h, h <> BufPool.brw_Writer t ->
     BufPool.writer_heap (BufPool.Close t p) !! h = BufPool.writer_heap p !! h) /\
  (BufPool.pooled_exist p -> BufPool.pooled_exist (BufPool.Close t p)).
Proof.
  intros Hr Hw. unfold BufPool.Close, BufPool.putBufioWriter, BufPool.putBufioReader,
    BufPool.Put. simpl.
  split; [by rewrite lookup_alter_eq, Hr |].
  split; [by rewrite lookup_alter_eq, Hw |].
  split; [reflexivity |]. split; [reflexivity |].
  split; [apply not_elem_of_difference; right; by apply elem_of_singleton |].
  split; [intros h Hne; by rewrite lookup_alter_ne |].
  split; [intros h Hne; by rewrite lookup_alter_ne |].
  intros [H1 H2]. split; intros h [<- | Hin]; simpl.
  - rewrite lookup_alter_eq, Hr. by eexists.
  - rewrite lookup_alter. case_decide; [subst; rewrite Hr; by eexists | by apply H1].
  - rewrite lookup_alter_eq, Hw. by eexists.
  - rewrite lookup_alter. case_decide; [subst; rewrite Hw; by eexists | by apply H2].
Qed.

Lemma Close_releases_witness :
  BufPool.bufioWriterPool
    (BufPool.Close (BufPool.newTcpBackend None None 1 7 BufPool.start).1
                   (BufPool.newTcpBackend None None 1 7 BufPool.start).2)
  = [1].
Proof.
  apply (Close_releases (BufPool.newTcpBackend None None 1 7 BufPool.start).1
           (BufPool.newTcpBackend None None 1 7 BufPool.start).2
           (BufPool.mkReader (Some 7) [] None) (BufPool.mkWriter (Some 7) [] None)
           eq_refl eq_refl).
Defined.

(** X16: buffers are recycled, clean.  When a backend is closed and the
    next [newTcpBackend] is handed the objects just released, the new
    backend has the very reader and writer of the closed one, now bound to
    the new connection and empty: nothing the old connection had buffered
    is left in them, the pools are as they were before the [Close], and no
    new object was made. *)
Theorem Close_then_newTcpBackend (t : BufPool.Backend) (p : BufPool.Pools)
  (r : BufPool.Reader) (w : BufPool.Writer) (session conn : Z) :
  BufPool.reader_heap p !! BufPool.brw_Reader t = Some r ->
  BufPool.writer_heap p !! BufPool.brw_Writer t = Some w ->
  BufPool.brw_Reader
    (BufPool.newTcpBackend (Some 0%nat) (Some 0%nat) session conn (BufPool.Close t p)).1
  = BufPool.brw_Reader t /\
  BufPool.brw_Writer
    (BufPool.newTcpBackend (Some 0%nat) (Some 0%nat) session conn (BufPool.Close t p)).1
  = BufPool.brw_Writer t /\
  BufPool.reader_heap
    (BufPool.newTcpBackend (Some 0%nat) (Some 0%nat) session conn (BufPool.Close t p)).2
    !! BufPool.brw_Reader t
  = Some (BufPool.mkReader (Some conn) [] None) /\
  BufPool.writer_heap
    (BufPool.newTcpBackend (Some 0%nat) (Some 0%nat) session conn (BufPool.Close t p)).2
    !! BufPool.brw_Writer t
  = Some (BufPool.mkWriter (Some conn) [] None) /\
  BufPool.bufioReaderPool
    (BufPool.newTcpBackend (Some 0%nat) (Some 0%nat) session conn (BufPool.Close t p)).2
  = BufPool.bufioReaderPool p /\
  BufPool.bufioWriterPool
    (BufPool.newTcpBackend (Some 0%nat) (Some 0%nat) session conn (BufPool.Close t p)).2
  = BufPool.bufioWriterPool p /\
  BufPool.next
    (BufPool.newTcpBackend (Some 0%nat) (Some 0%nat) session conn (BufPool.Close t p)).2
  = BufPool.next p.
Proof.
  intros Hr Hw.
  unfold BufPool.newTcpBackend, BufPool.newBufioReader, BufPool.newBufioWriter,
    BufPool.Get, BufPool.Close, BufPool.putBufioWriter, BufPool.putBufioReader,
    BufPool.Put. simpl.
  split; [reflexivity |]. split; [reflexivity |].
  split; [by rewrite !lookup_alter_eq, Hr |].
  split; [by rewrite !lookup_alter_eq, Hw |].
  by repeat split.
Qed.

Lemma Close_then_newTcpBackend_witness :
  BufPool.brw_Writer
    (BufPool.newTcpBackend (Some 0%nat) (Some 0%nat) 2 8
       (BufPool.Close (BufPool.newTcpBackend None None 1 7 BufPool.start).1
                      (BufPool.newTcpBackend None None 1 7 BufPool.start).2)).1
  = 1.
Proof.
  apply (Close_then_newTcpBackend (BufPool.newTcpBackend None None 1 7 BufPool.start).1
           (BufPool.newTcpBackend None None 1 7 BufPool.start).2
           (BufPool.mkReader (Some 7) [] None) (BufPool.mkWriter (Some 7) [] None)
           2 8 eq_refl eq_refl).
Defined.
